(** * PDF++ (obsidian-pdf-plus): settings tab and backlink highlighter

    A shallow embedding of [src/settings.ts], which holds three source files
    of the plugin one after the other: the settings tab ([PDFPlusSettings],
    [DEFAULT_SETTINGS], [PDFPlusSettingTab]), the DOM event helpers, and the
    backlink highlighter ([BacklinkHighlighter]).

    The plugin runs inside Obsidian.  What the host supplies is modelled as
    follows:
    - JavaScript built-ins ([parseInt], [String.prototype.split],
      [String.prototype.substring], [URLSearchParams], the [in] operator) are
      written out as executable functions;
    - functions of the plugin that are not part of [src/settings.ts]
      ([getSubpathWithoutHash], [onTextLayerReady], [onAnnotationLayerReady]
      from [utils]) and host queries whose result depends on the live DOM
      ([querySelector], the backlink pane) are [Variable]s of the section;
    - methods with side effects are functions in a state monad with
      exceptions, [JS S A], whose state [S] is the object the method
      belongs to. *)

From Stdlib Require Import ZArith Ascii String Floats.PrimFloat.
From Stdlib Require Uint63.
From stdpp Require Import gmap strings list fin_maps.

#[local] Set Warnings "-register-all".

Local Open Scope Z_scope.
Local Open Scope string_scope.
Local Open Scope list_scope.

(** ** Numbers

    The highlighter only handles numbers that come out of [parseInt], page
    numbers handed over by the viewer, and loop counters: integers or [NaN].
    Integers are kept exact (the rounding of doubles beyond 2^53 is not
    modelled).  The settings hold arbitrary doubles; see [JSValue]. *)

Inductive number : Type :=
| NaN
| Int (z : Z).

#[global] Instance number_eq_dec : EqDecision number.
Proof. solve_decision. Defined.

Definition number_to_option (n : number) : option Z :=
  match n with NaN => None | Int z => Some z end.

Definition number_of_option (o : option Z) : number :=
  match o with None => NaN | Some z => Int z end.

#[global] Instance number_countable : Countable number.
Proof.
  refine (inj_countable' number_to_option number_of_option _).
  intros []; reflexivity.
Defined.

(** [a < b]: false as soon as one side is [NaN]. *)
Definition num_lt (a b : number) : bool :=
  match a, b with
  | Int x, Int y => bool_decide (x < y)
  | _, _ => false
  end.

(** [a > b]. *)
Definition num_gt (a b : number) : bool := num_lt b a.

(** [a === b] on numbers: [NaN] is not equal to itself. *)
Definition strict_eq (a b : number) : bool :=
  match a, b with
  | Int x, Int y => bool_decide (x = y)
  | _, _ => false
  end.

(** [a + b] and [a - b]. *)
Definition num_add (a b : number) : number :=
  match a, b with
  | Int x, Int y => Int (x + y)
  | _, _ => NaN
  end.

Definition num_sub (a b : number) : number :=
  match a, b with
  | Int x, Int y => Int (x - y)
  | _, _ => NaN
  end.

(** The position a number names in an array, if it names one: a
    non-negative integer. *)
Definition array_index (n : number) : option nat :=
  match n with
  | Int z => if bool_decide (0 <= z) then Some (Z.to_nat z) else None
  | NaN => None
  end.

(** [arr[n]]: [undefined] (here [None]) unless [n] is an integer within the
    array. *)
Definition array_get {A : Type} (arr : list A) (n : number) : option A :=
  array_index n ≫= λ k, arr !! k.

(** [arr[n] = x] for an [n] that is within the array (the only use the
    plugin makes of an indexed assignment). *)
Definition array_set {A : Type} (arr : list A) (n : number) (x : A) : list A :=
  match array_index n with
  | Some k => <[k := x]> arr
  | None => arr
  end.

(** ** Strings

    A string is its sequence of code units; the functions below are exact on
    ASCII text. *)

(** [s.split(sep)] for a one-character separator. *)
Fixpoint split (sep : ascii) (s : string) : list string :=
  match s with
  | EmptyString => [EmptyString]
  | String c rest =>
      if Ascii.eqb c sep then EmptyString :: split sep rest
      else match split sep rest with
           | [] => [String c EmptyString]
           | w :: ws => String c w :: ws
           end
  end.

(** White space skipped by [parseInt] (the ASCII part of [StrWhiteSpaceChar]). *)
Definition is_white_space (c : ascii) : bool :=
  let n := nat_of_ascii c in
  bool_decide (n = 9 \/ n = 10 \/ n = 11 \/ n = 12 \/ n = 13 \/ n = 32)%nat.

Fixpoint skip_white_space (s : string) : string :=
  match s with
  | String c rest => if is_white_space c then skip_white_space rest else s
  | EmptyString => s
  end.

(** The value of [c] as a digit in [radix] (10 or 16). *)
Definition digit_value (radix : Z) (c : ascii) : option Z :=
  let n := Z.of_nat (nat_of_ascii c) in
  let v :=
    if bool_decide (48 <= n <= 57) then Some (n - 48)
    else if bool_decide (97 <= n <= 122) then Some (n - 87)
    else if bool_decide (65 <= n <= 90) then Some (n - 55)
    else None in
  match v with
  | Some d => if bool_decide (d < radix) then Some d else None
  | None => None
  end.

(** The longest prefix of digits, as a number; [acc] is [None] until a digit
    has been read. *)
Fixpoint parse_digits (radix : Z) (s : string) (acc : option Z) : option Z :=
  match s with
  | String c rest =>
      match digit_value radix c with
      | Some d => parse_digits radix rest (Some (default 0 acc * radix + d))
      | None => acc
      end
  | EmptyString => acc
  end.

(** [parseInt(s)] with no radix argument (ECMA-262, 19.2.5). *)
Definition parseInt (s : string) : number :=
  let s := skip_white_space s in
  let '(sign, s) :=
    match s with
    | String "-" rest => (-1, rest)
    | String "+" rest => (1, rest)
    | _ => (1, s)
    end in
  let '(radix, s) :=
    match s with
    | String "0" (String "x" rest) => (16, rest)
    | String "0" (String "X" rest) => (16, rest)
    | _ => (10, s)
    end in
  match parse_digits radix s None with
  | Some v => Int (sign * v)
  | None => NaN
  end.

(** [ToIntegerOrInfinity] followed by the clamp of [substring]: an argument
    becomes a position between 0 and [len]. *)
Definition clamp_position (len : nat) (n : number) : nat :=
  match n with
  | NaN => 0%nat
  | Int z => Nat.min (Z.to_nat z) len
  end.

(** [s.substring(from, to)]; [to = None] stands for [undefined]. *)
Definition js_substring (s : string) (from : number) (to : option number) : string :=
  let len := String.length s in
  let a := clamp_position len from in
  let b := match to with Some t => clamp_position len t | None => len end in
  let lo := Nat.min a b in
  let hi := Nat.max a b in
  String.substring lo (hi - lo) s.

(** [c.toLowerCase()] on ASCII letters. *)
Definition ascii_to_lower (c : ascii) : ascii :=
  let n := nat_of_ascii c in
  if bool_decide (65 <= n <= 90)%nat then ascii_of_nat (n + 32) else c.

Fixpoint toLowerCase (s : string) : string :=
  match s with
  | String c rest => String (ascii_to_lower c) (toLowerCase rest)
  | EmptyString => EmptyString
  end.

(** A string is truthy when it is not empty. *)
Definition string_truthy (s : string) : bool :=
  match s with EmptyString => false | String _ _ => true end.

(** ** URLSearchParams

    The [application/x-www-form-urlencoded] parser of the URL standard: the
    text is cut at [&], each non-empty piece at its first [=], [+] becomes a
    space and [%XX] the byte it names. *)

Definition hex_value (c : ascii) : option nat :=
  Z.to_nat <$> digit_value 16 c.

Fixpoint percent_decode (s : string) : string :=
  match s with
  | EmptyString => EmptyString
  | String c rest =>
      let keep := String c (percent_decode rest) in
      if Ascii.eqb c "%" then
        match rest with
        | String h (String l rest') =>
            match hex_value h, hex_value l with
            | Some a, Some b => String (ascii_of_nat (16 * a + b)) (percent_decode rest')
            | _, _ => keep
            end
        | _ => keep
        end
      else keep
  end.

Fixpoint plus_to_space (s : string) : string :=
  match s with
  | EmptyString => EmptyString
  | String c rest => String (if Ascii.eqb c "+" then " "%char else c) (plus_to_space rest)
  end.

(** The piece before the first [=] and the piece after it. *)
Fixpoint cut_at_equals (s : string) : string * string :=
  match s with
  | EmptyString => (EmptyString, EmptyString)
  | String c rest =>
      if Ascii.eqb c "=" then (EmptyString, rest)
      else let '(name, value) := cut_at_equals rest in (String c name, value)
  end.

Definition URLSearchParams : Type := list (string * string).

Definition parse_urlencoded (s : string) : URLSearchParams :=
  let pieces := filter (λ p, p ≠ EmptyString) (split "&" s) in
  (λ p, let '(name, value) := cut_at_equals p in
        (percent_decode (plus_to_space name), percent_decode (plus_to_space value)))
    <$> pieces.

(** [new URLSearchParams(init)]: a leading [?] is dropped. *)
Definition new_URLSearchParams (init : string) : URLSearchParams :=
  parse_urlencoded
    match init with
    | String "?" rest => rest
    | _ => init
    end.

(** [params.has(name)]. *)
Definition params_has (params : URLSearchParams) (name : string) : bool :=
  bool_decide (name ∈ params.*1).

(** [params.get(name)]: the first value of that name, or [null]. *)
Fixpoint params_get (params : URLSearchParams) (name : string) : option string :=
  match params with
  | [] => None
  | (k, v) :: rest => if bool_decide (k = name) then Some v else params_get rest name
  end.

(** ** The [in] operator on a plain object

    [key in obj] looks at [obj]'s own properties and then at its prototype
    chain.  The objects of this plugin are object literals or come out of
    JSON, so their prototype is [Object.prototype]. *)

Definition Object_prototype_properties : list string :=
  [ "constructor"; "__defineGetter__"; "__defineSetter__"; "hasOwnProperty";
    "__lookupGetter__"; "__lookupSetter__"; "isPrototypeOf";
    "propertyIsEnumerable"; "toString"; "valueOf"; "__proto__";
    "toLocaleString" ].

Definition js_in {V : Type} (key : string) (obj : gmap string V) : bool :=
  bool_decide (is_Some (obj !! key))
  || bool_decide (key ∈ Object_prototype_properties).

(** ** Methods with side effects

    A method either completes normally with a result or throws; both ways it
    leaves a state behind. *)

Inductive JSError : Type :=
| TypeError (message : string)
| DOMException (name : string).

Inductive Completion (S A : Type) : Type :=
| Normal (result : A) (s : S)
| Abrupt (thrown : JSError) (s : S).

Arguments Normal {S A} result s.
Arguments Abrupt {S A} thrown s.

Definition JS (S A : Type) : Type := S → Completion S A.

Definition ret {S A : Type} (a : A) : JS S A := λ s, Normal a s.

Definition bind {S A B : Type} (m : JS S A) (k : A → JS S B) : JS S B :=
  λ s, match m s with
       | Normal a s' => k a s'
       | Abrupt e s' => Abrupt e s'
       end.

Notation "'let*' x ':=' m 'in' k" := (bind m (λ x, k))
  (at level 10, x name, m at level 100, k at level 200).
Notation "m >> k" := (bind m (λ _, k))
  (at level 100, k at level 200, right associativity).

Definition throw {S A : Type} (e : JSError) : JS S A := λ s, Abrupt e s.

Definition get_state {S : Type} : JS S S := λ s, Normal s s.

Definition modify {S : Type} (f : S → S) : JS S unit := λ s, Normal tt (f s).

(** [try { m } catch (e) { handler(e) }]. *)
Definition try_catch {S A : Type} (m : JS S A) (handler : JSError → JS S A) : JS S A :=
  λ s, match m s with
       | Normal a s' => Normal a s'
       | Abrupt e s' => handler e s'
       end.

(** [for (const x of xs) body(x)], with no early exit. *)
Fixpoint for_of {S A : Type} (xs : list A) (body : A → JS S unit) : JS S unit :=
  match xs with
  | [] => ret tt
  | x :: rest => body x >> for_of rest body
  end.

(** [x.f] for an [x] that may be [undefined]: a [TypeError] when it is. *)
Definition deref {S A : Type} (what : string) (x : option A) : JS S A :=
  match x with
  | Some a => ret a
  | None => throw (TypeError ("Cannot read properties of undefined: " +:+ what))
  end.

(** The state a completion leaves behind, and what it threw, if it threw. *)
Definition state_of {S A : Type} (c : Completion S A) : S :=
  match c with Normal _ s => s | Abrupt _ s => s end.

Definition thrown {S A : Type} (c : Completion S A) : option JSError :=
  match c with Normal _ _ => None | Abrupt e _ => Some e end.

(** * The settings ([settings.ts], lines 1-470) *)

(** ** Values of the settings object

    A setting is a boolean, a number (a double), a string, or the record of
    colors, which maps a color name to a [HexString] (Obsidian's name for
    [string]). *)

Inductive JSValue : Type :=
| VUndefined
| VBoolean (b : bool)
| VNumber (x : float)
| VString (s : string)
| VRecord (entries : gmap string string).

(** An object literal [{ k1: v1, ..., kn: vn }]: a later entry of the same
    key wins. *)
Definition object_literal {V : Type} (entries : list (string * V)) : gmap string V :=
  fold_left (λ obj kv, <[kv.1 := kv.2]> obj) entries ∅.

(** [obj[key]]. *)
Definition get_property (obj : gmap string JSValue) (key : string) : JSValue :=
  default VUndefined (obj !! key).

(** [ToBoolean]. *)
Definition truthy (v : JSValue) : bool :=
  match v with
  | VUndefined => false
  | VBoolean b => b
  | VNumber x => negb (PrimFloat.eqb x 0%float) && PrimFloat.eqb x x
  | VString s => string_truthy s
  | VRecord _ => true
  end.

(** ** The constant tables (lines 7-25) *)

Definition HOVER_HIGHLIGHT_ACTIONS : list (string * string) :=
  [ ("open", "Open backlink");
    ("preview", "Popover preview of backlink") ].

(** [PaneType] is Obsidian's ['tab' | 'split' | 'window']. *)
Definition PaneType : list string := ["tab"; "split"; "window"].

Definition ExtendedPaneType : list string := PaneType ++ [EmptyString].

Definition PANE_TYPE : list (string * string) :=
  [ (EmptyString, "Current tab");
    ("tab", "New tab");
    ("split", "Split right");
    ("window", "New window") ].

Definition COLOR_PALETTE_ACTIONS : list (string * string) :=
  [ ("copyQuote", "Copy as quote");
    ("copyLink", "Copy link to selection");
    ("copyEmbed", "Copy embed of selection") ].

(** ** The interface [PDFPlusSettings] (lines 27-54)

    The interface as data: each field with its declared type. *)

Inductive TSType : Type :=
| TBoolean
| TNumber
| TString
| TLiteralUnion (alternatives : list string)
| TRecordStringHexString.

(** [keyof typeof table]. *)
Definition keyof (table : list (string * string)) : TSType :=
  TLiteralUnion table.*1.

Definition PDFPlusSettings : list (string * TSType) :=
  [ ("alias", TBoolean);
    ("aliasFormat", TString);
    ("trimSelectionEmbed", TBoolean);
    ("noSidebarInEmbed", TBoolean);
    ("embedUnscrollable", TBoolean);
    ("zoomInEmbed", TNumber);
    ("openLinkCleverly", TBoolean);
    ("dontActivateAfterOpenPDF", TBoolean);
    ("dontActivateAfterOpenMD", TBoolean);
    ("highlightDuration", TNumber);
    ("persistentHighlightsInEmbed", TBoolean);
    ("highlightBacklinks", TBoolean);
    ("clickEmbedToOpenLink", TBoolean);
    ("highlightBacklinksPane", TBoolean);
    ("colors", TRecordStringHexString);
    ("defaultColor", TString);
    ("colorPaletteInToolbar", TBoolean);
    ("colorPaletteInEmbedToolbar", TBoolean);
    ("highlightColorSpecifiedOnly", TBoolean);
    ("doubleClickHighlightToOpenBacklink", TBoolean);
    ("hoverHighlightAction", keyof HOVER_HIGHLIGHT_ACTIONS);
    ("paneTypeForFirstMDLeaf", TLiteralUnion ExtendedPaneType);
    ("defaultColorPaletteAction", keyof COLOR_PALETTE_ACTIONS);
    ("hoverPDFLinkToOpen", TBoolean);
    ("ignoreHeightParamInPopoverPreview", TBoolean);
    ("filterBacklinksByPageDefault", TBoolean) ].

(** ** [DEFAULT_SETTINGS] (lines 56-87) *)

Definition DEFAULT_SETTINGS_literal : list (string * JSValue) :=
  [ ("alias", VBoolean true);
    ("aliasFormat", VString EmptyString);
    ("trimSelectionEmbed", VBoolean true);
    ("noSidebarInEmbed", VBoolean true);
    ("embedUnscrollable", VBoolean false);
    ("zoomInEmbed", VNumber 0%float);
    ("openLinkCleverly", VBoolean true);
    ("dontActivateAfterOpenPDF", VBoolean true);
    ("dontActivateAfterOpenMD", VBoolean true);
    ("highlightDuration", VNumber 0%float);
    ("persistentHighlightsInEmbed", VBoolean true);
    ("highlightBacklinks", VBoolean true);
    ("clickEmbedToOpenLink", VBoolean true);
    ("highlightBacklinksPane", VBoolean true);
    ("colors", VRecord (object_literal
       [ ("Yellow", "#ffd000");
         ("Red", "#EA5252");
         ("Blue", "#7b89f4") ]));
    ("defaultColor", VString EmptyString);
    ("colorPaletteInToolbar", VBoolean true);
    ("colorPaletteInEmbedToolbar", VBoolean false);
    ("highlightColorSpecifiedOnly", VBoolean false);
    ("doubleClickHighlightToOpenBacklink", VBoolean true);
    ("hoverHighlightAction", VString "open");
    ("paneTypeForFirstMDLeaf", VString "split");
    ("defaultColorPaletteAction", VString "copyQuote");
    ("hoverPDFLinkToOpen", VBoolean false);
    ("ignoreHeightParamInPopoverPreview", VBoolean true);
    ("filterBacklinksByPageDefault", VBoolean true) ].

Definition DEFAULT_SETTINGS : gmap string JSValue :=
  object_literal DEFAULT_SETTINGS_literal.

(** A hex color: [#] and six hexadecimal digits. *)
Definition is_hex_color (s : string) : bool :=
  match s with
  | String "#" digits =>
      bool_decide (String.length digits = 6%nat)
      && forallb (λ c, bool_decide (is_Some (hex_value c))) (list_ascii_of_string digits)
  | _ => false
  end.

(** [v] is a value of the declared type [ty]; a record of colors holds hex
    colors. *)
Definition has_type (v : JSValue) (ty : TSType) : bool :=
  match ty, v with
  | TBoolean, VBoolean _ => true
  | TNumber, VNumber _ => true
  | TString, VString _ => true
  | TLiteralUnion alternatives, VString s => bool_decide (s ∈ alternatives)
  | TRecordStringHexString, VRecord entries =>
      forallb (λ kv, is_hex_color kv.2) (map_to_list entries)
  | _, _ => false
  end.




(** ** The plugin object

    [PDFPlus] is declared in [main.ts]; the code here reads its [settings]
    and [manifest.name], and calls [saveSettings] and [loadStyle]. *)

Record PDFPlus : Type := mkPDFPlus {
  settings : gmap string JSValue;
  (** what the host's storage last received *)
  savedData : option (gmap string JSValue);
  manifest_name : string;
}.

Definition set_settings (f : gmap string JSValue → gmap string JSValue) (p : PDFPlus) : PDFPlus :=
  {| settings := f (settings p); savedData := savedData p; manifest_name := manifest_name p |}.

(** Modelled from the spec: [saveSettings] of [main.ts], which is not part of
    [src/settings.ts].  The spec has the settings record "serialized by the
    host's storage mechanism": saving hands the current settings to the
    storage. *)
Definition saveSettings : JS PDFPlus unit :=
  modify (λ p, {| settings := settings p; savedData := Some (settings p);
                  manifest_name := manifest_name p |}).

(** * The settings tab ([PDFPlusSettingTab], lines 92-470) *)

(** An [option] element of the default-color dropdown. *)
Record OptionEl : Type := mkOptionEl {
  option_value : string;
  option_textContent : string;
}.

Record PDFPlusSettingTab : Type := mkTab {
  tab_plugin : PDFPlus;
  (** the notices shown so far, oldest first *)
  tab_notices : list string;
  (** the children of [#pdf-plus-default-color-dropdown] *)
  defaultColorOptions : list OptionEl;
}.

Definition set_tab_plugin (f : PDFPlus → PDFPlus) (t : PDFPlusSettingTab) : PDFPlusSettingTab :=
  {| tab_plugin := f (tab_plugin t); tab_notices := tab_notices t;
     defaultColorOptions := defaultColorOptions t |}.

(** Runs a method of the plugin from the tab. *)
Definition on_plugin {A : Type} (m : JS PDFPlus A) : JS PDFPlusSettingTab A :=
  λ t, match m (tab_plugin t) with
       | Normal a p => Normal a (set_tab_plugin (λ _, p) t)
       | Abrupt e p => Abrupt e (set_tab_plugin (λ _, p) t)
       end.

(** [new Notice(message)] from the tab. *)
Definition tab_Notice (message : string) : JS PDFPlusSettingTab unit :=
  modify (λ t, {| tab_plugin := tab_plugin t; tab_notices := tab_notices t ++ [message];
                  defaultColorOptions := defaultColorOptions t |}).

(** [this.plugin.settings[settingName] = value]. *)
Definition assign_setting (settingName : string) (value : JSValue) : JS PDFPlusSettingTab unit :=
  modify (set_tab_plugin (set_settings (λ o, <[settingName := value]> o))).

(** [this.plugin.settings.colors]; a [TypeError] when it is not an object
    (the interface makes it one). *)
Definition get_colors : JS PDFPlusSettingTab (gmap string string) :=
  let* t := get_state in
  match get_property (settings (tab_plugin t)) "colors" with
  | VRecord colors => ret colors
  | _ => throw (TypeError "settings.colors is not an object")
  end.

(** The record of colors is one object shared by the settings and by every
    handler: a change is written back into the settings. *)
Definition set_colors (colors : gmap string string) : JS PDFPlusSettingTab unit :=
  assign_setting "colors" (VRecord colors).

(** [v === s] for a string [s]. *)
Definition is_string (v : JSValue) (s : string) : bool :=
  match v with
  | VString t => bool_decide (t = s)
  | _ => false
  end.

(** The variables captured by the handlers that one call of
    [addColorSetting] creates (lines 203-206), and the [error] class of its
    text input. *)
Record ColorSetting : Type := mkColorSetting {
  name : string;
  color : string;
  previousColor : string;
  isDefault : bool;
  input_error : bool;
}.

(** [addColorSetting(name, color)], lines 204-206: [isDefault] is computed
    once, when the row is built. *)
Definition addColorSetting (name color : string) (t : PDFPlusSettingTab) : ColorSetting :=
  {| name := name; color := color; previousColor := color;
     isDefault := is_string (get_property (settings (tab_plugin t)) "defaultColor") name;
     input_error := false |}.

(** A handler of a color row runs on the tab and on the variables of its
    closure. *)
Definition on_tab {A : Type} (m : JS PDFPlusSettingTab A) : JS (PDFPlusSettingTab * ColorSetting) A :=
  λ '(t, row), match m t with
               | Normal a t' => Normal a (t', row)
               | Abrupt e t' => Abrupt e (t', row)
               end.

Definition on_row (f : ColorSetting → ColorSetting) : JS (PDFPlusSettingTab * ColorSetting) unit :=
  modify (λ '(t, row), (t, f row)).

Definition get_row : JS (PDFPlusSettingTab * ColorSetting) ColorSetting :=
  λ '(t, row), Normal row (t, row).

Section Plugin.

(** ** What the settings tab takes from the host *)

(** [+value]: the conversion of a string to a number ([ToNumber]). *)
Variable ToNumber : string → float.

(** [loadStyle] of [main.ts], which is not part of [src/settings.ts]. *)
Variable loadStyle : JS PDFPlus unit.

(** [redisplay] (lines 265-274) empties the container of the tab, has
    [display] build every row again from the settings and scrolls back to
    where the tab was: work on the host's DOM.  The handlers that end with
    it are described up to that call, whatever it does. *)
Variable redisplay : JS PDFPlusSettingTab unit.

(** [this.containerEl.querySelector('#pdf-plus-default-color-dropdown >
    option[value="NAME"]')]: the position of the first matching option, none,
    or the exception of a selector that does not parse. *)
Variable querySelector_option : list OptionEl → string → JSError + option nat.

(** ** [addNumberSetting], the change handler (lines 128-132) *)
Definition addNumberSetting_onChange (settingName value : string) : JS PDFPlusSettingTab unit :=
  assign_setting settingName
    (if bool_decide (value = EmptyString)
     then get_property DEFAULT_SETTINGS settingName
     else VNumber (ToNumber value)) >>
  on_plugin saveSettings.

(** ** [addDropdowenSetting], the change handler (lines 175-180) *)
Definition addDropdowenSetting_onChange (settingName value : string)
    (extraOnChange : option (string → JS PDFPlusSettingTab unit)) : JS PDFPlusSettingTab unit :=
  assign_setting settingName (VString value) >>
  on_plugin saveSettings >>
  match extraOnChange with
  | Some f => f value
  | None => ret tt
  end.

(** [optionEl.value = newName; optionEl.textContent = newName]. *)
Definition rename_option (position : nat) (newName : string) : JS PDFPlusSettingTab unit :=
  modify (λ t, {| tab_plugin := tab_plugin t; tab_notices := tab_notices t;
                  defaultColorOptions :=
                    <[position := {| option_value := newName; option_textContent := newName |}]>
                      (defaultColorOptions t) |}).

(** ** [addColorSetting], the handler of the name input (lines 211-229) *)
Definition addColorSetting_onChangeName (newName : string) : JS (PDFPlusSettingTab * ColorSetting) unit :=
  let* colors := on_tab get_colors in
  if js_in newName colors then
    on_tab (tab_Notice "This color name is already used.") >>
    on_row (λ row, {| name := name row; color := color row; previousColor := previousColor row;
                      isDefault := isDefault row; input_error := true |})
  else
    on_row (λ row, {| name := name row; color := color row; previousColor := previousColor row;
                      isDefault := isDefault row; input_error := false |}) >>
    let* row := get_row in
    on_tab (set_colors (delete (name row) colors)) >>
    let* t := on_tab get_state in
    match querySelector_option (defaultColorOptions t) (name row) with
    | inl e => throw e
    | inr optionEl =>
        match optionEl with
        | Some position => on_tab (rename_option position newName)
        | None => ret tt
        end >>
        on_row (λ row, {| name := newName; color := color row; previousColor := previousColor row;
                          isDefault := isDefault row; input_error := input_error row |}) >>
        let* colors := on_tab get_colors in
        on_tab (set_colors (<[newName := color row]> colors)) >>
        (if isDefault row
         then on_tab (assign_setting "defaultColor" (VString newName))
         else ret tt) >>
        on_tab (on_plugin saveSettings) >>
        on_tab (on_plugin loadStyle)
    end.

(** The handler of the color picker (lines 233-239). *)
Definition addColorSetting_onChangeColor (newColor : string) : JS (PDFPlusSettingTab * ColorSetting) unit :=
  on_row (λ row, {| name := name row; color := newColor; previousColor := color row;
                    isDefault := isDefault row; input_error := input_error row |}) >>
  let* row := get_row in
  let* colors := on_tab get_colors in
  on_tab (set_colors (<[name row := color row]> colors)) >>
  on_tab (on_plugin saveSettings) >>
  on_tab (on_plugin loadStyle).

(** The button [Return to previous color] (lines 244-250). *)
Definition addColorSetting_onClickPrevious : JS (PDFPlusSettingTab * ColorSetting) unit :=
  on_row (λ row, {| name := name row; color := previousColor row;
                    previousColor := previousColor row;
                    isDefault := isDefault row; input_error := input_error row |}) >>
  let* row := get_row in
  let* colors := on_tab get_colors in
  on_tab (set_colors (<[name row := color row]> colors)) >>
  on_tab (on_plugin saveSettings) >>
  on_tab (on_plugin loadStyle) >>
  on_tab redisplay.

(** The button [Delete] (lines 255-260). *)
Definition addColorSetting_onClickDelete : JS (PDFPlusSettingTab * ColorSetting) unit :=
  let* row := get_row in
  let* colors := on_tab get_colors in
  on_tab (set_colors (delete (name row) colors)) >>
  on_tab (on_plugin saveSettings) >>
  on_tab (on_plugin loadStyle) >>
  on_tab redisplay.

(** The button [Add a new color] of [display] (lines 322-325). *)
Definition addColor_onClick : JS PDFPlusSettingTab unit :=
  let* colors := get_colors in
  set_colors (<[EmptyString := "#"]> colors) >>
  redisplay.




(** ** [addDropdowenSetting], the options (lines 151-173) *)

(** The arguments after [settingName]: an array of option values with an
    optional [display] function, or a record from option values to display
    names.  A record is given by its properties in the order of
    [Object.keys] (distinct keys, none of them an array index). *)
Inductive DropdownArgs : Type :=
| OptionsArray (options : list string) (display : option (string → option string))
| OptionsRecord (table : list (string * string)).

(** [args[0][optionValue]]. *)
Fixpoint record_get (table : list (string * string)) (key : string) : option string :=
  match table with
  | [] => None
  | (k, v) :: rest => if bool_decide (k = key) then Some v else record_get rest key
  end.

(** [options] and [display] as lines 152-163 settle them; a [display] that
    answers [None] answers [undefined] or [null]. *)
Definition dropdown_options (args : DropdownArgs) : list string :=
  match args with
  | OptionsArray options _ => options
  | OptionsRecord table => table.*1
  end.

Definition dropdown_display (args : DropdownArgs) : string → option string :=
  match args with
  | OptionsArray _ (Some display) => display
  | OptionsArray _ None => λ optionValue, Some optionValue
  | OptionsRecord table => record_get table
  end.

(** [display(option) ?? option]. *)
Definition dropdown_displayName (args : DropdownArgs) (option : string) : string :=
  default option (dropdown_display args option).

(** The loop of lines 166-173: the [option] elements added to the dropdown,
    and the set [displayNames]. *)
Definition addDropdowenSetting_addOption (args : DropdownArgs)
    (acc : list OptionEl * gset string) (option : string) : list OptionEl * gset string :=
  let displayName := dropdown_displayName args option in
  if bool_decide (displayName ∈ acc.2) then acc
  else (acc.1 ++ [{| option_value := option; option_textContent := displayName |}],
        {[displayName]} ∪ acc.2).

Definition addDropdowenSetting_options (args : DropdownArgs) : list OptionEl :=
  (fold_left (addDropdowenSetting_addOption args) (dropdown_options args) ([], ∅)).1.

(** The dropdown of the default color as [display] builds it (lines
    337-342), from [keys = Object.keys(this.plugin.settings.colors)]. *)
Definition defaultColor_dropdown (keys : list string) : DropdownArgs :=
  OptionsArray (EmptyString :: keys)
    (Some (λ option, Some (if string_truthy option then option else "Obsidian default"))).

(** ** The toggle of [Clear highlights after a certain amount of time]
    (lines 383-394) *)

(** [ToNumber] of a setting value. *)
Definition to_number (v : JSValue) : float :=
  match v with
  | VNumber x => x
  | VBoolean b => if b then 1%float else 0%float
  | VString s => ToNumber s
  | VUndefined | VRecord _ => PrimFloat.nan
  end.

(** [v > 0]. *)
Definition positive (v : JSValue) : bool :=
  PrimFloat.ltb 0%float (to_number v).

Definition highlightDuration_onChange (value : bool) : JS PDFPlusSettingTab unit :=
  let* t := get_state in
  let highlightDuration := get_property (settings (tab_plugin t)) "highlightDuration" in
  assign_setting "highlightDuration"
    (if value
     then (if positive highlightDuration then highlightDuration else VNumber 1%float)
     else VNumber 0%float) >>
  on_plugin saveSettings >>
  redisplay.

(** * The DOM event helpers (lines 471-657) *)

(** ** [onModKeyPress] (lines 562-601)

    One call of the function, seen from the document: the variable
    [removed] of the call, the listeners the call has on the document, each
    under its event type, and how many times [callback] has been called. *)

Inductive ModKeyHandler : Type :=
| onKeyDown
| onMouseOver
| onMouseLeave.

#[global] Instance ModKeyHandler_eq_dec : EqDecision ModKeyHandler.
Proof. solve_decision. Defined.

Record ModKeyWatch : Type := mkModKeyWatch {
  removed : bool;
  doc_listeners : list (string * ModKeyHandler);
  callback_calls : nat;
}.

(** [doc.addEventListener(type, handler)]: a listener that is there already
    is not added again. *)
Definition addEventListener (type : string) (handler : ModKeyHandler) (w : ModKeyWatch)
    : ModKeyWatch :=
  {| removed := removed w;
     doc_listeners := if bool_decide ((type, handler) ∈ doc_listeners w) then doc_listeners w
                      else doc_listeners w ++ [(type, handler)];
     callback_calls := callback_calls w |}.

(** [doc.removeEventListener(type, handler)]. *)
Definition removeEventListener (type : string) (handler : ModKeyHandler) (w : ModKeyWatch)
    : ModKeyWatch :=
  {| removed := removed w;
     doc_listeners := filter (λ listener, listener ≠ (type, handler)) (doc_listeners w);
     callback_calls := callback_calls w |}.

(** [callback()]. *)
Definition call_callback (w : ModKeyWatch) : ModKeyWatch :=
  {| removed := removed w; doc_listeners := doc_listeners w;
     callback_calls := S (callback_calls w) |}.

(** [removeHandlers] (lines 570-575). *)
Definition removeHandlers (w : ModKeyWatch) : ModKeyWatch :=
  removeEventListener "mouseleave" onMouseLeave
    (removeEventListener "mouseover" onMouseOver
       (removeEventListener "keydown" onKeyDown
          {| removed := true; doc_listeners := doc_listeners w;
             callback_calls := callback_calls w |})).

(** An event on the document, by what the handlers read of it:
    [Keymap.isModifier(e, 'Mod')] and [doc.body.contains(targetEl)] for a
    [keydown]; [isTargetNode(e, e.target)] and [targetEl.contains(e.target)]
    for a [mouseover]; [e.target === doc] for a [mouseleave]. *)
Inductive DocEvent : Type :=
| KeyDownEvent (isModifier bodyContainsTargetEl : bool)
| MouseOverEvent (isTargetNode targetElContainsTarget : bool)
| MouseLeaveEvent (targetIsDoc : bool).

Definition event_type (e : DocEvent) : string :=
  match e with
  | KeyDownEvent _ _ => "keydown"
  | MouseOverEvent _ _ => "mouseover"
  | MouseLeaveEvent _ => "mouseleave"
  end.

(** The three handlers (lines 578-596); a handler is called with the events
    of the type it listens to. *)
Definition run_handler (handler : ModKeyHandler) (e : DocEvent) (w : ModKeyWatch) : ModKeyWatch :=
  match handler, e with
  | onKeyDown, KeyDownEvent isModifier bodyContainsTargetEl =>
      if removed w then w
      else if bodyContainsTargetEl
           then (if isModifier then call_callback (removeHandlers w) else w)
           else removeHandlers w
  | onMouseOver, MouseOverEvent isTargetNode targetElContainsTarget =>
      if removed w then w
      else if isTargetNode && negb targetElContainsTarget then removeHandlers w else w
  | onMouseLeave, MouseLeaveEvent targetIsDoc =>
      if removed w then w
      else if targetIsDoc then removeHandlers w else w
  | _, _ => w
  end.

(** The document dispatches an event: the listeners of its type that were
    there when the dispatch began are called in order, except those removed
    in the meantime. *)
Definition dispatchEvent (e : DocEvent) (w : ModKeyWatch) : ModKeyWatch :=
  fold_left (λ w listener,
               if bool_decide (listener.1 = event_type e)
                  && bool_decide (listener ∈ doc_listeners w)
               then run_handler listener.2 e w else w)
            (doc_listeners w) w.

(** [onModKeyPress(evt, targetEl, callback)], by [Keymap.isModifier(evt,
    'Mod')]. *)
Definition onModKeyPress (isModifier : bool) : ModKeyWatch :=
  let w := {| removed := false; doc_listeners := []; callback_calls := 0 |} in
  if isModifier then call_callback w
  else addEventListener "mouseleave" onMouseLeave
         (addEventListener "mouseover" onMouseOver
            (addEventListener "keydown" onKeyDown w)).

(** * The backlink highlighter ([BacklinkHighlighter], lines 658-1098) *)

(** ** The DOM of a page

    A node of the text layer is a text node or an element with its class
    list, its [data-highlight-color] attribute and its children. *)

Inductive Node : Type :=
| TextNode (data : string)
| Element (classList : list string) (highlightColor : option string) (childNodes : list Node).

(** [node.textContent], read. *)
Fixpoint textContent (node : Node) : string :=
  match node with
  | TextNode data => data
  | Element _ _ children =>
      (fix concat (nodes : list Node) : string :=
         match nodes with
         | [] => EmptyString
         | child :: rest => textContent child +:+ concat rest
         end) children
  end.

(** [node.textContent = text]: an element keeps one text child, or none when
    [text] is empty. *)
Definition set_textContent (node : Node) (text : string) : Node :=
  match node with
  | TextNode _ => TextNode text
  | Element classes highlight _ =>
      Element classes highlight (if string_truthy text then [TextNode text] else [])
  end.

(** [classList.add(tokens)]: each token once, in order. *)
Definition classList_add (classes tokens : list string) : list string :=
  fold_left (λ acc token, if bool_decide (token ∈ acc) then acc else acc ++ [token]) tokens classes.

(** An element of the page as the plugin refers to it later (in callbacks and
    event registrations). *)
Inductive HTMLElementRef : Type :=
| TextDivRef (pageNumber index : number)
| HighlightWrapperRef (pageNumber index : number) (child : nat)
| AnnotationElRef (pageNumber : number) (annotationId : string)
| BacklinkItemElRef (item : nat).

#[global] Instance HTMLElementRef_eq_dec : EqDecision HTMLElementRef.
Proof. solve_decision. Defined.

(** [el.dataset.annotationId]: only the elements of the annotation layer
    have one. *)
Definition dataset_annotationId (el : HTMLElementRef) : option string :=
  match el with
  | AnnotationElRef _ annotationId => Some annotationId
  | _ => None
  end.

Record TextContentItem : Type := mkTextContentItem {
  str : string;
}.

(** [pageView.textLayer]: [textDivs] and [textContentItems] are parallel
    arrays of the PDF renderer. *)
Record TextLayerBuilder : Type := mkTextLayer {
  textDivs : list Node;
  textContentItems : list TextContentItem;
}.

(** The geometry of an annotation: [elem.data.rect], [elem.parent.page.view]
    and [elem.parent.viewport.rawDims]. *)
Record AnnotationElement : Type := mkAnnotationElement {
  data_rect : float * float * float * float;
  page_view : float * float * float * float;
  pageWidth : float;
  pageHeight : float;
  pageX : float;
  pageY : float;
}.

(** The percentages of [setCssStyles] (their [+ "%"] is left out). *)
Record CssStyles : Type := mkCssStyles {
  css_left : float;
  css_top : float;
  css_width : float;
  css_height : float;
}.

(** A [div.boundingRect.mod-focused] created by [highlightAnnotation]. *)
Record BoundingRect : Type := mkBoundingRect {
  uid : nat;
  style : CssStyles;
}.

(** [pageView.annotationLayer]: the annotations the renderer knows by id
    ([annotationLayer.getAnnotation]) and the rectangles this plugin has
    appended to [annotationLayer.div]. *)
Record AnnotationLayerBuilder : Type := mkAnnotationLayer {
  annotations : list (string * AnnotationElement);
  boundingRects : list BoundingRect;
}.

Record PDFPageView : Type := mkPageView {
  (** [div.dataset.loaded] *)
  dataset_loaded : option string;
  textLayer : option TextLayerBuilder;
  annotationLayer : option AnnotationLayerBuilder;
}.

Record ObsidianViewer : Type := mkViewer {
  isEmbed : bool;
  pagesCount : number;
  (** [pdfViewer._pages], when the viewer has a [pdfViewer] *)
  pdfViewer : option (list PDFPageView);
}.

(** [viewer.pdfViewer?.getPageView(i)]. *)
Definition getPageView (viewer : ObsidianViewer) (i : number) : option PDFPageView :=
  pdfViewer viewer ≫= λ pages, array_get pages i.

(** ** Backlinks *)

Record TFile : Type := mkTFile {
  path : string;
}.

Record LinkCache : Type := mkLinkCache {
  link : string;
  position_start_line : Z;
  position_start_offset : Z;
  position_end_offset : Z;
}.

(** [BacklinkInfo] (lines 665-671); [pageNumber] is in the two interfaces
    that extend it. *)
Record BacklinkInfo : Type := mkBacklinkInfo {
  sourcePath : string;
  linkCache : LinkCache;
  backlinkItemEl : option HTMLElementRef;
  annotationEls : option (list HTMLElementRef);
}.

(** [SelectionBacklinkInfo] (lines 673-681). *)
Record SelectionBacklinkInfo : Type := mkSelectionBacklinkInfo {
  selection_info : BacklinkInfo;
  selection_pageNumber : number;
  beginIndex : number;
  beginOffset : number;
  endIndex : number;
  endOffset : number;
  colorName : option string;
}.

(** [AnnotationBacklinkInfo] (lines 683-687). *)
Record AnnotationBacklinkInfo : Type := mkAnnotationBacklinkInfo {
  annotation_info : BacklinkInfo;
  id : string;
  annotation_pageNumber : number;
}.

(** A value of [backlinks]: [{ selection: [...], annotation: [...] }]. *)
Record PageBacklinks : Type := mkPageBacklinks {
  selection : list SelectionBacklinkInfo;
  annotation : list AnnotationBacklinkInfo;
}.

(** The dictionary [getBacklinksForFile] returns: source paths in the order
    of [keys()], each with its links to the file. *)
Definition BacklinkDict : Type := list (string * list LinkCache).

(** [dict.get(key)]. *)
Fixpoint dict_get (dict : BacklinkDict) (key : string) : option (list LinkCache) :=
  match dict with
  | [] => None
  | (k, links) :: rest => if bool_decide (k = key) then Some links else dict_get rest key
  end.

Record MetadataCache : Type := mkMetadataCache {
  (** by the path of the file *)
  getBacklinksForFile : string → BacklinkDict;
}.

(** ** Components and their registrations

    Obsidian's [Component]: [register...] stores what [unload] undoes;
    [load] and [unload] act only on a change of [loaded]. *)

(** A backlink object, by where it sits in [backlinks]. *)
Inductive BacklinkRef : Type :=
| SelectionRef (pageNumber : number) (position : nat)
| AnnotationRef (pageNumber : number) (position : nat).

(** What a component has registered: the callbacks of the two layer events,
    the handlers [hookEventHandlers] puts on a highlighted element, and the
    handlers on an item of the backlink pane. *)
Inductive Registration : Type :=
| TextLayerReady
| AnnotationLayerReady
| DomEvent (target : HTMLElementRef) (type : string) (backlink : BacklinkRef)
| HoverSelectionItem (target : HTMLElementRef) (type : string)
    (highlightedEls : list HTMLElementRef)
| HoverAnnotationItem (target : HTMLElementRef) (type : string) (pageNumber : number)
    (annotationEls : list HTMLElementRef).

Record Component : Type := mkComponent {
  loaded : bool;
  registered : list Registration;
}.

(** [component.unload()]. *)
Definition Component_unload (c : Component) : Component :=
  if loaded c then {| loaded := false; registered := [] |} else c.

(** [component.load()]. *)
Definition Component_load (c : Component) : Component :=
  {| loaded := true; registered := registered c |}.

(** ** The highlighter (lines 689-698) *)

Record BacklinkHighlighter : Type := mkHighlighter {
  metadataCache : MetadataCache;
  plugin : PDFPlus;
  viewer : ObsidianViewer;
  file : option TFile;
  eventManager : Component;
  backlinks : gmap number PageBacklinks;
  highlightedTexts : list (number * number);
  (** a [Map]: keys in insertion order, each once *)
  highlightedAnnotations : list (string * BoundingRect);
  (** [this] as a component: loaded, and whether the handler of the
      metadata cache's [resolved] event is registered *)
  self_loaded : bool;
  resolved_registered : bool;
  (** the next fresh [uid] of a created element *)
  next_uid : nat;
  (** notices shown and errors logged so far, oldest first *)
  notices : list string;
  console : list JSError;
}.

(** Field updates. *)
Definition set_viewer (f : ObsidianViewer → ObsidianViewer) (h : BacklinkHighlighter) : BacklinkHighlighter :=
  {| metadataCache := metadataCache h; plugin := plugin h; viewer := f (viewer h); file := file h;
     eventManager := eventManager h; backlinks := backlinks h;
     highlightedTexts := highlightedTexts h; highlightedAnnotations := highlightedAnnotations h;
     self_loaded := self_loaded h; resolved_registered := resolved_registered h;
     next_uid := next_uid h; notices := notices h; console := console h |}.

Definition set_eventManager (f : Component → Component) (h : BacklinkHighlighter) : BacklinkHighlighter :=
  {| metadataCache := metadataCache h; plugin := plugin h; viewer := viewer h; file := file h;
     eventManager := f (eventManager h); backlinks := backlinks h;
     highlightedTexts := highlightedTexts h; highlightedAnnotations := highlightedAnnotations h;
     self_loaded := self_loaded h; resolved_registered := resolved_registered h;
     next_uid := next_uid h; notices := notices h; console := console h |}.

Definition set_backlinks (f : gmap number PageBacklinks → gmap number PageBacklinks)
    (h : BacklinkHighlighter) : BacklinkHighlighter :=
  {| metadataCache := metadataCache h; plugin := plugin h; viewer := viewer h; file := file h;
     eventManager := eventManager h; backlinks := f (backlinks h);
     highlightedTexts := highlightedTexts h; highlightedAnnotations := highlightedAnnotations h;
     self_loaded := self_loaded h; resolved_registered := resolved_registered h;
     next_uid := next_uid h; notices := notices h; console := console h |}.

Definition set_highlightedTexts (f : list (number * number) → list (number * number))
    (h : BacklinkHighlighter) : BacklinkHighlighter :=
  {| metadataCache := metadataCache h; plugin := plugin h; viewer := viewer h; file := file h;
     eventManager := eventManager h; backlinks := backlinks h;
     highlightedTexts := f (highlightedTexts h); highlightedAnnotations := highlightedAnnotations h;
     self_loaded := self_loaded h; resolved_registered := resolved_registered h;
     next_uid := next_uid h; notices := notices h; console := console h |}.

Definition set_highlightedAnnotations (f : list (string * BoundingRect) → list (string * BoundingRect))
    (h : BacklinkHighlighter) : BacklinkHighlighter :=
  {| metadataCache := metadataCache h; plugin := plugin h; viewer := viewer h; file := file h;
     eventManager := eventManager h; backlinks := backlinks h;
     highlightedTexts := highlightedTexts h; highlightedAnnotations := f (highlightedAnnotations h);
     self_loaded := self_loaded h; resolved_registered := resolved_registered h;
     next_uid := next_uid h; notices := notices h; console := console h |}.

Definition set_resolved_registered (b : bool) (h : BacklinkHighlighter) : BacklinkHighlighter :=
  {| metadataCache := metadataCache h; plugin := plugin h; viewer := viewer h; file := file h;
     eventManager := eventManager h; backlinks := backlinks h;
     highlightedTexts := highlightedTexts h; highlightedAnnotations := highlightedAnnotations h;
     self_loaded := self_loaded h; resolved_registered := b;
     next_uid := next_uid h; notices := notices h; console := console h |}.

Definition set_next_uid (n : nat) (h : BacklinkHighlighter) : BacklinkHighlighter :=
  {| metadataCache := metadataCache h; plugin := plugin h; viewer := viewer h; file := file h;
     eventManager := eventManager h; backlinks := backlinks h;
     highlightedTexts := highlightedTexts h; highlightedAnnotations := highlightedAnnotations h;
     self_loaded := self_loaded h; resolved_registered := resolved_registered h;
     next_uid := n; notices := notices h; console := console h |}.

(** [new Notice(message)]. *)
Definition new_Notice (message : string) : JS BacklinkHighlighter unit :=
  modify (λ h,
  {| metadataCache := metadataCache h; plugin := plugin h; viewer := viewer h; file := file h;
     eventManager := eventManager h; backlinks := backlinks h;
     highlightedTexts := highlightedTexts h; highlightedAnnotations := highlightedAnnotations h;
     self_loaded := self_loaded h; resolved_registered := resolved_registered h;
     next_uid := next_uid h; notices := notices h ++ [message]; console := console h |}).

(** [console.error(e)]. *)
Definition console_error (e : JSError) : JS BacklinkHighlighter unit :=
  modify (λ h,
  {| metadataCache := metadataCache h; plugin := plugin h; viewer := viewer h; file := file h;
     eventManager := eventManager h; backlinks := backlinks h;
     highlightedTexts := highlightedTexts h; highlightedAnnotations := highlightedAnnotations h;
     self_loaded := self_loaded h; resolved_registered := resolved_registered h;
     next_uid := next_uid h; notices := notices h; console := console h ++ [e] |}).

(** [this.plugin.settings[key]], as a condition. *)
Definition setting_enabled (h : BacklinkHighlighter) (key : string) : bool :=
  truthy (get_property (settings (plugin h)) key).

(** ** What the highlighter takes from [utils] and from the host *)

(** [getSubpathWithoutHash] of [utils], which is not part of
    [src/settings.ts]: the subpath of a link text. *)
Variable getSubpathWithoutHash : string → string.

(** [onTextLayerReady(viewer, component, cb)] and
    [onAnnotationLayerReady(viewer, component, cb)] of [utils], which are not
    part of [src/settings.ts].  The callback takes the page number (the
    callbacks of this file do not use the page view). *)
Variable onTextLayerReady : (number → JS BacklinkHighlighter unit) → JS BacklinkHighlighter unit.
Variable onAnnotationLayerReady : (number → JS BacklinkHighlighter unit) → JS BacklinkHighlighter unit.

(** [pageView.annotationLayer.div.querySelector('[data-annotation-id="ID"]')]
    on a page: the element found, none, or the exception of a selector that
    does not parse. *)
Variable querySelector_annotation : number → AnnotationLayerBuilder → string → JSError + option HTMLElementRef.

(** [findBacklinkItemEl] (lines 1001-1051) reads the backlink pane of the
    workspace, which is no part of the highlighter: its result is the
    host's. *)
Variable findBacklinkItemEl : BacklinkInfo → option HTMLElementRef.

(** ** [setBacklinks] (lines 725-774) *)

Definition empty_page : PageBacklinks := {| selection := []; annotation := [] |}.

(** [if (!backlinks[page]) backlinks[page] = { selection: [], annotation: [] };
    backlinks[page].selection.push(backlink)]. *)
Definition push_selection (page : number) (backlink : SelectionBacklinkInfo)
    (map : gmap number PageBacklinks) : gmap number PageBacklinks :=
  let entry := default empty_page (map !! page) in
  <[page := {| selection := selection entry ++ [backlink]; annotation := annotation entry |}]> map.

Definition push_annotation (page : number) (backlink : AnnotationBacklinkInfo)
    (map : gmap number PageBacklinks) : gmap number PageBacklinks :=
  let entry := default empty_page (map !! page) in
  <[page := {| selection := selection entry; annotation := annotation entry ++ [backlink] |}]> map.

(** [params.get(name)!]. *)
Definition params_get_nonnull (params : URLSearchParams) (name : string) : string :=
  default EmptyString (params_get params name).

(** The body of the inner loop (lines 730-771): what one link adds to
    [this.backlinks]. *)
Definition setBacklinks_link (sourcePath : string) (linkCache : LinkCache)
    (map : gmap number PageBacklinks) : gmap number PageBacklinks :=
  let linktext := link linkCache in
  let subpath := getSubpathWithoutHash linktext in
  let params := new_URLSearchParams subpath in
  if params_has params "page" && params_has params "selection" then
    let page := parseInt (params_get_nonnull params "page") in
    let selection := parseInt <$> split "," (params_get_nonnull params "selection") in
    let color := params_get params "color" in
    match selection with
    | [selection0; selection1; selection2; selection3] =>
        push_selection page
          {| selection_info :=
               {| sourcePath := sourcePath; linkCache := linkCache;
                  backlinkItemEl := None; annotationEls := None |};
             selection_pageNumber := page;
             beginIndex := selection0;
             beginOffset := selection1;
             endIndex := selection2;
             endOffset := selection3;
             colorName := color |} map
    | _ => map
    end
  else if params_has params "page" && params_has params "annotation" then
    let page := parseInt (params_get_nonnull params "page") in
    let annotation := params_get_nonnull params "annotation" in
    push_annotation page
      {| annotation_info :=
           {| sourcePath := sourcePath; linkCache := linkCache;
              backlinkItemEl := None; annotationEls := None |};
         id := annotation;
         annotation_pageNumber := page |} map
  else map.

Definition setBacklinks (file : TFile) : JS BacklinkHighlighter unit :=
  modify (set_backlinks (λ _, ∅)) >>
  let* h := get_state in
  let backlinkDict := getBacklinksForFile (metadataCache h) (path file) in
  for_of backlinkDict.*1 (λ sourcePath,
    for_of (default [] (dict_get backlinkDict sourcePath)) (λ link,
      modify (set_backlinks (setBacklinks_link sourcePath link)))).

(** ** Access to the layers of a page *)

(** [viewer.pdfViewer?.getPageView(pageNumber - 1)?.textLayer]. *)
Definition pageTextLayer (h : BacklinkHighlighter) (pageNumber : number) : option TextLayerBuilder :=
  getPageView (viewer h) (num_sub pageNumber (Int 1)) ≫= textLayer.

(** A change of one page view, in place. *)
Definition update_page (i : number) (f : PDFPageView → PDFPageView) (v : ObsidianViewer) : ObsidianViewer :=
  match array_index i, pdfViewer v with
  | Some k, Some pages =>
      {| isEmbed := isEmbed v; pagesCount := pagesCount v;
         pdfViewer := Some (alter f k pages) |}
  | _, _ => v
  end.

Definition update_textDivs (f : list Node → list Node) (pageView : PDFPageView) : PDFPageView :=
  {| dataset_loaded := dataset_loaded pageView;
     textLayer := (λ layer, {| textDivs := f (textDivs layer);
                               textContentItems := textContentItems layer |}) <$> textLayer pageView;
     annotationLayer := annotationLayer pageView |}.

Definition update_boundingRects (f : list BoundingRect → list BoundingRect) (pageView : PDFPageView) : PDFPageView :=
  {| dataset_loaded := dataset_loaded pageView;
     textLayer := textLayer pageView;
     annotationLayer := (λ layer, {| annotations := annotations layer;
                                     boundingRects := f (boundingRects layer) |}) <$> annotationLayer pageView |}.

(** [textDivs[index]] of page [pageNumber], about to be dereferenced: a
    [TypeError] when it is [undefined].  The arrays [textDivs] and
    [textContentItems] that [highlightText] destructures are read through the
    state, where its writes go. *)
Definition read_textDiv (pageNumber index : number) : JS BacklinkHighlighter Node :=
  let* h := get_state in
  deref "textDivs[index]" (pageTextLayer h pageNumber ≫= λ layer, array_get (textDivs layer) index).

(** [textContentItems[index]], about to be dereferenced. *)
Definition read_textContentItem (pageNumber index : number) : JS BacklinkHighlighter TextContentItem :=
  let* h := get_state in
  deref "textContentItems[index]"
    (pageTextLayer h pageNumber ≫= λ layer, array_get (textContentItems layer) index).

(** A write to the node [textDivs[index]], or [textDivs[index] = node]. *)
Definition set_textDiv (pageNumber index : number) (node : Node) : BacklinkHighlighter → BacklinkHighlighter :=
  set_viewer (update_page (num_sub pageNumber (Int 1))
                (update_textDivs (λ divs, array_set divs index node))).

Definition write_textDiv (pageNumber index : number) (node : Node) : JS BacklinkHighlighter unit :=
  modify (set_textDiv pageNumber index node).

(** [this.highlightedTexts.push({ page, index })]. *)
Definition push_highlightedText (page index : number) : JS BacklinkHighlighter unit :=
  modify (set_highlightedTexts (λ entries, entries ++ [(page, index)])).

(** [callback?.(el)]. *)
Definition call_optional {S A : Type} (callback : option (A → JS S unit)) (x : A) : JS S unit :=
  match callback with
  | Some f => f x
  | None => ret tt
  end.

(** [node.append(child)] on an element. *)
Definition append_child (node child : Node) : Node :=
  match node with
  | Element classes highlight children => Element classes highlight (children ++ [child])
  | TextNode data => TextNode data
  end.

Definition child_count (node : Node) : nat :=
  match node with
  | Element _ _ children => length children
  | TextNode _ => 0%nat
  end.

(** [dataset.highlightColor = colorName.toLowerCase()] under [if (colorName)]. *)
Definition highlight_color (colorName previous : option string) : option string :=
  match colorName with
  | Some c => if string_truthy c then Some (toLowerCase c) else previous
  | None => previous
  end.

(** ** [highlightText] (lines 834-883) *)

Definition cls : string := "pdf-plus-backlink".

Section highlightText.

Variables (pageNumber : number) (colorName : option string)
          (onHighlight : option (HTMLElementRef → JS BacklinkHighlighter unit)).

(** [divideAndWrapText] (lines 844-864); [className] is given as its class
    tokens. *)
Definition divideAndWrapText (index from : number) (to : option number)
    (className : option (list string)) : JS BacklinkHighlighter unit :=
  push_highlightedText pageNumber index >>
  let* textDiv := read_textDiv pageNumber index in
  let* textDiv :=
    match textDiv with
    | TextNode _ =>
        let span := Element [] None [textDiv] in
        write_textDiv pageNumber index span >> ret span
    | Element _ _ _ => ret textDiv
    end in
  let* item := read_textContentItem pageNumber index in
  let text := js_substring (str item) from to in
  let textNode := TextNode text in
  match className with
  | Some tokens =>
      let highlightWrapperEl :=
        Element (tokens ++ ["appended"]) (highlight_color colorName None) [textNode] in
      write_textDiv pageNumber index (append_child textDiv highlightWrapperEl) >>
      call_optional onHighlight (HighlightWrapperRef pageNumber index (child_count textDiv))
  | None =>
      write_textDiv pageNumber index (append_child textDiv textNode)
  end.

(** [divideAndWrapTextStart] (lines 839-842). *)
Definition divideAndWrapTextStart (index offset : number)
    (className : option (list string)) : JS BacklinkHighlighter unit :=
  let* textDiv := read_textDiv pageNumber index in
  write_textDiv pageNumber index (set_textContent textDiv EmptyString) >>
  divideAndWrapText index (Int 0) (Some offset) className.

(** The body of the loop over the text divs in between (lines 873-876). *)
Definition highlight_middle (i : Z) : JS BacklinkHighlighter unit :=
  push_highlightedText pageNumber (Int i) >>
  let* textDiv := read_textDiv pageNumber (Int i) in
  match textDiv with
  | Element classes highlight children =>
      write_textDiv pageNumber (Int i)
        (Element (classList_add classes ["mod-focused"; "middle"; "selected"; cls])
                 (highlight_color colorName highlight) children) >>
      call_optional onHighlight (TextDivRef pageNumber (Int i))
  | TextNode _ => throw (TypeError "Cannot read properties of undefined (reading 'add')")
  end.

(** The values of [i] in [for (let i = beginIndex + 1; i < endIndex; i++)]. *)
Definition middle_indices (beginIndex endIndex : number) : list Z :=
  match num_add beginIndex (Int 1), endIndex with
  | Int first, Int last => seqZ first (last - first)
  | _, _ => []
  end.

Definition highlightText (beginIndex beginOffset endIndex endOffset : number) : JS BacklinkHighlighter unit :=
  let* h := get_state in
  if negb (num_lt pageNumber (Int 1) || num_gt pageNumber (pagesCount (viewer h))) then
    match getPageView (viewer h) (num_sub pageNumber (Int 1)) with
    | Some pageView =>
        if bool_decide (is_Some (textLayer pageView))
           && string_truthy (default EmptyString (dataset_loaded pageView))
        then
          divideAndWrapTextStart beginIndex beginOffset None >>
          (if strict_eq beginIndex endIndex then
             divideAndWrapText beginIndex beginOffset (Some endOffset)
               (Some ["mod-focused"; "selected"; cls])
           else
             divideAndWrapText beginIndex beginOffset None
               (Some ["mod-focused"; "begin"; "selected"; cls]) >>
             for_of (middle_indices beginIndex endIndex) highlight_middle >>
             divideAndWrapTextStart endIndex endOffset
               (Some ["mod-focused"; "endselected"; cls])) >>
          divideAndWrapText endIndex endOffset None None
        else ret tt
    | None => ret tt
    end
  else ret tt.

End highlightText.

(** ** [clearTextHighlight] (lines 886-901) *)

(** [backlinks[page]?.selection.forEach(b => b.annotationEls = null)]. *)
Definition reset_annotationEls (page : number) (map : gmap number PageBacklinks) : gmap number PageBacklinks :=
  alter (λ entry,
    {| selection :=
         (λ backlink,
            {| selection_info :=
                 {| sourcePath := sourcePath (selection_info backlink);
                    linkCache := linkCache (selection_info backlink);
                    backlinkItemEl := backlinkItemEl (selection_info backlink);
                    annotationEls := None |};
               selection_pageNumber := selection_pageNumber backlink;
               beginIndex := beginIndex backlink; beginOffset := beginOffset backlink;
               endIndex := endIndex backlink; endOffset := endOffset backlink;
               colorName := colorName backlink |}) <$> selection entry;
       annotation := annotation entry |}) page map.

(** [textDiv.className = textDiv.hasClass("textLayerNode") ? "textLayerNode" : ""]. *)
Definition reset_className (classes : list string) : list string :=
  if bool_decide ("textLayerNode" ∈ classes) then ["textLayerNode"] else [].

(** The loop of lines 887-899.  Its result tells whether it ran to its end
    ([true]) or left the method through the [return] of line 890
    ([false]). *)
Fixpoint clearTextHighlight_loop (entries : list (number * number)) : JS BacklinkHighlighter bool :=
  match entries with
  | [] => ret true
  | (page, index) :: rest =>
      let* h := get_state in
      match pageTextLayer h page with
      | None => ret false
      | Some layer =>
          let* textDiv := deref "textDiv" (array_get (textDivs layer) index) in
          let* item := deref "textContentItems[index]" (array_get (textContentItems layer) index) in
          match set_textContent textDiv (str item) with
          | Element classes highlight children =>
              write_textDiv page index (Element (reset_className classes) highlight children)
          | TextNode data =>
              write_textDiv page index (TextNode data) >>
              throw (TypeError "textDiv.hasClass is not a function")
          end >>
          modify (set_backlinks (reset_annotationEls page)) >>
          clearTextHighlight_loop rest
      end
  end.

Definition clearTextHighlight : JS BacklinkHighlighter unit :=
  let* h := get_state in
  let* completed := clearTextHighlight_loop (highlightedTexts h) in
  if completed : bool then modify (set_highlightedTexts (λ _, [])) else ret tt.

(** ** [highlightAnnotation] and [clearAnnotationHighlight] (lines 904-941) *)

(** [annotationLayer.getAnnotation(id)]. *)
Fixpoint getAnnotation (annotations : list (string * AnnotationElement)) (id : string)
    : option AnnotationElement :=
  match annotations with
  | [] => None
  | (k, elem) :: rest => if bool_decide (k = id) then Some elem else getAnnotation rest id
  end.

(** [pdfjsLib.Util.normalizeRect]: the corners in increasing order. *)
Definition normalizeRect (rect : float * float * float * float) : float * float * float * float :=
  let '(r0, r1, r2, r3) := rect in
  let '(x0, x2) := if PrimFloat.ltb r2 r0 then (r2, r0) else (r0, r2) in
  let '(y1, y3) := if PrimFloat.ltb r3 r1 then (r3, r1) else (r1, r3) in
  (x0, y1, x2, y3).

(** The styles of lines 913-926. *)
Definition boundingRect_styles (elem : AnnotationElement) : CssStyles :=
  let '(rect0, rect1, rect2, rect3) := data_rect elem in
  let '(_, view1, _, view3) := page_view elem in
  let '(n0, n1, n2, n3) :=
    normalizeRect (rect0, (view3 - rect1 + view1)%float, rect2, (view3 - rect3 + view1)%float) in
  {| css_left := (100 * (n0 - pageX elem) / pageWidth elem)%float;
     css_top := (100 * (n1 - pageY elem) / pageHeight elem)%float;
     css_width := (100 * (n2 - n0) / pageWidth elem)%float;
     css_height := (100 * (n3 - n1) / pageHeight elem)%float |}.

(** The operations of [Map] on a list of entries with distinct keys. *)
Fixpoint Map_get {V : Type} (entries : list (string * V)) (key : string) : option V :=
  match entries with
  | [] => None
  | (k, v) :: rest => if bool_decide (k = key) then Some v else Map_get rest key
  end.

Fixpoint Map_set {V : Type} (entries : list (string * V)) (key : string) (value : V) : list (string * V) :=
  match entries with
  | [] => [(key, value)]
  | (k, v) :: rest =>
      if bool_decide (k = key) then (k, value) :: rest else (k, v) :: Map_set rest key value
  end.

Definition Map_delete {V : Type} (entries : list (string * V)) (key : string) : list (string * V) :=
  filter (λ entry, entry.1 ≠ key) entries.

Definition highlightAnnotation (pageNumber : number) (id : string) : JS BacklinkHighlighter unit :=
  let* h := get_state in
  if negb (num_lt pageNumber (Int 1) || num_gt pageNumber (pagesCount (viewer h))) then
    match getPageView (viewer h) (num_sub pageNumber (Int 1)) with
    | Some pageView =>
        match annotationLayer pageView with
        | Some layer =>
            if string_truthy (default EmptyString (dataset_loaded pageView)) then
              match getAnnotation (annotations layer) id with
              | Some elem =>
                  let rectEl := {| uid := next_uid h; style := boundingRect_styles elem |} in
                  modify (set_next_uid (S (next_uid h))) >>
                  modify (set_viewer (update_page (num_sub pageNumber (Int 1))
                            (update_boundingRects (λ rects, rects ++ [rectEl])))) >>
                  modify (set_highlightedAnnotations (λ entries, Map_set entries id rectEl))
              | None => ret tt
              end
            else ret tt
        | None => ret tt
        end
    | None => ret tt
    end
  else ret tt.

(** [el.detach()]: the rectangle leaves the layer it is in. *)
Definition detach (el : BoundingRect) (v : ObsidianViewer) : ObsidianViewer :=
  {| isEmbed := isEmbed v; pagesCount := pagesCount v;
     pdfViewer := fmap (M := list) (update_boundingRects (filter (λ rect, uid rect ≠ uid el)))
                    <$> pdfViewer v |}.

Definition clearAnnotationHighlight (id : string) : JS BacklinkHighlighter unit :=
  let* h := get_state in
  match Map_get (highlightedAnnotations h) id with
  | Some el =>
      modify (set_viewer (detach el)) >>
      modify (set_highlightedAnnotations (λ entries, Map_delete entries id))
  | None => ret tt
  end.

(** ** [processAnnotation] (lines 991-999) *)
Definition processAnnotation (pageNumber : number) (id : string)
    (callback : option (HTMLElementRef → JS BacklinkHighlighter unit)) : JS BacklinkHighlighter unit :=
  let* h := get_state in
  if negb (num_lt pageNumber (Int 1) || num_gt pageNumber (pagesCount (viewer h))) then
    match getPageView (viewer h) (num_sub pageNumber (Int 1)) with
    | Some pageView =>
        match annotationLayer pageView with
        | Some layer =>
            if string_truthy (default EmptyString (dataset_loaded pageView)) then
              match querySelector_annotation pageNumber layer id with
              | inl e => throw e
              | inr (Some annotationEl) => call_optional callback annotationEl
              | inr None => ret tt
              end
            else ret tt
        | None => ret tt
        end
    | None => ret tt
    end
  else ret tt.

(** ** [hookEventHandlers] and what it registers (lines 943-989, 1053-1098) *)

(** A change of the [BacklinkInfo] part of the backlink at [ref]. *)
Definition update_backlink (ref : BacklinkRef) (f : BacklinkInfo → BacklinkInfo)
    (map : gmap number PageBacklinks) : gmap number PageBacklinks :=
  match ref with
  | SelectionRef page position =>
      alter (λ entry,
        {| selection :=
             alter (λ b, {| selection_info := f (selection_info b);
                            selection_pageNumber := selection_pageNumber b;
                            beginIndex := beginIndex b; beginOffset := beginOffset b;
                            endIndex := endIndex b; endOffset := endOffset b;
                            colorName := colorName b |}) position (selection entry);
           annotation := annotation entry |}) page map
  | AnnotationRef page position =>
      alter (λ entry,
        {| selection := selection entry;
           annotation :=
             alter (λ b, {| annotation_info := f (annotation_info b); id := id b;
                            annotation_pageNumber := annotation_pageNumber b |})
                   position (annotation entry) |}) page map
  end.

(** The [BacklinkInfo] part of the backlink at [ref]. *)
Definition backlink_info (map : gmap number PageBacklinks) (ref : BacklinkRef) : option BacklinkInfo :=
  match ref with
  | SelectionRef page position =>
      map !! page ≫= λ entry, selection_info <$> selection entry !! position
  | AnnotationRef page position =>
      map !! page ≫= λ entry, annotation_info <$> annotation entry !! position
  end.

(** [this.eventManager.registerDomEvent(...)]. *)
Definition register (r : Registration) : JS BacklinkHighlighter unit :=
  modify (set_eventManager (λ c, {| loaded := loaded c; registered := registered c ++ [r] |})).

(** [updateBacklinkItemEl] (lines 1095-1098). *)
Definition updateBacklinkItemEl (ref : BacklinkRef) : JS BacklinkHighlighter unit :=
  let* h := get_state in
  match backlink_info (backlinks h) ref ≫= findBacklinkItemEl with
  | Some el =>
      modify (set_backlinks (update_backlink ref (λ info,
        {| sourcePath := sourcePath info; linkCache := linkCache info;
           backlinkItemEl := Some el; annotationEls := annotationEls info |})))
  | None => ret tt
  end.

(** [registerHoverOverSelectionBacklinkItem] (lines 1058-1070): a
    [mouseover] and a [mouseout] handler on the item of the backlink pane. *)
Definition registerHoverOverSelectionBacklinkItem (backlinkItemEl : HTMLElementRef)
    (highlightedEls : list HTMLElementRef) : JS BacklinkHighlighter unit :=
  register (HoverSelectionItem backlinkItemEl "mouseover" highlightedEls) >>
  register (HoverSelectionItem backlinkItemEl "mouseout" highlightedEls).

(** [registerHoverOverAnnotationBacklinkItem] (lines 1072-1092). *)
Definition registerHoverOverAnnotationBacklinkItem (pageNumber : number)
    (backlinkItemEl : HTMLElementRef) (annotationEls : list HTMLElementRef)
    : JS BacklinkHighlighter unit :=
  register (HoverAnnotationItem backlinkItemEl "mouseover" pageNumber annotationEls) >>
  register (HoverAnnotationItem backlinkItemEl "mouseout" pageNumber annotationEls).

(** What the [mouseover] handler of lines 1075-1082 does when the event
    comes from outside the item ([isMouseEventExternal]), and the [mouseout]
    handler of lines 1084-1091. *)
Definition hoverAnnotationItem_mouseover (pageNumber : number)
    (annotationEls : list HTMLElementRef) : JS BacklinkHighlighter unit :=
  for_of (remove_dups annotationEls) (λ el,
    match dataset_annotationId el with
    | Some id => if string_truthy id then highlightAnnotation pageNumber id else ret tt
    | None => ret tt
    end).

Definition hoverAnnotationItem_mouseout (annotationEls : list HTMLElementRef)
    : JS BacklinkHighlighter unit :=
  for_of (remove_dups annotationEls) (λ el,
    match dataset_annotationId el with
    | Some id => if string_truthy id then clearAnnotationHighlight id else ret tt
    | None => ret tt
    end).

(** [registerHoverOverBacklinkItem] (lines 1053-1056), on [backlink.type] and
    [backlink.pageNumber]. *)
Definition registerHoverOverBacklinkItem (ref : BacklinkRef) (pageNumber : number)
    (backlinkItemEl : HTMLElementRef) (highlightedEls : list HTMLElementRef)
    : JS BacklinkHighlighter unit :=
  match ref with
  | SelectionRef _ _ => registerHoverOverSelectionBacklinkItem backlinkItemEl highlightedEls
  | AnnotationRef _ _ =>
      registerHoverOverAnnotationBacklinkItem pageNumber backlinkItemEl highlightedEls
  end.

(** [backlink.pageNumber] of the backlink at [ref]. *)
Definition backlink_pageNumber (map : gmap number PageBacklinks) (ref : BacklinkRef)
    : option number :=
  match ref with
  | SelectionRef page position =>
      map !! page ≫= λ entry, selection_pageNumber <$> selection entry !! position
  | AnnotationRef page position =>
      map !! page ≫= λ entry, annotation_pageNumber <$> annotation entry !! position
  end.

Definition hookEventHandlers (ref : BacklinkRef) (annotationEl : HTMLElementRef) : JS BacklinkHighlighter unit :=
  let* h := get_state in
  (if setting_enabled h "highlightOnHoverBacklinkPane" then
     updateBacklinkItemEl ref >>
     let* h := get_state in
     match backlink_info (backlinks h) ref ≫= backlinkItemEl,
           backlink_pageNumber (backlinks h) ref with
     | Some itemEl, Some pageNumber =>
         registerHoverOverBacklinkItem ref pageNumber itemEl [annotationEl]
     | _, _ => ret tt
     end
   else ret tt) >>
  register (DomEvent annotationEl "mouseover" ref) >>
  register (DomEvent annotationEl "mouseout" ref) >>
  register (DomEvent annotationEl "mouseover" ref) >>
  register (DomEvent annotationEl "dblclick" ref).

(** ** [_highlightBacklinks] and [highlightBacklinks] (lines 776-831) *)

(** The callback given to [onTextLayerReady] (lines 799-815). *)
Definition textLayerReady (pageNumber : number) : JS BacklinkHighlighter unit :=
  let* h := get_state in
  let selections := default [] (selection <$> backlinks h !! pageNumber) in
  for_of (imap (λ position backlink, (position, backlink)) selections) (λ '(position, backlink),
    let* h := get_state in
    if negb (string_truthy (default EmptyString (colorName backlink)))
       && setting_enabled h "highlightColorSpecifiedOnly"
    then ret tt
    else
      highlightText pageNumber (colorName backlink)
        (Some (λ highlightedEl,
           modify (set_backlinks (update_backlink (SelectionRef pageNumber position) (λ info,
             {| sourcePath := sourcePath info; linkCache := linkCache info;
                backlinkItemEl := backlinkItemEl info;
                annotationEls := Some (default [] (annotationEls info) ++ [highlightedEl]) |}))) >>
           hookEventHandlers (SelectionRef pageNumber position) highlightedEl))
        (beginIndex backlink) (beginOffset backlink) (endIndex backlink) (endOffset backlink)).

(** The callback given to [onAnnotationLayerReady] (lines 817-830). *)
Definition annotationLayerReady (pageNumber : number) : JS BacklinkHighlighter unit :=
  let* h := get_state in
  let annotations := default [] (annotation <$> backlinks h !! pageNumber) in
  for_of (imap (λ position backlink, (position, backlink)) annotations) (λ '(position, backlink),
    processAnnotation pageNumber (id backlink)
      (Some (λ rectEl,
         modify (set_backlinks (update_backlink (AnnotationRef pageNumber position) (λ info,
           {| sourcePath := sourcePath info; linkCache := linkCache info;
              backlinkItemEl := backlinkItemEl info;
              annotationEls := Some [rectEl] |}))) >>
         hookEventHandlers (AnnotationRef pageNumber position) rectEl))).

(** [this.removeChild(this.eventManager); this.addChild(this.eventManager)]:
    the child is unloaded, and loaded again only if the parent is loaded. *)
Definition reload_eventManager (h : BacklinkHighlighter) : BacklinkHighlighter :=
  set_eventManager (λ c, let c := Component_unload c in
                         if self_loaded h then Component_load c else c) h.

(** Lines 792-830: what [_highlightBacklinks] does once the map is
    rebuilt. *)
Definition highlight_layers : JS BacklinkHighlighter unit :=
  clearTextHighlight >>
  modify (set_eventManager Component_unload) >>
  modify reload_eventManager >>
  onTextLayerReady textLayerReady >>
  onAnnotationLayerReady annotationLayerReady.

Definition _highlightBacklinks : JS BacklinkHighlighter unit :=
  let* h := get_state in
  match file h with
  | None => ret tt
  | Some file =>
      if isEmbed (viewer h) then ret tt
      else if negb (setting_enabled h "highlightBacklinks") then ret tt
      else
        setBacklinks file >>
        highlight_layers
  end.

(** What [highlightBacklinks] shows when it has caught an exception. *)
Definition failure_notice (h : BacklinkHighlighter) : string :=
  manifest_name (plugin h) +:+ ": Failed to highlight backlinks. Reopen the file to retry.".

(** The [catch] block of lines 779-782. *)
Definition report_failure (e : JSError) : JS BacklinkHighlighter unit :=
  let* h := get_state in
  new_Notice (failure_notice h) >>
  console_error e.

Definition highlightBacklinks : JS BacklinkHighlighter unit :=
  try_catch _highlightBacklinks report_failure.

(** ** [onload] and [onunload] (lines 709-723) *)

Definition onload : JS BacklinkHighlighter unit :=
  let* h := get_state in
  if negb (isEmbed (viewer h)) then
    highlightBacklinks >>
    modify (set_resolved_registered true)
  else ret tt.

(** The metadata cache fires [resolved]: the handler registered by [onload]
    runs, if there is one. *)
Definition metadataCache_resolved : JS BacklinkHighlighter unit :=
  let* h := get_state in
  if resolved_registered h then highlightBacklinks else ret tt.

(** The keys of the map are visited in insertion order; deleting the key
    just visited leaves the others in place. *)
Definition onunload : JS BacklinkHighlighter unit :=
  clearTextHighlight >>
  let* h := get_state in
  for_of (highlightedAnnotations h).*1 clearAnnotationHighlight.

(** ** The loops of [setBacklinks], read as one pass

    The links of a dictionary in the order the two loops of [setBacklinks]
    visit them, each with its source path, and the map the loop bodies build
    from the empty one. *)
Definition all_links (dict : BacklinkDict) : list (string * LinkCache) :=
  dict.*1 ≫= λ sourcePath, (λ link, (sourcePath, link)) <$> default [] (dict_get dict sourcePath).

Definition build_backlinks (dict : BacklinkDict) : gmap number PageBacklinks :=
  fold_left (λ map entry, setBacklinks_link entry.1 entry.2 map) (all_links dict) ∅.

(** ** Vocabulary of the properties of the text highlights *)

(** What a method establishes: [Q] when it completes normally, [E] when it
    throws.  With [E := False] the method is shown not to throw; with
    [E := True] only its normal completions are described. *)
Definition wpg {S A : Type} (E : Prop) (m : JS S A) (Q : A → S → Prop) (s : S) : Prop :=
  match m s with
  | Normal a s' => Q a s'
  | Abrupt _ _ => E
  end.

Definition is_element (node : Node) : Prop :=
  match node with
  | Element _ _ _ => True
  | TextNode _ => False
  end.

(** Between [h] and [h'] every text layer has stayed, with the same
    [textContentItems], as many [textDivs], and an element wherever there was
    one. *)
Definition layers_kept (h h' : BacklinkHighlighter) : Prop :=
  ∀ page layer, pageTextLayer h page = Some layer →
    ∃ layer', pageTextLayer h' page = Some layer'
      ∧ textContentItems layer' = textContentItems layer
      ∧ length (textDivs layer') = length (textDivs layer)
      ∧ (∀ k node, textDivs layer !! k = Some node → is_element node →
           ∃ node', textDivs layer' !! k = Some node' ∧ is_element node').

(** The entry [{ page, index }] names a text div that is an element. *)
Definition has_div (h : BacklinkHighlighter) (entry : number * number) : Prop :=
  ∃ layer node, pageTextLayer h entry.1 = Some layer
    ∧ array_get (textDivs layer) entry.2 = Some node ∧ is_element node.

(** The entry names an item of [textContentItems]. *)
Definition has_item (h : BacklinkHighlighter) (entry : number * number) : Prop :=
  ∃ layer item, pageTextLayer h entry.1 = Some layer
    ∧ array_get (textContentItems layer) entry.2 = Some item.

(** An entry of [highlightedTexts] that [clearTextHighlight] can undo. *)
Definition recorded_ok (h : BacklinkHighlighter) (entry : number * number) : Prop :=
  has_div h entry ∧ has_item h entry.

(** [index] lies strictly between [first] and [last]. *)
Definition strictly_between (first last index : number) : Prop :=
  ∃ zf zl zi, first = Int zf ∧ last = Int zl ∧ index = Int zi ∧ zf < zi < zl.

(** Between [h] and [h'] the layers were kept and [highlightedTexts] grew by
    entries that satisfy [R]. *)
Definition added_by (R : BacklinkHighlighter → number * number → Prop)
    (h h' : BacklinkHighlighter) : Prop :=
  layers_kept h h'
  ∧ ∃ added, highlightedTexts h' = highlightedTexts h ++ added ∧ Forall (R h') added.

(** A callback that leaves the viewer and [highlightedTexts] alone. *)
Definition callback_frame (E : Prop)
    (callback : option (HTMLElementRef → JS BacklinkHighlighter unit)) : Prop :=
  ∀ f, callback = Some f → ∀ el h,
    wpg E (f el) (λ _ h', viewer h' = viewer h ∧ highlightedTexts h' = highlightedTexts h) h.

(** An element whose only content is [text]: one text node, or no child
    when [text] is empty. *)
Definition plain_text_div (node : Node) (text : string) : Prop :=
  ∃ classes highlight,
    node = Element classes highlight (if string_truthy text then [TextNode text] else []).

(** The text div of the entry holds the string of its item again, and
    nothing else. *)
Definition restored (h : BacklinkHighlighter) (entry : number * number) : Prop :=
  ∃ layer node item, pageTextLayer h entry.1 = Some layer
    ∧ array_get (textDivs layer) entry.2 = Some node
    ∧ array_get (textContentItems layer) entry.2 = Some item
    ∧ plain_text_div node (str item).

(** The states reached from [h0], a state in which nothing is highlighted,
    by calls of [highlightText] that completed, with callbacks that leave
    the viewer and [highlightedTexts] alone, and by nothing else. *)
Inductive recorded (h0 : BacklinkHighlighter) : BacklinkHighlighter → Prop :=
| recorded_nothing :
    highlightedTexts h0 = [] → recorded h0 h0
| recorded_highlightText (h h' : BacklinkHighlighter) (pageNumber : number)
    (colorName : option string)
    (onHighlight : option (HTMLElementRef → JS BacklinkHighlighter unit))
    (beginIndex beginOffset endIndex endOffset : number) :
    recorded h0 h →
    callback_frame True onHighlight →
    highlightText pageNumber colorName onHighlight beginIndex beginOffset endIndex endOffset h
    = Normal tt h' →
    recorded h0 h'.

(** [textDivs[index]] of page [page], if the page has a text layer and the
    array something there. *)
Definition div_at (h : BacklinkHighlighter) (page index : number) : option Node :=
  pageTextLayer h page ≫= λ layer, array_get (textDivs layer) index.

(** Between [h] and [h'] no entry left [highlightedTexts], and a text div
    changed only if [highlightedTexts] names it in [h']. *)
Definition untouched (h h' : BacklinkHighlighter) : Prop :=
  (∀ entry, entry ∈ highlightedTexts h → entry ∈ highlightedTexts h')
  ∧ ∀ page index,
      (page, index) ∈ highlightedTexts h' ∨ div_at h' page index = div_at h page index.

(** Both arrays of page [page] have something at [index]. *)
Definition within (h : BacklinkHighlighter) (page index : number) : Prop :=
  ∃ layer node item, pageTextLayer h page = Some layer
    ∧ array_get (textDivs layer) index = Some node
    ∧ array_get (textContentItems layer) index = Some item.

(** What is known of an entry while [highlightText] on page [page] runs: its
    text div is an element, and its item is there or its index lies between
    the begin and the end index. *)
Definition tracked (first last page : number) (h : BacklinkHighlighter)
    (entry : number * number) : Prop :=
  entry.1 = page ∧ has_div h entry
  ∧ (has_item h entry ∨ strictly_between first last entry.2).

(** What a run of [highlightText] on page [page] from [first] to [last] finds
    in place when its indices are within the arrays: the text div and the
    item of both ends, and an element at every index in between. *)
Definition in_bounds (page first last : number) (h : BacklinkHighlighter) : Prop :=
  within h page first ∧ within h page last
  ∧ ∀ zi, zi ∈ middle_indices first last → has_div h (page, Int zi).

(** The rectangle with this [uid] sits in the annotation layer of some
    page. *)
Definition attached (v : ObsidianViewer) (u : nat) : Prop :=
  ∃ pages pageView layer rect,
    pdfViewer v = Some pages ∧ pageView ∈ pages
    ∧ annotationLayer pageView = Some layer
    ∧ rect ∈ boundingRects layer ∧ uid rect = u.

(** Every entry is filed under its own page number and starts without
    elements. *)
Definition filed_by_page (map : gmap number PageBacklinks) : Prop :=
  ∀ page entry, map !! page = Some entry →
    Forall (λ b, selection_pageNumber b = page
                 ∧ backlinkItemEl (selection_info b) = None
                 ∧ annotationEls (selection_info b) = None) (selection entry)
    ∧ Forall (λ b, annotation_pageNumber b = page
                   ∧ backlinkItemEl (annotation_info b) = None
                   ∧ annotationEls (annotation_info b) = None) (annotation entry).

(** ** A small vault, for the examples

    A PDF of two pages, [paper.pdf], with two text divs on each page and one
    annotation on the first, and a note that links to it. *)

(** An instance of [getSubpathWithoutHash]: what follows the first [#] of
    the link text, the empty string when there is none. *)
Fixpoint subpath_after_hash (linktext : string) : string :=
  match linktext with
  | EmptyString => EmptyString
  | String c rest => if Ascii.eqb c "#" then rest else subpath_after_hash rest
  end.

(** An instance of [onTextLayerReady] and one of [onAnnotationLayerReady]:
    the callback is kept for the pages to come. *)
Definition register_textLayerReady (callback : number → JS BacklinkHighlighter unit)
    : JS BacklinkHighlighter unit :=
  register TextLayerReady.

Definition register_annotationLayerReady (callback : number → JS BacklinkHighlighter unit)
    : JS BacklinkHighlighter unit :=
  register AnnotationLayerReady.

(** An instance of the query for an annotation element: the element of the
    annotation with that id, if the layer has one. *)
Definition annotation_element (pageNumber : number) (layer : AnnotationLayerBuilder) (id : string)
    : JSError + option HTMLElementRef :=
  inr (match getAnnotation (annotations layer) id with
       | Some _ => Some (AnnotationElRef pageNumber id)
       | None => None
       end).

(** An instance of [findBacklinkItemEl]: the backlink pane is closed. *)
Definition no_backlink_pane (backlink : BacklinkInfo) : option HTMLElementRef := None.

(** An instance of the query for an option of the dropdown: the first option
    with that value. *)
Definition option_with_value (options : list OptionEl) (name : string) : JSError + option nat :=
  inr (fst <$> list_find (λ o, option_value o = name) options).

(** An instance of [loadStyle] that leaves the plugin as it is. *)
Definition loadStyle_noop : JS PDFPlus unit := ret tt.


(** An instance of the query for an option that throws, as a selector that
    does not parse makes [querySelector] throw, when the name holds a
    quotation mark. *)
Definition quotation_mark : ascii := "034".

Definition option_of_selector (options : list OptionEl) (name : string) : JSError + option nat :=
  if existsb (Ascii.eqb quotation_mark) (list_ascii_of_string name)
  then inl (DOMException "SyntaxError")
  else option_with_value options name.

(** An instance of [redisplay]: the dropdown of the default color is built
    again from the colors, when [display] builds one (lines 336-349). *)
Definition redisplay_dropdown : JS PDFPlusSettingTab unit :=
  let* colors := get_colors in
  modify (λ t,
    {| tab_plugin := tab_plugin t; tab_notices := tab_notices t;
       defaultColorOptions :=
         if truthy (get_property (settings (tab_plugin t)) "highlightColorSpecifiedOnly")
         then []
         else addDropdowenSetting_options (defaultColor_dropdown (map_to_list colors).*1) |}).

Definition demo_plugin : PDFPlus :=
  {| settings := DEFAULT_SETTINGS; savedData := None; manifest_name := "PDF++" |}.

Definition demo_annotation : AnnotationElement :=
  {| data_rect := (100, 700, 200, 720)%float;
     page_view := (0, 0, 612, 792)%float;
     pageWidth := 612%float; pageHeight := 792%float;
     pageX := 0%float; pageY := 0%float |}.

Definition demo_page (first second : string) (annotations : list (string * AnnotationElement))
    : PDFPageView :=
  {| dataset_loaded := Some "true";
     textLayer := Some {| textDivs := [ Element ["textLayerNode"] None [TextNode first];
                                        Element ["textLayerNode"] None [TextNode second] ];
                          textContentItems := [ {| str := first |}; {| str := second |} ] |};
     annotationLayer := Some {| annotations := annotations; boundingRects := [] |} |}.

Definition demo_viewer : ObsidianViewer :=
  {| isEmbed := false;
     pagesCount := Int 2;
     pdfViewer := Some [ demo_page "Formal methods" "in practice" [("12R", demo_annotation)];
                         demo_page "Second page" "of the paper" [] ] |}.

Definition demo_selection_link : LinkCache :=
  {| link := "paper.pdf#page=1&selection=0,7,1,2&color=Red";
     position_start_line := 3; position_start_offset := 40; position_end_offset := 90 |}.

Definition demo_annotation_link : LinkCache :=
  {| link := "paper.pdf#page=1&annotation=12R";
     position_start_line := 5; position_start_offset := 120; position_end_offset := 155 |}.

Definition demo_links : list LinkCache := [demo_selection_link; demo_annotation_link].

Definition demo_metadataCache : MetadataCache :=
  {| getBacklinksForFile := λ path,
       if String.eqb path "paper.pdf" then [("note.md", demo_links)] else [] |}.

(** The highlighter of a viewer that has just opened [paper.pdf]. *)
Definition demo_highlighter : BacklinkHighlighter :=
  {| metadataCache := demo_metadataCache;
     plugin := demo_plugin;
     viewer := demo_viewer;
     file := Some {| path := "paper.pdf" |};
     eventManager := {| loaded := true; registered := [] |};
     backlinks := ∅;
     highlightedTexts := [];
     highlightedAnnotations := [];
     self_loaded := true;
     resolved_registered := true;
     next_uid := 0;
     notices := [];
     console := [] |}.

(** The same highlighter with the setting [highlightBacklinks] turned off. *)
Definition demo_highlighter_off : BacklinkHighlighter :=
  {| metadataCache := demo_metadataCache;
     plugin := set_settings (λ o, <["highlightBacklinks" := VBoolean false]> o) demo_plugin;
     viewer := demo_viewer;
     file := Some {| path := "paper.pdf" |};
     eventManager := {| loaded := true; registered := [] |};
     backlinks := ∅;
     highlightedTexts := [];
     highlightedAnnotations := [];
     self_loaded := true;
     resolved_registered := true;
     next_uid := 0;
     notices := [];
     console := [] |}.

(** [demo_highlighter] once the selection of the first link is highlighted on
    page 1 (from offset 7 of the first text div to offset 2 of the second)
    and one text div on page 2. *)
Definition demo_highlighted : BacklinkHighlighter :=
  state_of (highlightText (Int 2) None None (Int 0) (Int 0) (Int 0) (Int 6)
              (state_of (highlightText (Int 1) (Some "Red") None (Int 0) (Int 7) (Int 1) (Int 2)
                           demo_highlighter))).

(** [pageView.textLayer = null]: the renderer drops the text layer of a page
    that is far from the viewport. *)
Definition drop_textLayer (pageView : PDFPageView) : PDFPageView :=
  {| dataset_loaded := dataset_loaded pageView; textLayer := None;
     annotationLayer := annotationLayer pageView |}.

(** [demo_highlighted] after the annotation of page 1 is highlighted too. *)
Definition demo_annotated : BacklinkHighlighter :=
  state_of (highlightAnnotation (Int 1) "12R" demo_highlighted).

(** [demo_annotated] after the reader has moved on: page 1 has lost its text
    layer. *)
Definition demo_scrolled_away : BacklinkHighlighter :=
  set_viewer (update_page (Int 0) drop_textLayer) demo_annotated.

(** The settings tab over the default settings, with the dropdown of the
    default color on display. *)
Definition demo_tab : PDFPlusSettingTab :=
  {| tab_plugin := demo_plugin;
     tab_notices := [];
     defaultColorOptions :=
       [ {| option_value := EmptyString; option_textContent := "Obsidian default" |};
         {| option_value := "Yellow"; option_textContent := "Yellow" |};
         {| option_value := "Red"; option_textContent := "Red" |};
         {| option_value := "Blue"; option_textContent := "Blue" |} ] |}.

(** [demo_tab] after [Add a new color]: the record of colors holds a color
    with the empty name. *)
Definition demo_tab_added : PDFPlusSettingTab :=
  {| tab_plugin :=
       set_settings (λ o, <["colors" := VRecord (object_literal
         [ ("Yellow", "#ffd000"); ("Red", "#EA5252"); ("Blue", "#7b89f4");
           (EmptyString, "#") ])]> o) demo_plugin;
     tab_notices := [];
     defaultColorOptions :=
       addDropdowenSetting_options
         (defaultColor_dropdown ["Yellow"; "Red"; "Blue"; EmptyString]) |}.

(** [demo_tab] with a color whose name holds a quotation mark. *)
Definition demo_tab_quoted : PDFPlusSettingTab :=
  {| tab_plugin :=
       set_settings (λ o, <["colors" := VRecord (object_literal
         [ ("Yellow", "#ffd000");
           (String "5" (String quotation_mark EmptyString), "#00ff00") ])]> o) demo_plugin;
     tab_notices := [];
     defaultColorOptions := defaultColorOptions demo_tab |}.

(** [demo_highlighter] after a link whose end index (7) lies beyond the two
    text divs of page 1 was highlighted: [highlightText] threw on the way and
    left an entry for a text div that is not there. *)
Definition demo_stale : BacklinkHighlighter :=
  state_of (highlightText (Int 1) None None (Int 0) (Int 0) (Int 7) (Int 0) demo_highlighter).

(** A highlighter with the setting [highlightColorSpecifiedOnly] turned on,
    whose note links to a selection on page 2 without naming a color. *)
Definition demo_colorless_link : LinkCache :=
  {| link := "paper.pdf#page=2&selection=0,0,0,6";
     position_start_line := 7; position_start_offset := 10; position_end_offset := 48 |}.

Definition demo_color_only : BacklinkHighlighter :=
  {| metadataCache :=
       {| getBacklinksForFile := λ path,
            if String.eqb path "paper.pdf"
            then [("note.md", [demo_selection_link; demo_colorless_link])] else [] |};
     plugin := set_settings (λ o, <["highlightColorSpecifiedOnly" := VBoolean true]> o) demo_plugin;
     viewer := demo_viewer;
     file := Some {| path := "paper.pdf" |};
     eventManager := {| loaded := true; registered := [] |};
     backlinks := ∅;
     highlightedTexts := [];
     highlightedAnnotations := [];
     self_loaded := true;
     resolved_registered := true;
     next_uid := 0;
     notices := [];
     console := [] |}.

(** * Properties *)

(** ** The shape of the settings *)

Lemma fold_insert_lookup {V : Type} (entries : list (string * V)) (acc : gmap string V)
    (key : string) (v : V) :
  fold_left (λ obj kv, <[kv.1 := kv.2]> obj) entries acc !! key = Some v →
  key ∈ entries.*1 ∨ acc !! key = Some v.
Proof.
  revert acc. induction entries as [|[k w] entries IH]; intros acc; simpl.
  - auto.
  - intros H. destruct (IH _ H) as [Hin | Hacc].
    + left. now right.
    + destruct (decide (k = key)) as [->|Hne].
      * left. now left.
      * rewrite lookup_insert_ne in Hacc by done. now right.
Qed.

Lemma object_literal_keys {V : Type} (entries : list (string * V)) (key : string) :
  is_Some (object_literal entries !! key) → key ∈ entries.*1.
Proof.
  intros [v Hv]. apply fold_insert_lookup in Hv as [Hin | Hempty]; [done|].
  now rewrite lookup_empty in Hempty.
Qed.

(** C7. [DEFAULT_SETTINGS] has exactly the fields of the interface
    [PDFPlusSettings], in the same order and each once; the value of every
    declared field has the declared type (a boolean for a toggle, a number
    for a numeric option, a string for a format, color or pane-type option
    and one of the alternatives where the type is a union of literals, a
    record of hex colors for [colors]); and [DEFAULT_SETTINGS] has no field
    that the interface does not declare. *)
Theorem DEFAULT_SETTINGS_shape :
  DEFAULT_SETTINGS_literal.*1 = PDFPlusSettings.*1
  ∧ NoDup PDFPlusSettings.*1
  ∧ (∀ field ty, (field, ty) ∈ PDFPlusSettings →
       ∃ v, DEFAULT_SETTINGS !! field = Some v ∧ has_type v ty = true)
  ∧ (∀ field, is_Some (DEFAULT_SETTINGS !! field) → field ∈ PDFPlusSettings.*1).
Proof.
  assert (Hkeys : DEFAULT_SETTINGS_literal.*1 = PDFPlusSettings.*1) by reflexivity.
  split_and!.
  - exact Hkeys.
  - apply (bool_decide_unpack _). vm_compute. exact I.
  - intros field ty Hin.
    assert (Hall : forallb (λ f, has_type (get_property DEFAULT_SETTINGS f.1) f.2)
                     PDFPlusSettings = true) by (vm_compute; reflexivity).
    rewrite forallb_forall in Hall.
    apply list_elem_of_In, Hall in Hin. simpl in Hin.
    unfold get_property in Hin.
    destruct (DEFAULT_SETTINGS !! field) as [v|] eqn:Hv.
    + exists v. split; [reflexivity | exact Hin].
    + simpl in Hin. destruct ty; discriminate.
  - intros field Hsome. rewrite <- Hkeys.
    now apply object_literal_keys.
Qed.

(** ** The handler of a number setting *)

Lemma get_property_insert (obj : gmap string JSValue) (key : string) (v : JSValue) :
  get_property (<[key := v]> obj) key = v.
Proof. unfold get_property. now rewrite lookup_insert_eq. Qed.

(** C8. The change handler of [addNumberSetting] always completes; called
    with the empty string it sets the setting to its value in
    [DEFAULT_SETTINGS], called with any other string it sets it to the
    numeric conversion of that string; it changes no other setting and shows
    no notice; and when it is done the saved settings are the settings. *)
Theorem addNumberSetting_onChange_spec (settingName value : string) (t : PDFPlusSettingTab) :
  ∃ t', addNumberSetting_onChange settingName value t = Normal tt t'
    ∧ (value = EmptyString →
         get_property (settings (tab_plugin t')) settingName
         = get_property DEFAULT_SETTINGS settingName)
    ∧ (value ≠ EmptyString →
         get_property (settings (tab_plugin t')) settingName = VNumber (ToNumber value))
    ∧ (∀ other, other ≠ settingName →
         settings (tab_plugin t') !! other = settings (tab_plugin t) !! other)
    ∧ savedData (tab_plugin t') = Some (settings (tab_plugin t'))
    ∧ tab_notices t' = tab_notices t.
Proof.
  eexists. split; [reflexivity|]. simpl.
  split_and!.
  - intros ->. now rewrite get_property_insert.
  - intros Hne. rewrite get_property_insert. now rewrite bool_decide_eq_false_2.
  - intros other Hne. now rewrite lookup_insert_ne.
  - reflexivity.
  - reflexivity.
Qed.

(** ** The options of a dropdown *)

Lemma addDropdowenSetting_fold (args : DropdownArgs) (options : list string) :
  ∀ (added : list OptionEl) (names : gset string),
    names = list_to_set (option_textContent <$> added) →
    NoDup (option_textContent <$> added) →
    ∃ more,
      (fold_left (addDropdowenSetting_addOption args) options (added, names)).1 = added ++ more
      ∧ NoDup (option_textContent <$> (added ++ more))
      ∧ (option_value <$> more) `sublist_of` options
      ∧ Forall (λ el, option_textContent el = dropdown_displayName args (option_value el)) more
      ∧ (∀ option, option ∈ options →
           dropdown_displayName args option ∈ option_textContent <$> (added ++ more))
      ∧ (NoDup (dropdown_displayName args <$> options) →
         (∀ option, option ∈ options → dropdown_displayName args option ∉ names) →
         more = (λ option, {| option_value := option;
                              option_textContent := dropdown_displayName args option |})
                <$> options).
Proof.
  induction options as [|option options IH]; intros added names Hnames Hnodup.
  - exists []. rewrite app_nil_r.
    split_and!; [reflexivity | exact Hnodup | constructor | constructor | | reflexivity].
    intros o Ho. inversion Ho.
  - simpl. unfold addDropdowenSetting_addOption at 2. simpl.
    case_bool_decide as Hseen.
    + destruct (IH added names Hnames Hnodup) as (more & Hrun & Hnd & Hsub & Hdn & Hall & Hfull).
      exists more. split_and!; try done.
      * now apply sublist_cons.
      * intros o Ho. apply elem_of_cons in Ho as [->|Ho]; [|now apply Hall].
        rewrite fmap_app, elem_of_app. left.
        rewrite Hnames in Hseen. now apply elem_of_list_to_set in Hseen.
      * intros Hnd' Hfresh. exfalso. apply (Hfresh option); [now left | exact Hseen].
    + set (el := {| option_value := option;
                    option_textContent := dropdown_displayName args option |}).
      destruct (IH (added ++ [el]) ({[dropdown_displayName args option]} ∪ names))
        as (more & Hrun & Hnd & Hsub & Hdn & Hall & Hfull).
      { rewrite fmap_app, list_to_set_app_L, Hnames. simpl.
        rewrite union_empty_r_L. apply (comm_L (∪)). }
      { rewrite fmap_app. apply NoDup_app. split_and!; [exact Hnodup | | apply NoDup_singleton].
        intros x Hx Hx'. apply list_elem_of_singleton in Hx'. subst x. apply Hseen.
        rewrite Hnames. now apply elem_of_list_to_set. }
      exists (el :: more). rewrite Hrun, <- app_assoc. simpl.
      rewrite <- app_assoc in Hnd. simpl in Hnd.
      split_and!; try done.
      * now apply sublist_skip.
      * constructor; [reflexivity | exact Hdn].
      * intros o Ho. apply elem_of_cons in Ho as [->|Ho].
        -- rewrite fmap_app, elem_of_app. right. now left.
        -- specialize (Hall o Ho). now rewrite <- app_assoc in Hall.
      * intros Hnd' Hfresh. apply NoDup_cons in Hnd' as [Hhead Hnd'].
        f_equal. apply Hfull; [exact Hnd'|].
        intros o Ho. rewrite not_elem_of_union. split; [|apply Hfresh; now right].
        rewrite elem_of_singleton. intros Heq. apply Hhead.
        rewrite <- Heq. now apply list_elem_of_fmap_2.
Qed.

(** The options of a dropdown built by [addDropdowenSetting]: no two of them
    show the same display name; they are options that were asked for, in the
    order asked, each under its display name; every display name asked for
    is shown; and when the display names asked for are distinct, every
    option is there. *)
Theorem addDropdowenSetting_options_spec (args : DropdownArgs) :
  let shown := addDropdowenSetting_options args in
  NoDup (option_textContent <$> shown)
  ∧ (option_value <$> shown) `sublist_of` dropdown_options args
  ∧ (∀ el, el ∈ shown → option_textContent el = dropdown_displayName args (option_value el))
  ∧ (∀ option, option ∈ dropdown_options args →
       dropdown_displayName args option ∈ option_textContent <$> shown)
  ∧ (NoDup (dropdown_displayName args <$> dropdown_options args) →
     shown = (λ option, {| option_value := option;
                           option_textContent := dropdown_displayName args option |})
             <$> dropdown_options args).
Proof.
  intros shown. subst shown. unfold addDropdowenSetting_options.
  destruct (addDropdowenSetting_fold args (dropdown_options args) [] ∅)
    as (more & Hrun & Hnd & Hsub & Hdn & Hall & Hfull); [done | constructor |].
  rewrite Hrun. simpl in *. split_and!; try done.
  - intros el Hel. rewrite Forall_forall in Hdn. now apply Hdn.
  - intros Hnodup. apply Hfull; [exact Hnodup|]. intros o _. apply not_elem_of_empty.
Qed.

(** The options of the dropdown of the default color: [Obsidian default]
    with the empty value, then options whose text is their value, which is
    neither empty nor [Obsidian default]. *)
Lemma defaultColor_dropdown_shape (keys : list string) :
  ∃ more,
    addDropdowenSetting_options (defaultColor_dropdown keys)
    = {| option_value := EmptyString; option_textContent := "Obsidian default" |} :: more
    ∧ (∀ el, el ∈ more →
         string_truthy (option_value el) = true
         ∧ option_textContent el = option_value el
         ∧ option_value el ≠ "Obsidian default")
    ∧ (∀ key, key ∈ keys → key ≠ EmptyString → key ≠ "Obsidian default" →
         {| option_value := key; option_textContent := key |} ∈ more).
Proof.
  unfold addDropdowenSetting_options. simpl.
  set (args := defaultColor_dropdown keys).
  set (first := {| option_value := EmptyString; option_textContent := "Obsidian default" |}).
  assert (Hdn : ∀ key, dropdown_displayName args key
                       = if string_truthy key then key else "Obsidian default") by reflexivity.
  assert (Hstep : addDropdowenSetting_addOption args ([], ∅) EmptyString
                  = ([first], {["Obsidian default"]} ∪ ∅)).
  { unfold addDropdowenSetting_addOption. simpl.
    now rewrite bool_decide_eq_false_2 by apply not_elem_of_empty. }
  rewrite Hstep.
  destruct (addDropdowenSetting_fold args keys [first] ({["Obsidian default"]} ∪ ∅))
    as (more & Hrun & Hnd & Hsub & Htext & Hall & _).
  { simpl. reflexivity. }
  { apply NoDup_singleton. }
  rewrite Hrun. simpl in Hnd, Hall. simpl.
  apply NoDup_cons in Hnd as [Hfirst Hnd].
  assert (Hmore : ∀ el, el ∈ more → string_truthy (option_value el) = true
                        ∧ option_textContent el = option_value el
                        ∧ option_value el ≠ "Obsidian default").
  { intros el Hel. rewrite Forall_forall in Htext. pose proof (Htext el Hel) as Hel'.
    rewrite Hdn in Hel'. destruct (string_truthy (option_value el)) eqn:Htruthy.
    - split_and!; [reflexivity | exact Hel' |].
      intros Hvalue. apply Hfirst. rewrite <- Hvalue, <- Hel'. now apply list_elem_of_fmap_2.
    - exfalso. apply Hfirst. rewrite <- Hel'. now apply list_elem_of_fmap_2. }
  exists more. split_and!; [reflexivity | exact Hmore |].
  intros key Hkey Hne Hne'.
  specialize (Hall key Hkey). rewrite Hdn in Hall.
  destruct key as [|c key]; [done|]. simpl in Hall.
  apply elem_of_cons in Hall as [Heq|Hin]; [done|].
  apply list_elem_of_fmap in Hin as (el & Htextel & Hel).
  destruct (Hmore el Hel) as (_ & Hvalue & _). destruct el as [v t]. simpl in *. now subst.
Qed.

(** The dropdown of the default color: its first option is [Obsidian
    default], with the empty value; every color with another name than the
    empty one and [Obsidian default] is offered under its name; a color named
    [Obsidian default] is not offered, and neither is a color with the empty
    name (the empty value is the first option's). *)
Theorem defaultColor_dropdown_offers (keys : list string) :
  let shown := addDropdowenSetting_options (defaultColor_dropdown keys) in
  head shown = Some {| option_value := EmptyString; option_textContent := "Obsidian default" |}
  ∧ (∀ key, key ∈ keys → key ≠ EmptyString → key ≠ "Obsidian default" →
       {| option_value := key; option_textContent := key |} ∈ shown)
  ∧ (∀ el, el ∈ shown → option_value el ≠ "Obsidian default")
  ∧ (∀ i el, shown !! i = Some el → option_value el = EmptyString → i = 0%nat).
Proof.
  intros shown. subst shown.
  destruct (defaultColor_dropdown_shape keys) as (more & -> & Hmore & Hkeys).
  split_and!.
  - reflexivity.
  - intros key Hkey Hne Hne'. right. now apply Hkeys.
  - intros el Hel. apply elem_of_cons in Hel as [->|Hel]; [discriminate|].
    now apply Hmore.
  - intros [|i] el Hi Hvalue; [reflexivity|]. simpl in Hi.
    apply list_elem_of_lookup_2 in Hi. destruct (Hmore el Hi) as (Htruthy & _).
    rewrite Hvalue in Htruthy. discriminate.
Qed.

(** ** The change handlers and the types of the settings *)







(** The toggle of the highlight duration leaves a duration that the toggle
    shows as it was set: positive exactly when it was turned on.  Turning it
    on keeps a duration that was positive and makes any other one 1; turning
    it off makes it 0.  No other setting changes, and the settings are saved
    before the tab is displayed again. *)
Theorem highlightDuration_onChange_spec (value : bool) (t : PDFPlusSettingTab) :
  let before := get_property (settings (tab_plugin t)) "highlightDuration" in
  ∃ t', highlightDuration_onChange value t = redisplay t'
    ∧ positive (get_property (settings (tab_plugin t')) "highlightDuration") = value
    ∧ get_property (settings (tab_plugin t')) "highlightDuration"
      = (if value then (if positive before then before else VNumber 1%float)
         else VNumber 0%float)
    ∧ (∀ other, other ≠ "highlightDuration" →
         settings (tab_plugin t') !! other = settings (tab_plugin t) !! other)
    ∧ savedData (tab_plugin t') = Some (settings (tab_plugin t'))
    ∧ tab_notices t' = tab_notices t
    ∧ defaultColorOptions t' = defaultColorOptions t.
Proof.
  intros before. eexists. split.
  { unfold highlightDuration_onChange, bind, get_state, assign_setting, on_plugin,
      saveSettings, modify. simpl. reflexivity. }
  simpl. rewrite get_property_insert. fold before.
  split_and!; try reflexivity.
  - destruct value; [|reflexivity].
    destruct (positive before) eqn:Hpositive; [exact Hpositive | reflexivity].
  - intros other Hne. now rewrite lookup_insert_ne.
Qed.

(** ** The rows of the colors *)

Lemma get_colors_record (t : PDFPlusSettingTab) (colors : gmap string string) :
  get_property (settings (tab_plugin t)) "colors" = VRecord colors →
  get_colors t = Normal colors t.
Proof. intros Hcolors. unfold get_colors, bind, get_state. now rewrite Hcolors. Qed.

(** Picking a color and then asking for the previous one is a round trip on
    the record of colors, for a [loadStyle] that completes and leaves the
    settings alone: after the color picker the row's name stands for the new
    color; after [Return to previous color] it stands for the color the row
    had, the settings are saved, and [loadStyle] and [redisplay] are what is
    left to run. *)
Theorem color_pick_then_previous (newColor : string) (t : PDFPlusSettingTab)
    (row : ColorSetting) (colors : gmap string string) :
  get_property (settings (tab_plugin t)) "colors" = VRecord colors →
  (∀ p, ∃ p', loadStyle p = Normal tt p' ∧ settings p' = settings p) →
  ∃ t1 row1,
    addColorSetting_onChangeColor newColor (t, row) = Normal tt (t1, row1)
    ∧ get_property (settings (tab_plugin t1)) "colors"
      = VRecord (<[name row := newColor]> colors)
    ∧ ∃ t2 row2,
        addColorSetting_onClickPrevious (t1, row1)
        = (on_tab (on_plugin loadStyle) >> on_tab redisplay) (t2, row2)
        ∧ get_property (settings (tab_plugin t2)) "colors"
          = VRecord (<[name row := color row]> colors)
        ∧ (colors !! name row = Some (color row) →
           get_property (settings (tab_plugin t2)) "colors" = VRecord colors)
        ∧ color row2 = color row
        ∧ savedData (tab_plugin t2) = Some (settings (tab_plugin t2)).
Proof.
  intros Hcolors Hload.
  unfold addColorSetting_onChangeColor, addColorSetting_onClickPrevious.
  unfold bind at 1, on_row at 1, modify at 1. unfold bind at 1, get_row at 1.
  unfold bind at 1, on_tab at 1. rewrite (get_colors_record _ _ Hcolors).
  unfold bind at 1, on_tab at 1, set_colors at 1, assign_setting at 1, modify at 1.
  unfold bind at 1, on_tab at 1, on_plugin at 1, saveSettings at 1, modify at 1.
  unfold on_tab at 1, on_plugin at 1. simpl.
  match goal with |- context [loadStyle ?p] => destruct (Hload p) as (p' & -> & Hp') end.
  eexists _, _. split; [reflexivity|]. simpl. rewrite Hp'. simpl.
  split; [apply get_property_insert|].
  unfold bind at 1, on_row at 1, modify at 1. unfold bind at 1, get_row at 1.
  unfold bind at 1, on_tab at 1.
  erewrite get_colors_record; [|simpl; rewrite Hp'; apply get_property_insert].
  unfold bind at 1, on_tab at 1, set_colors at 1, assign_setting at 1, modify at 1.
  unfold bind at 1, on_tab at 1, on_plugin at 1, saveSettings at 1, modify at 1.
  eexists _, _. split; [reflexivity|]. simpl. rewrite Hp'. simpl.
  rewrite insert_insert_eq, get_property_insert, insert_insert_eq.
  split_and!; try reflexivity.
  intros Hname. now rewrite insert_id.
Qed.

(** The buttons [Delete] and [Add a new color].  Deleting removes the key of
    the row from the record of colors and saves; adding gives the empty name
    the color [#] and does not save.  Neither changes another setting: the
    default color goes on naming a color that was deleted. *)
Theorem color_buttons_spec (t : PDFPlusSettingTab) (row : ColorSetting)
    (colors : gmap string string) :
  get_property (settings (tab_plugin t)) "colors" = VRecord colors →
  (∃ t', addColorSetting_onClickDelete (t, row)
         = (on_tab (on_plugin loadStyle) >> on_tab redisplay) (t', row)
     ∧ get_property (settings (tab_plugin t')) "colors" = VRecord (delete (name row) colors)
     ∧ (∀ other, other ≠ "colors" →
          settings (tab_plugin t') !! other = settings (tab_plugin t) !! other)
     ∧ get_property (settings (tab_plugin t')) "defaultColor"
       = get_property (settings (tab_plugin t)) "defaultColor"
     ∧ savedData (tab_plugin t') = Some (settings (tab_plugin t')))
  ∧ (∃ t', addColor_onClick t = redisplay t'
       ∧ get_property (settings (tab_plugin t')) "colors"
         = VRecord (<[EmptyString := "#"]> colors)
       ∧ (∀ other, other ≠ "colors" →
            settings (tab_plugin t') !! other = settings (tab_plugin t) !! other)
       ∧ savedData (tab_plugin t') = savedData (tab_plugin t)).
Proof.
  intros Hcolors. split.
  - unfold addColorSetting_onClickDelete.
    unfold bind at 1, get_row at 1. unfold bind at 1, on_tab at 1.
    rewrite (get_colors_record _ _ Hcolors).
    unfold bind at 1, on_tab at 1, set_colors at 1, assign_setting at 1, modify at 1.
    unfold bind at 1, on_tab at 1, on_plugin at 1, saveSettings at 1, modify at 1.
    eexists. split; [reflexivity|]. simpl.
    split_and!; [apply get_property_insert | | | reflexivity].
    + intros other Hne. now rewrite lookup_insert_ne.
    + unfold get_property. now rewrite lookup_insert_ne.
  - unfold addColor_onClick. unfold bind at 1. rewrite (get_colors_record _ _ Hcolors).
    unfold bind at 1, set_colors, assign_setting, modify.
    eexists. split; [reflexivity|]. simpl.
    split_and!; [apply get_property_insert | | reflexivity].
    intros other Hne. now rewrite lookup_insert_ne.
Qed.

(** Runs the handler of the name input on a name that [in] does not find,
    up to [final], its call of [loadStyle]. *)
Ltac run_rename Hcolors Hin Hquery final :=
  unfold addColorSetting_onChangeName;
  set (final := on_tab (on_plugin loadStyle));
  unfold bind at 1, on_tab at 1; rewrite (get_colors_record _ _ Hcolors); rewrite Hin;
  unfold bind at 1, on_row at 1, modify at 1; unfold bind at 1, get_row at 1;
  unfold bind at 1, on_tab at 1, set_colors at 1, assign_setting at 1, modify at 1;
  unfold bind at 1, on_tab at 1, get_state at 1; simpl;
  rewrite Hquery.

(** Renaming a color to a name that [in] does not find in the record, when
    the query for the option of the old name answers: the old key is removed
    and the new one holds the color of the row; the option found, if one was,
    carries the new name as its value and its text; the default color
    follows when the row was built as the default one; the settings are
    saved, and [loadStyle] is what is left to run. *)
Theorem addColorSetting_onChangeName_renames (newName : string) (t : PDFPlusSettingTab)
    (row : ColorSetting) (colors : gmap string string) (optionEl : option nat) :
  get_property (settings (tab_plugin t)) "colors" = VRecord colors →
  js_in newName colors = false →
  querySelector_option (defaultColorOptions t) (name row) = inr optionEl →
  ∃ t',
    addColorSetting_onChangeName newName (t, row)
    = on_tab (on_plugin loadStyle)
        (t', {| name := newName; color := color row; previousColor := previousColor row;
                isDefault := isDefault row; input_error := false |})
    ∧ get_property (settings (tab_plugin t')) "colors"
      = VRecord (<[newName := color row]> (delete (name row) colors))
    ∧ get_property (settings (tab_plugin t')) "defaultColor"
      = (if isDefault row then VString newName
         else get_property (settings (tab_plugin t)) "defaultColor")
    ∧ defaultColorOptions t'
      = match optionEl with
        | Some position =>
            <[position := {| option_value := newName; option_textContent := newName |}]>
              (defaultColorOptions t)
        | None => defaultColorOptions t
        end
    ∧ savedData (tab_plugin t') = Some (settings (tab_plugin t'))
    ∧ tab_notices t' = tab_notices t.
Proof.
  intros Hcolors Hin Hquery. run_rename Hcolors Hin Hquery final.
  destruct optionEl as [position|], (isDefault row) eqn:Hdefault;
    unfold on_tab, on_row, rename_option, get_colors, set_colors, assign_setting,
      on_plugin, saveSettings, modify, get_state, ret, bind; simpl;
    rewrite ?get_property_insert; simpl; rewrite ?Hdefault; simpl;
    (eexists; split; [reflexivity|]); simpl;
    rewrite ?insert_insert_eq;
    unfold get_property;
    rewrite ?lookup_insert_eq, ?(lookup_insert_ne _ "defaultColor" "colors") by done;
    rewrite ?lookup_insert_eq, ?(lookup_insert_ne _ "colors" "defaultColor") by done;
    rewrite ?lookup_insert_eq;
    split_and!; reflexivity.
Qed.

(** When the query for the option of the old name throws (a name with a
    quotation mark makes a selector that does not parse), the rename stops
    after the old key is removed: the handler throws what the query threw,
    the record of colors has lost the color of the row, the new name holds
    nothing, and nothing is saved. *)
Theorem addColorSetting_onChangeName_query_throws (newName : string) (t : PDFPlusSettingTab)
    (row : ColorSetting) (colors : gmap string string) (e : JSError) :
  get_property (settings (tab_plugin t)) "colors" = VRecord colors →
  js_in newName colors = false →
  querySelector_option (defaultColorOptions t) (name row) = inl e →
  ∃ t',
    addColorSetting_onChangeName newName (t, row)
    = Abrupt e (t', {| name := name row; color := color row;
                       previousColor := previousColor row;
                       isDefault := isDefault row; input_error := false |})
    ∧ get_property (settings (tab_plugin t')) "colors" = VRecord (delete (name row) colors)
    ∧ delete (name row) colors !! name row = None
    ∧ delete (name row) colors !! newName = None
    ∧ savedData (tab_plugin t') = savedData (tab_plugin t)
    ∧ defaultColorOptions t' = defaultColorOptions t.
Proof.
  intros Hcolors Hin Hquery. run_rename Hcolors Hin Hquery final.
  eexists. split; [reflexivity|]. simpl.
  split_and!; [apply get_property_insert | apply lookup_delete_eq | | reflexivity | reflexivity].
  unfold js_in in Hin. apply orb_false_iff in Hin as [Hown _].
  apply bool_decide_eq_false in Hown.
  destruct (decide (name row = newName)) as [->|Hne]; [apply lookup_delete_eq|].
  rewrite lookup_delete_ne by done.
  destruct (colors !! newName) eqn:Hlookup; [|reflexivity].
  exfalso. apply Hown. eauto.
Qed.

(** The color that [Add a new color] makes has the empty name, and the
    option of the dropdown with the empty value is [Obsidian default]: when
    that color is given a name, the query for its option finds [Obsidian
    default] and the handler rewrites it.  Until the tab is displayed again
    the dropdown starts with the new name, and no option has the empty value:
    [Obsidian default] cannot be chosen. *)
Theorem rename_unnamed_color_takes_default_option (newName : string) (t : PDFPlusSettingTab)
    (row : ColorSetting) (colors : gmap string string) (keys : list string) :
  get_property (settings (tab_plugin t)) "colors" = VRecord colors →
  name row = EmptyString →
  is_Some (colors !! EmptyString) →
  js_in newName colors = false →
  defaultColorOptions t = addDropdowenSetting_options (defaultColor_dropdown keys) →
  querySelector_option (defaultColorOptions t) EmptyString
  = inr (fst <$> list_find (λ o, option_value o = EmptyString) (defaultColorOptions t)) →
  ∃ t' row',
    addColorSetting_onChangeName newName (t, row) = on_tab (on_plugin loadStyle) (t', row')
    ∧ head (defaultColorOptions t')
      = Some {| option_value := newName; option_textContent := newName |}
    ∧ (∀ el, el ∈ defaultColorOptions t' → option_value el ≠ EmptyString)
    ∧ get_property (settings (tab_plugin t')) "colors"
      = VRecord (<[newName := color row]> (delete EmptyString colors)).
Proof.
  intros Hcolors Hname Hsome Hin Hoptions Hquery.
  assert (HnewName : newName ≠ EmptyString).
  { intros ->. unfold js_in in Hin. apply orb_false_iff in Hin as [Hown _].
    apply bool_decide_eq_false in Hown. now apply Hown. }
  destruct (defaultColor_dropdown_shape keys) as (more & Hshape & Hmore & _).
  rewrite Hshape in Hoptions. rewrite Hoptions in Hquery. simpl in Hquery.
  rewrite <- Hoptions, <- Hname in Hquery.
  run_rename Hcolors Hin Hquery final.
  destruct (isDefault row) eqn:Hdefault;
    unfold on_tab, on_row, rename_option, get_colors, set_colors, assign_setting,
      on_plugin, saveSettings, modify, get_state, ret, bind; simpl;
    rewrite ?get_property_insert; simpl; rewrite ?Hdefault; simpl;
    (eexists _, _; split; [reflexivity|]); simpl;
    rewrite Hoptions, Hname; simpl;
    unfold get_property;
    rewrite ?(lookup_insert_ne _ "defaultColor" "colors") by done;
    rewrite ?lookup_insert_eq; simpl; rewrite ?insert_insert_eq;
    (split_and!; [reflexivity | | reflexivity]);
    intros el Hel; (apply elem_of_cons in Hel as [->|Hel]; [exact HnewName|]);
    intros Hvalue; destruct (Hmore el Hel) as (Htruthy & _);
    rewrite Hvalue in Htruthy; discriminate.
Qed.

(** ** The guards of [_highlightBacklinks] *)

(** C10. When the highlighter has no file, or the viewer is an embed, or the
    setting [highlightBacklinks] is off, [_highlightBacklinks] returns at
    once and leaves the whole highlighter as it was: its backlinks map, its
    highlighted texts and annotations, and the registrations of its event
    manager among the rest. *)
Theorem _highlightBacklinks_guards (h : BacklinkHighlighter) :
  file h = None ∨ isEmbed (viewer h) = true ∨ setting_enabled h "highlightBacklinks" = false →
  _highlightBacklinks h = Normal tt h.
Proof.
  intros Hguard. unfold _highlightBacklinks, bind, get_state.
  destruct (file h) as [f|]; [|reflexivity].
  destruct (isEmbed (viewer h)); [reflexivity|].
  destruct (setting_enabled h "highlightBacklinks"); [|reflexivity].
  destruct Hguard as [? | [? | ?]]; discriminate.
Qed.

(** ** The wrapper [highlightBacklinks] *)

(** C3. [highlightBacklinks] never throws.  When [_highlightBacklinks] throws
    [e] and leaves the state [h'], the wrapper completes normally with [h']
    in which one notice has been added to the notices and [e] to the logged
    errors, and nothing else has changed (the routine is not run a second
    time).  When [_highlightBacklinks] completes normally, the wrapper's
    result is the routine's: it adds no notice and logs nothing. *)
Theorem highlightBacklinks_catches (h : BacklinkHighlighter) :
  (∃ h'', highlightBacklinks h = Normal tt h'')
  ∧ (∀ e h', _highlightBacklinks h = Abrupt e h' →
       ∃ h'', highlightBacklinks h = Normal tt h''
         ∧ notices h'' = notices h' ++ [failure_notice h']
         ∧ console h'' = console h' ++ [e]
         ∧ viewer h'' = viewer h'
         ∧ backlinks h'' = backlinks h'
         ∧ highlightedTexts h'' = highlightedTexts h'
         ∧ highlightedAnnotations h'' = highlightedAnnotations h'
         ∧ eventManager h'' = eventManager h'
         ∧ file h'' = file h'
         ∧ plugin h'' = plugin h'
         ∧ metadataCache h'' = metadataCache h'
         ∧ self_loaded h'' = self_loaded h'
         ∧ resolved_registered h'' = resolved_registered h'
         ∧ next_uid h'' = next_uid h')
  ∧ (∀ h', _highlightBacklinks h = Normal tt h' → highlightBacklinks h = Normal tt h').
Proof.
  unfold highlightBacklinks, try_catch.
  destruct (_highlightBacklinks h) as [[] h1 | e1 h1] eqn:Hrun.
  - split_and!.
    + eauto.
    + intros e h' Habs. discriminate.
    + intros h' Heq. exact Heq.
  - split_and!.
    + eexists. reflexivity.
    + intros e h' Heq. injection Heq as -> ->.
      eexists. split; [reflexivity|]. simpl. split_and!; reflexivity.
    + intros h' Habs. discriminate.
Qed.

(** ** The grammar of link texts *)

Lemma params_has_get (params : URLSearchParams) (name : string) :
  params_has params name = true ↔ is_Some (params_get params name).
Proof.
  unfold params_has. rewrite bool_decide_eq_true.
  induction params as [|[k v] params IH]; simpl.
  - split; [intros H; inversion H | intros [? H]; discriminate].
  - rewrite elem_of_cons. case_bool_decide as Hk.
    + subst. split; [eauto | intros _; now left].
    + rewrite <- IH. split; [intros [?|?]; [congruence | done] | now right].
Qed.

Lemma push_selection_changes (page : number) (b : SelectionBacklinkInfo)
    (map : gmap number PageBacklinks) :
  push_selection page b map ≠ map.
Proof.
  unfold push_selection. intros Heq.
  apply (f_equal (λ m, m !! page)) in Heq. rewrite lookup_insert_eq in Heq.
  destruct (map !! page) as [[sel ann]|]; simpl in Heq; [|discriminate].
  injection Heq as Hsel. apply (f_equal length) in Hsel.
  rewrite length_app in Hsel. simpl in Hsel. lia.
Qed.

Lemma push_annotation_changes (page : number) (b : AnnotationBacklinkInfo)
    (map : gmap number PageBacklinks) :
  push_annotation page b map ≠ map.
Proof.
  unfold push_annotation. intros Heq.
  apply (f_equal (λ m, m !! page)) in Heq. rewrite lookup_insert_eq in Heq.
  destruct (map !! page) as [[sel ann]|]; simpl in Heq; [|discriminate].
  injection Heq as Hann. apply (f_equal length) in Hann.
  rewrite length_app in Hann. simpl in Hann. lia.
Qed.

(** C1 (amended).  What one backlink adds to the map, by the query
    parameters of its subpath.  With [page] and [selection], whether or not
    [annotation] is there too: when the value of [selection] splits at
    commas into exactly four pieces, one selection entry is pushed under the
    parsed page number, its begin index, begin offset, end index and end
    offset being the four pieces parsed, and its color name the value of
    [color] if there is one; when it splits into another number of pieces,
    nothing is added.  With [page] and [annotation] and no [selection]: one
    annotation entry with that id is pushed under the parsed page number.
    Otherwise nothing is added.  So an entry is created if and only if the
    parameters hold [page] with a four-piece [selection], or [page] with
    [annotation] and no [selection]. *)
Theorem setBacklinks_link_grammar (sourcePath : string) (linkCache : LinkCache)
    (map : gmap number PageBacklinks) :
  let params := new_URLSearchParams (getSubpathWithoutHash (link linkCache)) in
  let has := λ name, params_has params name = true in
  let value := params_get_nonnull params in
  let pieces := split "," (value "selection") in
  let page := parseInt (value "page") in
  let info := {| sourcePath := sourcePath; linkCache := linkCache;
                 backlinkItemEl := None; annotationEls := None |} in
  let added := setBacklinks_link sourcePath linkCache map in
  (∀ name, has name → params_get params name = Some (value name))
  ∧ (has "page" → has "selection" →
       ∀ b bOff e eOff, pieces = [b; bOff; e; eOff] →
         added = push_selection page
                   {| selection_info := info; selection_pageNumber := page;
                      beginIndex := parseInt b; beginOffset := parseInt bOff;
                      endIndex := parseInt e; endOffset := parseInt eOff;
                      colorName := params_get params "color" |} map)
  ∧ (has "selection" → length pieces ≠ 4%nat → added = map)
  ∧ (has "page" → ¬ has "selection" → has "annotation" →
       added = push_annotation page
                 {| annotation_info := info; id := value "annotation";
                    annotation_pageNumber := page |} map)
  ∧ (¬ has "page" ∨ (¬ has "selection" ∧ ¬ has "annotation") → added = map)
  ∧ (added ≠ map ↔
       (has "page" ∧ has "selection" ∧ length pieces = 4%nat)
       ∨ (has "page" ∧ has "annotation" ∧ ¬ has "selection")).
Proof.
  intros params has value pieces page info added.
  assert (Hpieces : length (parseInt <$> pieces) = length pieces) by apply length_fmap.
  assert (Hadded : added =
    if params_has params "page" && params_has params "selection" then
      match parseInt <$> pieces with
      | [s0; s1; s2; s3] =>
          push_selection page
            {| selection_info := info; selection_pageNumber := page;
               beginIndex := s0; beginOffset := s1; endIndex := s2; endOffset := s3;
               colorName := params_get params "color" |} map
      | _ => map
      end
    else if params_has params "page" && params_has params "annotation" then
      push_annotation page
        {| annotation_info := info; id := value "annotation";
           annotation_pageNumber := page |} map
    else map) by reflexivity.
  clearbody added. subst added. unfold has.
  split_and!.
  - intros name Hhas. apply params_has_get in Hhas as [v Hv].
    unfold value, params_get_nonnull. now rewrite Hv.
  - intros -> -> b bOff e eOff Heq. simpl. now rewrite Heq.
  - intros -> Hlen. rewrite andb_true_r.
    destruct (params_has params "page"); simpl.
    + destruct (parseInt <$> pieces) as [|? [|? [|? [|? [|? ?]]]]]; simpl in *;
        try reflexivity. lia.
    + destruct (params_has params "annotation"); reflexivity.
  - intros -> Hsel -> . apply not_true_is_false in Hsel. now rewrite Hsel.
  - intros [Hpage | [Hsel Hann]].
    + apply not_true_is_false in Hpage. now rewrite Hpage.
    + apply not_true_is_false in Hsel, Hann. rewrite Hsel, Hann.
      now rewrite !andb_false_r.
  - destruct (params_has params "page"), (params_has params "selection") eqn:Hsel;
      simpl.
    + destruct (parseInt <$> pieces) as [|? [|? [|? [|? [|? ?]]]]] eqn:Hp; simpl in *.
      all: split; [intros Hne | intros [(_ & _ & Hlen) | (_ & _ & Hno)]].
      all: try (exfalso; now apply Hne).
      all: try (exfalso; now apply Hno).
      all: try (exfalso; lia).
      * left. split_and!; [reflexivity | reflexivity | lia].
      * apply push_selection_changes.
    + destruct (params_has params "annotation"); split.
      * intros _. right. split_and!; [reflexivity | reflexivity | discriminate].
      * intros _. apply push_annotation_changes.
      * intros Hne. exfalso. now apply Hne.
      * intros [(_ & ? & _) | (_ & ? & _)]; discriminate.
    + split; [intros Hne; exfalso; now apply Hne|].
      intros [(? & _) | (? & _)]; discriminate.
    + split; [intros Hne; exfalso; now apply Hne|].
      intros [(? & _) | (? & _)]; discriminate.
Qed.

(** ** The rebuild of the backlinks map *)

Lemma for_of_pure {S A : Type} (xs : list A) (body : A → JS S unit) (g : A → S → S) (s : S) :
  (∀ x s, body x s = Normal tt (g x s)) →
  for_of xs body s = Normal tt (fold_left (λ s x, g x s) xs s).
Proof.
  intros Hbody. revert s. induction xs as [|x xs IH]; intros s; simpl.
  - reflexivity.
  - unfold bind. rewrite Hbody. apply IH.
Qed.

Lemma fold_left_bind {A B C : Type} (f : C → B → C) (g : A → list B) (xs : list A) (c : C) :
  fold_left f (xs ≫= g) c = fold_left (λ c x, fold_left f (g x) c) xs c.
Proof.
  revert c. induction xs as [|x xs IH]; intros c; simpl.
  - reflexivity.
  - rewrite fold_left_app. apply IH.
Qed.

Lemma fold_left_pointwise {A B : Type} (f g : A → B → A) (xs : list B) (a : A) :
  (∀ a x, f a x = g a x) → fold_left f xs a = fold_left g xs a.
Proof.
  intros Hfg. revert a. induction xs as [|x xs IH]; intros a; simpl.
  - reflexivity.
  - rewrite Hfg. apply IH.
Qed.

Lemma fold_set_backlinks {A : Type} (g : A → gmap number PageBacklinks → gmap number PageBacklinks)
    (xs : list A) (map : gmap number PageBacklinks) (h : BacklinkHighlighter) :
  fold_left (λ h x, set_backlinks (g x) h) xs (set_backlinks (λ _, map) h)
  = set_backlinks (λ _, fold_left (λ m x, g x m) xs map) h.
Proof.
  revert map. induction xs as [|x xs IH]; intros map; simpl.
  - reflexivity.
  - apply (IH (g x map)).
Qed.

Lemma setBacklinks_spec (file : TFile) (h : BacklinkHighlighter) :
  setBacklinks file h
  = Normal tt (set_backlinks
                 (λ _, build_backlinks (getBacklinksForFile (metadataCache h) (path file))) h).
Proof.
  unfold setBacklinks, bind, modify, get_state. simpl.
  set (dict := getBacklinksForFile (metadataCache h) (path file)).
  erewrite for_of_pure; last first.
  { intros sourcePath s.
    apply (for_of_pure _ _ (λ link, set_backlinks (setBacklinks_link sourcePath link))).
    reflexivity. }
  f_equal. unfold build_backlinks, all_links.
  rewrite fold_left_bind.
  rewrite <- (fold_set_backlinks
                (λ sourcePath map,
                   fold_left (λ map entry, setBacklinks_link entry.1 entry.2 map)
                     ((λ link, (sourcePath, link)) <$> default [] (dict_get dict sourcePath)) map)).
  apply fold_left_pointwise. intros s sourcePath. clear.
  generalize (default [] (dict_get dict sourcePath)). intros links.
  revert s. induction links as [|l links IH]; intros s; simpl.
  - now destruct s.
  - rewrite IH. reflexivity.
Qed.

(** C4 (amended). [setBacklinks] always completes and changes nothing but
    the backlinks map, which it first empties: the map it leaves is built
    from the links the metadata cache has for the file and does not depend on
    the entries that were there before.  [onload] registers the handler of
    the cache's [resolved] event when the viewer is not an embed; the handler
    runs this rebuild, and then the rest of the routine on the rebuilt map,
    whenever the highlighter has a file, the viewer is not an embed and the
    setting [highlightBacklinks] is on. *)
Theorem setBacklinks_rebuilds :
  (∀ file h,
     setBacklinks file h
     = Normal tt (set_backlinks
                    (λ _, build_backlinks (getBacklinksForFile (metadataCache h) (path file))) h))
  ∧ (∀ file h1 h2,
       metadataCache h1 = metadataCache h2 →
       backlinks (state_of (setBacklinks file h1)) = backlinks (state_of (setBacklinks file h2)))
  ∧ (∀ h, isEmbed (viewer h) = false → resolved_registered (state_of (onload h)) = true)
  ∧ (∀ h f,
       resolved_registered h = true → file h = Some f →
       isEmbed (viewer h) = false → setting_enabled h "highlightBacklinks" = true →
       ∃ h1, setBacklinks f h = Normal tt h1
         ∧ backlinks h1 = build_backlinks (getBacklinksForFile (metadataCache h) (path f))
         ∧ metadataCache_resolved h = try_catch highlight_layers report_failure h1).
Proof.
  split_and!.
  - apply setBacklinks_spec.
  - intros file h1 h2 Hcache. rewrite !setBacklinks_spec. simpl. now rewrite Hcache.
  - intros h Hembed. unfold onload, bind, get_state. rewrite Hembed. simpl.
    unfold highlightBacklinks, try_catch, report_failure, bind, get_state, new_Notice,
      console_error, modify.
    destruct (_highlightBacklinks h) as [[] h1 | e1 h1]; reflexivity.
  - intros h f Hreg Hfile Hembed Hon.
    eexists. split; [apply setBacklinks_spec|]. split; [reflexivity|].
    unfold metadataCache_resolved, bind at 1, get_state. rewrite Hreg.
    unfold highlightBacklinks, try_catch, _highlightBacklinks, bind at 1, get_state.
    rewrite Hfile, Hembed, Hon. simpl.
    unfold bind at 1. rewrite setBacklinks_spec. reflexivity.
Qed.

(** ** Reasoning about methods *)

Lemma wpg_ret {S A : Type} (E : Prop) (a : A) (Q : A → S → Prop) (s : S) :
  Q a s → wpg E (ret a) Q s.
Proof. intros H. exact H. Qed.

Lemma wpg_bind {S A B : Type} (E : Prop) (m : JS S A) (k : A → JS S B)
    (Q : B → S → Prop) (s : S) :
  wpg E m (λ a s', wpg E (k a) Q s') s → wpg E (bind m k) Q s.
Proof. unfold wpg, bind. destruct (m s); intros H; exact H. Qed.

Lemma wpg_consequence {S A : Type} (E : Prop) (m : JS S A) (Q Q' : A → S → Prop) (s : S) :
  wpg E m Q s → (∀ a s', Q a s' → Q' a s') → wpg E m Q' s.
Proof. unfold wpg. destruct (m s); intros H HQ; [now apply HQ | exact H]. Qed.

Lemma wpg_modify {S : Type} (E : Prop) (f : S → S) (Q : unit → S → Prop) (s : S) :
  Q tt (f s) → wpg E (modify f) Q s.
Proof. intros H. exact H. Qed.

Lemma wpg_get_state {S : Type} (E : Prop) (Q : S → S → Prop) (s : S) :
  Q s s → wpg E get_state Q s.
Proof. intros H. exact H. Qed.

Lemma wpg_throw {S A : Type} (E : Prop) (e : JSError) (Q : A → S → Prop) (s : S) :
  E → wpg E (throw e) Q s.
Proof. intros H. exact H. Qed.

Lemma wpg_deref {S A : Type} (E : Prop) (what : string) (x : option A)
    (Q : A → S → Prop) (s : S) :
  (∀ a, x = Some a → Q a s) → (x = None → E) → wpg E (deref what x) Q s.
Proof. destruct x; intros HQ HE; [now apply HQ | now apply HE]. Qed.

Lemma wpg_for_of {S A : Type} (E : Prop) (xs : list A) (body : A → JS S unit)
    (I : S → Prop) (s : S) :
  (∀ x s, x ∈ xs → I s → wpg E (body x) (λ _, I) s) →
  I s → wpg E (for_of xs body) (λ _, I) s.
Proof.
  revert s. induction xs as [|x xs IH]; intros s Hbody HI; simpl.
  - exact HI.
  - apply wpg_bind. eapply wpg_consequence.
    + apply Hbody; [left | exact HI].
    + intros [] s' HI'. apply IH; [|exact HI'].
      intros y s'' Hy. apply Hbody. now right.
Qed.

Lemma wpg_call_optional {S A : Type} (E : Prop) (callback : option (A → JS S unit)) (x : A)
    (Q : unit → S → Prop) (s : S) :
  (∀ f, callback = Some f → wpg E (f x) Q s) → (callback = None → Q tt s) →
  wpg E (call_optional callback x) Q s.
Proof. destruct callback; intros Hsome Hnone; [now apply Hsome | now apply Hnone]. Qed.

(** ** Arrays indexed by numbers *)

Lemma array_index_inj (i j : number) (k : nat) :
  array_index i = Some k → array_index j = Some k → i = j.
Proof.
  destruct i as [|zi], j as [|zj]; simpl; try discriminate.
  repeat case_bool_decide; try discriminate.
  intros [= <-] [= Heq]. f_equal. lia.
Qed.

Lemma array_index_sub_inj (p p' : number) (k : nat) :
  array_index (num_sub p (Int 1)) = Some k → array_index (num_sub p' (Int 1)) = Some k → p = p'.
Proof.
  intros H H'. pose proof (array_index_inj _ _ _ H H') as Heq.
  destruct p, p'; simpl in *; try discriminate. injection Heq as Heq. f_equal. lia.
Qed.

Lemma array_get_Some {A : Type} (arr : list A) (i : number) (x : A) :
  array_get arr i = Some x ↔ ∃ k, array_index i = Some k ∧ arr !! k = Some x.
Proof.
  unfold array_get. destruct (array_index i) as [k|]; simpl.
  - split; [eauto | now intros (k' & [= <-] & Hk)].
  - split; [discriminate | now intros (k' & [=] & _)].
Qed.

Lemma length_array_set {A : Type} (arr : list A) (i : number) (x : A) :
  length (array_set arr i x) = length arr.
Proof. unfold array_set. destruct (array_index i); [apply length_insert | reflexivity]. Qed.

Lemma array_get_set_eq {A : Type} (arr : list A) (i : number) (x y : A) :
  array_get arr i = Some y → array_get (array_set arr i x) i = Some x.
Proof.
  unfold array_get, array_set. destruct (array_index i) as [k|]; simpl; [|discriminate].
  intros Hy. apply list_lookup_insert_eq. now apply lookup_lt_Some in Hy.
Qed.

Lemma array_get_set_ne {A : Type} (arr : list A) (i j : number) (x : A) :
  i ≠ j → array_get (array_set arr i x) j = array_get arr j.
Proof.
  unfold array_get, array_set. intros Hne.
  destruct (array_index i) as [k|] eqn:Hi; [|reflexivity].
  destruct (array_index j) as [k'|] eqn:Hj; simpl; [|reflexivity].
  apply list_lookup_insert_ne. intros ->. apply Hne. eapply array_index_inj; eauto.
Qed.

Lemma array_set_lookup {A : Type} (arr : list A) (i : number) (x : A) (k : nat) (y : A) :
  array_set arr i x !! k = Some y → (array_index i = Some k ∧ y = x) ∨ arr !! k = Some y.
Proof.
  unfold array_set. destruct (array_index i) as [k'|]; [|now right].
  destruct (decide (k' = k)) as [->|Hne].
  - intros Hk. pose proof (lookup_lt_Some _ _ _ Hk) as Hlt. rewrite length_insert in Hlt.
    rewrite list_lookup_insert_eq in Hk by done. injection Hk as <-. now left.
  - rewrite list_lookup_insert_ne by done. now right.
Qed.

Lemma lookup_array_set {A : Type} (arr : list A) (i : number) (x : A) (k : nat) (y : A) :
  arr !! k = Some y →
  array_set arr i x !! k = Some (if bool_decide (array_index i = Some k) then x else y).
Proof.
  intros Hk. unfold array_set. destruct (array_index i) as [k'|]; [|now rewrite bool_decide_eq_false_2].
  destruct (decide (k' = k)) as [->|Hne].
  - rewrite bool_decide_eq_true_2 by done. apply list_lookup_insert_eq.
    now apply lookup_lt_Some in Hk.
  - rewrite bool_decide_eq_false_2 by congruence. now rewrite list_lookup_insert_ne.
Qed.

(** ** Writes to a text div *)

Lemma pageTextLayer_set_textDiv (p i : number) (node : Node) (h : BacklinkHighlighter)
    (p' : number) :
  pageTextLayer (set_textDiv p i node h) p'
  = if decide (p' = p)
    then (λ layer, {| textDivs := array_set (textDivs layer) i node;
                      textContentItems := textContentItems layer |}) <$> pageTextLayer h p'
    else pageTextLayer h p'.
Proof.
  unfold pageTextLayer, set_textDiv, getPageView, update_page. simpl.
  destruct (array_index (num_sub p (Int 1))) as [k|] eqn:Hk.
  - destruct (pdfViewer (viewer h)) as [pages|] eqn:Hpages; simpl.
    + unfold array_get.
      destruct (array_index (num_sub p' (Int 1))) as [k'|] eqn:Hk'; simpl.
      * destruct (decide (p' = p)) as [->|Hne].
        -- rewrite Hk in Hk'. injection Hk' as <-.
           rewrite list_lookup_alter_eq. destruct (pages !! k) as [pv|]; simpl; [|reflexivity].
           destruct (textLayer pv); reflexivity.
        -- rewrite list_lookup_alter_ne; [reflexivity|].
           intros ->. apply Hne. eapply array_index_sub_inj; eauto.
      * now destruct (decide (p' = p)).
    + rewrite Hpages. simpl. now destruct (decide (p' = p)).
  - destruct (decide (p' = p)) as [->|Hne]; [|reflexivity].
    destruct (pdfViewer (viewer h)) as [pages|]; simpl; [|reflexivity].
    unfold array_get. now rewrite Hk.
Qed.

Lemma layers_kept_refl (h : BacklinkHighlighter) : layers_kept h h.
Proof. intros page layer Hl. exists layer. split_and!; eauto. Qed.

Lemma layers_kept_trans (h1 h2 h3 : BacklinkHighlighter) :
  layers_kept h1 h2 → layers_kept h2 h3 → layers_kept h1 h3.
Proof.
  intros H12 H23 page layer Hl.
  destruct (H12 _ _ Hl) as (layer2 & Hl2 & Hitems2 & Hlen2 & Hel2).
  destruct (H23 _ _ Hl2) as (layer3 & Hl3 & Hitems3 & Hlen3 & Hel3).
  exists layer3. split_and!; [done | congruence | congruence |].
  intros k node Hk Hnode. destruct (Hel2 _ _ Hk Hnode) as (node2 & Hk2 & Hnode2).
  eauto.
Qed.

Lemma layers_kept_viewer (h h' : BacklinkHighlighter) :
  viewer h' = viewer h → layers_kept h h'.
Proof.
  intros Hv page layer Hl. exists layer. unfold pageTextLayer in *. rewrite Hv.
  split_and!; eauto.
Qed.

(** A write keeps the layers when it does not put a text node where an
    element was. *)
Lemma layers_kept_set_textDiv (p i : number) (node : Node) (h : BacklinkHighlighter) :
  (∀ layer old, pageTextLayer h p = Some layer → array_get (textDivs layer) i = Some old →
     is_element old → is_element node) →
  layers_kept h (set_textDiv p i node h).
Proof.
  intros Hnode page layer Hl. rewrite pageTextLayer_set_textDiv.
  destruct (decide (page = p)) as [->|Hne]; [|exists layer; split_and!; eauto].
  rewrite Hl. simpl. eexists. split; [reflexivity|]. simpl.
  split_and!; [reflexivity | apply length_array_set |].
  intros k old Hk Hold. rewrite (lookup_array_set _ _ _ _ _ Hk).
  eexists. split; [reflexivity|]. case_bool_decide as Hi; [|exact Hold].
  apply (Hnode layer old Hl); [|exact Hold].
  unfold array_get. rewrite Hi. exact Hk.
Qed.

Lemma has_div_kept (h h' : BacklinkHighlighter) (entry : number * number) :
  layers_kept h h' → has_div h entry → has_div h' entry.
Proof.
  intros Hkept (layer & node & Hl & Hget & Hnode).
  destruct (Hkept _ _ Hl) as (layer' & Hl' & _ & _ & Hel).
  apply array_get_Some in Hget as (k & Hk & Hget).
  destruct (Hel _ _ Hget Hnode) as (node' & Hk' & Hnode').
  exists layer', node'. split_and!; [done | | done].
  apply array_get_Some. eauto.
Qed.

Lemma has_item_kept (h h' : BacklinkHighlighter) (entry : number * number) :
  layers_kept h h' → has_item h entry → has_item h' entry.
Proof.
  intros Hkept (layer & item & Hl & Hget).
  destruct (Hkept _ _ Hl) as (layer' & Hl' & Hitems & _).
  exists layer', item. split; [done|]. now rewrite Hitems.
Qed.

Lemma recorded_ok_kept (h h' : BacklinkHighlighter) (entry : number * number) :
  layers_kept h h' → recorded_ok h entry → recorded_ok h' entry.
Proof. intros Hkept [Hdiv Hitem]. split; eauto using has_div_kept, has_item_kept. Qed.

Lemma added_by_refl (R : BacklinkHighlighter → number * number → Prop) (h h' : BacklinkHighlighter) :
  viewer h' = viewer h → highlightedTexts h' = highlightedTexts h → added_by R h h'.
Proof.
  intros Hv Hh. split; [now apply layers_kept_viewer|].
  exists []. rewrite app_nil_r. split; [done | constructor].
Qed.

Lemma added_by_trans (R : BacklinkHighlighter → number * number → Prop)
    (h1 h2 h3 : BacklinkHighlighter) :
  (∀ h h' entry, layers_kept h h' → R h entry → R h' entry) →
  added_by R h1 h2 → added_by R h2 h3 → added_by R h1 h3.
Proof.
  intros Hmono [Hk12 (a12 & Ha12 & HR12)] [Hk23 (a23 & Ha23 & HR23)].
  split; [eauto using layers_kept_trans|].
  exists (a12 ++ a23). split.
  - rewrite Ha23, Ha12. now rewrite app_assoc.
  - apply Forall_app. split; [|exact HR23].
    eapply Forall_impl; [exact HR12|]. intros entry. now apply Hmono.
Qed.

Lemma within_kept (h h' : BacklinkHighlighter) (page index : number) :
  layers_kept h h' → within h page index → within h' page index.
Proof.
  intros Hkept (layer & node & item & Hl & Hdiv & Hitem).
  destruct (Hkept _ _ Hl) as (layer' & Hl' & Hitems & Hlen & _).
  apply array_get_Some in Hdiv as (k & Hk & Hdiv).
  apply lookup_lt_Some in Hdiv. rewrite <- Hlen in Hdiv.
  apply lookup_lt_is_Some in Hdiv as [node' Hnode'].
  exists layer', node', item. rewrite Hitems. split_and!; [done | | done].
  apply array_get_Some. eauto.
Qed.

Lemma tracked_kept (first last page : number) (h h' : BacklinkHighlighter)
    (entry : number * number) :
  layers_kept h h' → tracked first last page h entry → tracked first last page h' entry.
Proof.
  intros Hkept (Hpage & Hdiv & Hitem). split_and!; [done | eauto using has_div_kept |].
  destruct Hitem; [left; eauto using has_item_kept | now right].
Qed.

(** The write of an element to a text div that is there. *)
Lemma set_textDiv_element (p i : number) (node old : Node) (h : BacklinkHighlighter)
    (layer : TextLayerBuilder) :
  pageTextLayer h p = Some layer → array_get (textDivs layer) i = Some old →
  (is_element old → is_element node) →
  layers_kept h (set_textDiv p i node h)
  ∧ ∃ layer', pageTextLayer (set_textDiv p i node h) p = Some layer'
      ∧ array_get (textDivs layer') i = Some node
      ∧ textContentItems layer' = textContentItems layer.
Proof.
  intros Hl Hold Hnode. split.
  - apply layers_kept_set_textDiv. intros layer0 old0 Hl0 Hold0.
    rewrite Hl in Hl0. injection Hl0 as <-. rewrite Hold in Hold0. injection Hold0 as <-.
    exact Hnode.
  - rewrite pageTextLayer_set_textDiv. rewrite decide_True by done. rewrite Hl. simpl.
    eexists. split; [reflexivity|]. simpl. split; [|reflexivity].
    eapply array_get_set_eq. exact Hold.
Qed.

Lemma middle_indices_between (b e : number) (zi : Z) :
  zi ∈ middle_indices b e → strictly_between b e (Int zi).
Proof.
  unfold middle_indices. destruct b as [|zb]; simpl; [intros H; inversion H|].
  destruct e as [|ze]; [intros H; inversion H|].
  rewrite elem_of_seqZ. intros Hzi. exists zb, ze, zi. split_and!; try reflexivity; lia.
Qed.

Section highlightText_properties.

Variables (E : Prop) (p : number) (color : option string)
          (cb : option (HTMLElementRef → JS BacklinkHighlighter unit))
          (b e : number).

Hypothesis cb_frame : callback_frame E cb.

Let step := added_by (tracked b e p).

Lemma step_trans (h1 h2 h3 : BacklinkHighlighter) : step h1 h2 → step h2 h3 → step h1 h3.
Proof. apply added_by_trans. intros h h' entry. apply tracked_kept. Qed.

Lemma call_onHighlight_wpg (el : HTMLElementRef) (h : BacklinkHighlighter) :
  wpg E (call_optional cb el)
    (λ _ h', viewer h' = viewer h ∧ highlightedTexts h' = highlightedTexts h) h.
Proof.
  apply wpg_call_optional.
  - intros f Hf. now apply cb_frame.
  - intros _. split; reflexivity.
Qed.

Lemma recorded_ok_at (h : BacklinkHighlighter) (i : number) (layer : TextLayerBuilder)
    (node : Node) (item : TextContentItem) :
  pageTextLayer h p = Some layer → array_get (textDivs layer) i = Some node →
  is_element node → array_get (textContentItems layer) i = Some item →
  recorded_ok h (p, i).
Proof. intros. split; [exists layer, node | exists layer, item]; eauto. Qed.

Lemma recorded_ok_viewer (h h' : BacklinkHighlighter) (entry : number * number) :
  viewer h' = viewer h → recorded_ok h entry → recorded_ok h' entry.
Proof. intros Hv. apply recorded_ok_kept. now apply layers_kept_viewer. Qed.

(** After a push of [(p, i)] and writes that kept the layers: one step. *)
Lemma step_pushed (h h' : BacklinkHighlighter) (i : number) :
  layers_kept h h' → highlightedTexts h' = highlightedTexts h ++ [(p, i)] →
  has_div h' (p, i) → (has_item h' (p, i) ∨ strictly_between b e i) →
  step h h'.
Proof.
  intros Hkept Hh Hdiv Hitem. split; [exact Hkept|].
  exists [(p, i)]. split; [exact Hh|]. constructor; [|constructor].
  split_and!; done.
Qed.

Lemma divideAndWrapText_wpg (i from : number) (to : option number)
    (className : option (list string)) (h : BacklinkHighlighter) :
  E ∨ within h p i →
  wpg E (divideAndWrapText p color cb i from to className)
    (λ _ h', step h h' ∧ recorded_ok h' (p, i)) h.
Proof.
  intros Hpre. unfold divideAndWrapText.
  apply wpg_bind. apply wpg_modify.
  set (h1 := set_highlightedTexts _ h).
  assert (Hl1 : ∀ page, pageTextLayer h1 page = pageTextLayer h page) by reflexivity.
  apply wpg_bind. unfold read_textDiv. apply wpg_bind, wpg_get_state. apply wpg_deref.
  2:{ intros Hnone. destruct Hpre as [HE | (layer & node & item & Hl & Hdiv & _)]; [exact HE|].
      rewrite Hl1, Hl in Hnone. simpl in Hnone. congruence. }
  intros textDiv Hdiv. rewrite Hl1 in Hdiv.
  destruct (pageTextLayer h p) as [layer|] eqn:Hl; simpl in Hdiv; [|discriminate].
  (* the wrap of a text node *)
  set (textDiv2 := match textDiv with
                   | TextNode _ => Element [] None [textDiv]
                   | Element _ _ _ => textDiv
                   end).
  set (h2 := match textDiv with
             | TextNode _ => set_textDiv p i textDiv2 h1
             | Element _ _ _ => h1
             end).
  assert (Hel2 : is_element textDiv2) by (subst textDiv2; now destruct textDiv).
  assert (H2 : layers_kept h1 h2 ∧ highlightedTexts h2 = highlightedTexts h1
               ∧ ∃ layer2, pageTextLayer h2 p = Some layer2
                   ∧ array_get (textDivs layer2) i = Some textDiv2
                   ∧ textContentItems layer2 = textContentItems layer).
  { subst h2 textDiv2. destruct textDiv as [data|classes hl children].
    - destruct (set_textDiv_element p i (Element [] None [TextNode data]) (TextNode data) h1 layer)
        as [Hkept Hlayer]; [done | done | done |].
      split_and!; [exact Hkept | reflexivity | exact Hlayer].
    - split_and!; [apply layers_kept_refl | reflexivity |].
      exists layer. split_and!; done. }
  destruct H2 as (Hkept12 & Hh2 & layer2 & Hl2 & Hdiv2 & Hitems2).
  apply wpg_bind.
  assert (Hwrap : (match textDiv with
                   | TextNode _ =>
                       write_textDiv p i (Element [] None [textDiv]) >>
                       ret (Element [] None [textDiv])
                   | Element _ _ _ => ret textDiv
                   end) h1 = Normal textDiv2 h2).
  { subst h2 textDiv2. now destruct textDiv. }
  unfold wpg at 1. rewrite Hwrap.
  apply wpg_bind. unfold read_textContentItem. apply wpg_bind, wpg_get_state. apply wpg_deref.
  2:{ intros Hnone. destruct Hpre as [HE | (layer0 & node & item & Hl0 & _ & Hitem)]; [exact HE|].
      rewrite Hl in Hl0. injection Hl0 as <-.
      rewrite Hl2 in Hnone. simpl in Hnone. rewrite Hitems2 in Hnone. congruence. }
  intros item Hitem. rewrite Hl2 in Hitem. simpl in Hitem.
  assert (Hfinish : ∀ node3 : Node, is_element node3 →
            let h3 := set_textDiv p i node3 h2 in
            layers_kept h h3 ∧ highlightedTexts h3 = highlightedTexts h ++ [(p, i)]
            ∧ recorded_ok h3 (p, i)).
  { intros node3 Hel3 h3.
    destruct (set_textDiv_element p i node3 textDiv2 h2 layer2) as [Hkept23 (layer3 & Hl3 & Hdiv3 & Hitems3)];
      [done | done | done |].
    split_and!.
    - eapply layers_kept_trans; [|exact Hkept23].
      eapply layers_kept_trans; [|exact Hkept12]. now apply layers_kept_viewer.
    - subst h3. change (highlightedTexts h2 = highlightedTexts h ++ [(p, i)]).
      rewrite Hh2. reflexivity.
    - apply (recorded_ok_at h3 i layer3 node3 item); [done | done | done |].
      rewrite Hitems3. exact Hitem. }
  assert (Hel_append : ∀ child, is_element (append_child textDiv2 child)).
  { intros child. destruct textDiv2; [contradiction | exact I]. }
  destruct className as [tokens|].
  - apply wpg_bind. apply wpg_modify.
    match goal with |- context [set_textDiv p i ?n h2] => specialize (Hfinish n (Hel_append _)) end.
    simpl in Hfinish. destruct Hfinish as (Hkept & Hh & Hok).
    eapply wpg_consequence; [apply call_onHighlight_wpg|].
    intros [] h4 [Hv4 Hh4]. split.
    + apply (step_pushed h h4 i).
      * eapply layers_kept_trans; [exact Hkept | now apply layers_kept_viewer].
      * now rewrite Hh4.
      * eapply recorded_ok_viewer in Hok; [|exact Hv4]. apply Hok.
      * left. eapply recorded_ok_viewer in Hok; [|exact Hv4]. apply Hok.
    + eapply recorded_ok_viewer; eauto.
  - apply wpg_modify.
    match goal with |- context [set_textDiv p i ?n h2] => specialize (Hfinish n (Hel_append _)) end.
    simpl in Hfinish. destruct Hfinish as (Hkept & Hh & Hok).
    split; [|exact Hok].
    apply (step_pushed h _ i); [done | done | apply Hok | left; apply Hok].
Qed.

Lemma step_kept (h h' : BacklinkHighlighter) :
  layers_kept h h' → highlightedTexts h' = highlightedTexts h → step h h'.
Proof.
  intros Hkept Hh. split; [exact Hkept|]. exists []. rewrite app_nil_r.
  split; [exact Hh | constructor].
Qed.

Lemma divideAndWrapTextStart_wpg (i offset : number) (className : option (list string))
    (h : BacklinkHighlighter) :
  E ∨ within h p i →
  wpg E (divideAndWrapTextStart p color cb i offset className)
    (λ _ h', step h h' ∧ recorded_ok h' (p, i)) h.
Proof.
  intros Hpre. unfold divideAndWrapTextStart.
  apply wpg_bind. unfold read_textDiv. apply wpg_bind, wpg_get_state. apply wpg_deref.
  2:{ intros Hnone. destruct Hpre as [HE | (layer & node & item & Hl & Hdiv & _)]; [exact HE|].
      rewrite Hl in Hnone. simpl in Hnone. congruence. }
  intros textDiv Hdiv.
  destruct (pageTextLayer h p) as [layer|] eqn:Hl; simpl in Hdiv; [|discriminate].
  apply wpg_bind. apply wpg_modify.
  destruct (set_textDiv_element p i (set_textContent textDiv EmptyString) textDiv h layer)
    as [Hkept _]; [done | done | now destruct textDiv |].
  eapply wpg_consequence.
  - apply divideAndWrapText_wpg.
    destruct Hpre as [HE | Hin]; [now left | right]. eapply within_kept; eauto.
  - intros [] h' [Hstep Hok]. split; [|exact Hok].
    eapply step_trans; [|exact Hstep]. now apply step_kept.
Qed.

Lemma highlight_middle_wpg (zi : Z) (h : BacklinkHighlighter) :
  strictly_between b e (Int zi) → E ∨ has_div h (p, Int zi) →
  wpg E (highlight_middle p color cb zi) (λ _ h', step h h') h.
Proof.
  intros Hbetween Hpre. unfold highlight_middle.
  apply wpg_bind. apply wpg_modify.
  set (h1 := set_highlightedTexts _ h).
  assert (Hl1 : ∀ page, pageTextLayer h1 page = pageTextLayer h page) by reflexivity.
  apply wpg_bind. unfold read_textDiv. apply wpg_bind, wpg_get_state. apply wpg_deref.
  2:{ intros Hnone. destruct Hpre as [HE | (layer & node & Hl & Hdiv & _)]; [exact HE|].
      simpl in Hl. rewrite Hl1, Hl in Hnone. simpl in *. congruence. }
  intros textDiv Hdiv. rewrite Hl1 in Hdiv.
  destruct (pageTextLayer h p) as [layer|] eqn:Hl; simpl in Hdiv; [|discriminate].
  destruct textDiv as [data|classes hl children].
  - apply wpg_throw.
    destruct Hpre as [HE | (layer0 & node & Hl0 & Hdiv0 & Hel)]; [exact HE|].
    simpl in Hl0, Hdiv0. rewrite Hl in Hl0. injection Hl0 as <-.
    rewrite Hdiv in Hdiv0. injection Hdiv0 as <-. contradiction.
  - apply wpg_bind. apply wpg_modify.
    match goal with |- context [set_textDiv p (Int zi) ?n h1] => set (node := n) end.
    destruct (set_textDiv_element p (Int zi) node (Element classes hl children) h1 layer)
      as [Hkept (layer' & Hl' & Hdiv' & _)]; [done | done | done |].
    eapply wpg_consequence; [apply call_onHighlight_wpg|].
    intros [] h' [Hv Hh].
    apply (step_pushed h h' (Int zi)).
    + apply (layers_kept_trans h (set_textDiv p (Int zi) node h1) h');
        [|now apply layers_kept_viewer].
      apply (layers_kept_trans h h1); [now apply layers_kept_viewer | exact Hkept].
    + now rewrite Hh.
    + apply (has_div_kept (set_textDiv p (Int zi) node h1) h');
        [now apply layers_kept_viewer|].
      exists layer', node. split_and!; done.
    + now right.
Qed.

Lemma in_bounds_kept (h h' : BacklinkHighlighter) :
  layers_kept h h' → E ∨ in_bounds p b e h → E ∨ in_bounds p b e h'.
Proof.
  intros Hkept [HE | (Hb & He & Hmid)]; [now left | right].
  split_and!; eauto using within_kept, has_div_kept.
Qed.

Lemma middle_wpg (h : BacklinkHighlighter) :
  E ∨ in_bounds p b e h →
  wpg E (for_of (middle_indices b e) (highlight_middle p color cb)) (λ _ h', step h h') h.
Proof.
  intros Hpre. apply (wpg_for_of E _ _ (λ h', step h h')).
  - intros zi h' Hzi Hstep. eapply wpg_consequence.
    + apply highlight_middle_wpg; [now apply middle_indices_between|].
      destruct (in_bounds_kept h h' (proj1 Hstep) Hpre) as [HE | (_ & _ & Hmid)];
        [now left | right; now apply Hmid].
    + intros [] h'' Hstep'. eapply step_trans; eauto.
  - apply step_kept; [apply layers_kept_refl | reflexivity].
Qed.

Lemma tracked_recorded_ok (h : BacklinkHighlighter) (entry : number * number) :
  tracked b e p h entry → has_item h (p, b) → has_item h (p, e) → recorded_ok h entry.
Proof.
  intros (Hpage & Hdiv & [Hitem | Hbetween]) Hb He; [now split|].
  split; [exact Hdiv|].
  destruct Hbetween as (zf & zl & zi & -> & -> & Hzi & Hlt).
  destruct Hb as (layerb & itemb & Hlb & Hgetb), He as (layere & iteme & Hle & Hgete).
  simpl in *. rewrite Hlb in Hle. injection Hle as <-.
  apply array_get_Some in Hgetb as (kb & Hkb & _), Hgete as (ke & Hke & Hgete).
  simpl in Hkb, Hke. repeat case_bool_decide; try discriminate.
  injection Hke as <-. apply lookup_lt_Some in Hgete.
  destruct (lookup_lt_is_Some_2 (textContentItems layerb) (Z.to_nat zi)) as [item Hitem]; [lia|].
  exists layerb, item. rewrite Hpage. split; [exact Hlb|].
  apply array_get_Some. exists (Z.to_nat zi). split; [|exact Hitem].
  rewrite Hzi. simpl. rewrite bool_decide_eq_true_2 by lia. reflexivity.
Qed.

Lemma highlightText_wpg (beginOffset endOffset : number) (h : BacklinkHighlighter) :
  E ∨ (∀ layer, pageTextLayer h p = Some layer → in_bounds p b e h) →
  wpg E (highlightText p color cb b beginOffset e endOffset)
    (λ _ h', added_by recorded_ok h h') h.
Proof.
  intros Hpre. unfold highlightText.
  assert (Hnothing : added_by recorded_ok h h) by now apply added_by_refl.
  apply wpg_bind, wpg_get_state.
  destruct (negb _); [|exact Hnothing].
  destruct (getPageView (viewer h) (num_sub p (Int 1))) as [pageView|] eqn:Hview;
    [|exact Hnothing].
  destruct (bool_decide (is_Some (textLayer pageView))) eqn:Hlayer; simpl; [|exact Hnothing].
  destruct (string_truthy _); [|exact Hnothing].
  apply bool_decide_eq_true in Hlayer as [layer Hlayer].
  assert (Hl : pageTextLayer h p = Some layer).
  { unfold pageTextLayer. rewrite Hview. exact Hlayer. }
  assert (Hin : E ∨ in_bounds p b e h).
  { destruct Hpre as [HE | Hin]; [now left | right; eauto]. }
  clear Hpre Hnothing.
  (* the three parts of the method, each one step *)
  assert (Hfinish : ∀ h', step h h' → recorded_ok h' (p, b) → recorded_ok h' (p, e) →
                          added_by recorded_ok h h').
  { intros h' [Hkept (added & Hadded & Htracked)] [_ Hb] [_ He]. split; [exact Hkept|].
    exists added. split; [exact Hadded|].
    eapply Forall_impl; [exact Htracked|]. intros entry Hentry.
    now apply tracked_recorded_ok. }
  apply wpg_bind. eapply wpg_consequence.
  { apply divideAndWrapTextStart_wpg. destruct Hin as [HE | (Hb & _)]; [now left | now right]. }
  intros [] h1 [Hstep1 Hb1].
  pose proof (in_bounds_kept h h1 (proj1 Hstep1) Hin) as Hin1.
  apply wpg_bind. eapply (wpg_consequence _ _ (λ _ h2, step h h2 ∧ recorded_ok h2 (p, b))).
  { destruct (strict_eq b e).
    - eapply wpg_consequence.
      + apply divideAndWrapText_wpg. destruct Hin1 as [HE | (Hb & _)]; [now left | now right].
      + intros [] h2 [Hstep2 Hb2]. split; [eauto using step_trans | exact Hb2].
    - apply wpg_bind. eapply wpg_consequence.
      { apply divideAndWrapText_wpg. destruct Hin1 as [HE | (Hb & _)]; [now left | now right]. }
      intros [] h2 [Hstep2 Hb2].
      pose proof (in_bounds_kept h1 h2 (proj1 Hstep2) Hin1) as Hin2.
      apply wpg_bind. eapply wpg_consequence; [now apply middle_wpg|].
      intros [] h3 Hstep3.
      pose proof (in_bounds_kept h2 h3 (proj1 Hstep3) Hin2) as Hin3.
      eapply wpg_consequence.
      { apply divideAndWrapTextStart_wpg.
        destruct Hin3 as [HE | (_ & He & _)]; [now left | now right]. }
      intros [] h4 [Hstep4 _]. split.
      + eauto using step_trans.
      + eapply recorded_ok_kept; [|exact Hb2].
        eapply layers_kept_trans; [exact (proj1 Hstep3) | exact (proj1 Hstep4)]. }
  intros [] h2 [Hstep2 Hb2].
  pose proof (in_bounds_kept h h2 (proj1 Hstep2) Hin) as Hin2.
  eapply wpg_consequence.
  { apply divideAndWrapText_wpg. destruct Hin2 as [HE | (_ & He & _)]; [now left | now right]. }
  intros [] h3 [Hstep3 He3]. apply Hfinish.
  - eauto using step_trans.
  - eapply recorded_ok_kept; [exact (proj1 Hstep3) | exact Hb2].
  - exact He3.
Qed.

End highlightText_properties.

(** ** What [highlightText] leaves alone *)

Lemma div_at_viewer (h h' : BacklinkHighlighter) (page index : number) :
  viewer h' = viewer h → div_at h' page index = div_at h page index.
Proof. intros Hv. unfold div_at, pageTextLayer. now rewrite Hv. Qed.

Lemma div_at_set_textDiv_ne (p i : number) (node : Node) (h : BacklinkHighlighter)
    (page index : number) :
  (page, index) ≠ (p, i) →
  div_at (set_textDiv p i node h) page index = div_at h page index.
Proof.
  intros Hne. unfold div_at. rewrite pageTextLayer_set_textDiv.
  destruct (decide (page = p)) as [->|Hp]; [|reflexivity].
  destruct (pageTextLayer h p) as [layer|]; [|reflexivity]. simpl.
  apply array_get_set_ne. congruence.
Qed.

Lemma untouched_viewer (h h' : BacklinkHighlighter) :
  viewer h' = viewer h →
  (∀ entry, entry ∈ highlightedTexts h → entry ∈ highlightedTexts h') →
  untouched h h'.
Proof.
  intros Hv Hentries. split; [exact Hentries|].
  intros page index. right. now apply div_at_viewer.
Qed.

Lemma untouched_frame (h h' : BacklinkHighlighter) :
  viewer h' = viewer h → highlightedTexts h' = highlightedTexts h → untouched h h'.
Proof. intros Hv Hh. apply untouched_viewer; [exact Hv|]. intros entry. now rewrite Hh. Qed.

Lemma untouched_trans (h1 h2 h3 : BacklinkHighlighter) :
  untouched h1 h2 → untouched h2 h3 → untouched h1 h3.
Proof.
  intros [Hin12 Hdiv12] [Hin23 Hdiv23]. split; [auto|].
  intros page index.
  destruct (Hdiv23 page index) as [Hin | Heq]; [now left|].
  destruct (Hdiv12 page index) as [Hin | Heq']; [left; auto|].
  right. congruence.
Qed.

Lemma untouched_write (p i : number) (node : Node) (h : BacklinkHighlighter) :
  (p, i) ∈ highlightedTexts h → untouched h (set_textDiv p i node h).
Proof.
  intros Hin. split; [auto|]. intros page index.
  destruct (decide ((page, index) = (p, i))) as [[= -> ->]|Hne]; [now left|].
  right. now apply div_at_set_textDiv_ne.
Qed.

Section highlightText_frame.

Variables (p : number) (color : option string)
          (cb : option (HTMLElementRef → JS BacklinkHighlighter unit)).

Hypothesis cb_frame : callback_frame True cb.

Lemma call_onHighlight_untouched (el : HTMLElementRef) (h0 h : BacklinkHighlighter) (i : number) :
  untouched h0 h → (p, i) ∈ highlightedTexts h →
  wpg True (call_optional cb el)
    (λ _ h', untouched h0 h' ∧ (p, i) ∈ highlightedTexts h') h.
Proof.
  intros Hu Hin. eapply wpg_consequence; [apply (call_onHighlight_wpg True cb cb_frame)|].
  intros [] h' [Hv Hh]. split.
  - eapply untouched_trans; [exact Hu | now apply untouched_frame].
  - now rewrite Hh.
Qed.

Lemma divideAndWrapText_untouched (i from : number) (to : option number)
    (className : option (list string)) (h : BacklinkHighlighter) :
  wpg True (divideAndWrapText p color cb i from to className)
    (λ _ h', untouched h h' ∧ (p, i) ∈ highlightedTexts h') h.
Proof.
  unfold divideAndWrapText.
  apply wpg_bind, wpg_modify.
  set (h1 := set_highlightedTexts _ h).
  assert (Hin1 : (p, i) ∈ highlightedTexts h1).
  { subst h1. simpl. apply elem_of_app. right. now left. }
  assert (Hu1 : untouched h h1).
  { apply untouched_viewer; [reflexivity|]. intros entry Hentry. subst h1. simpl.
    apply elem_of_app. now left. }
  apply wpg_bind. unfold read_textDiv. apply wpg_bind, wpg_get_state.
  apply wpg_deref; [|intros _; exact I].
  intros textDiv _.
  apply wpg_bind.
  apply (wpg_consequence _ _ (λ _ h2, untouched h h2 ∧ (p, i) ∈ highlightedTexts h2)).
  { destruct textDiv as [data|classes hl children].
    - apply wpg_bind, wpg_modify. apply wpg_ret. split; [|exact Hin1].
      eapply untouched_trans; [exact Hu1 | now apply untouched_write].
    - apply wpg_ret. now split. }
  intros textDiv2 h2 [Hu2 Hin2].
  apply wpg_bind. unfold read_textContentItem. apply wpg_bind, wpg_get_state.
  apply wpg_deref; [|intros _; exact I].
  intros item _.
  destruct className as [tokens|].
  - apply wpg_bind, wpg_modify. apply call_onHighlight_untouched; [|exact Hin2].
    eapply untouched_trans; [exact Hu2 | now apply untouched_write].
  - apply wpg_modify. split; [|exact Hin2].
    eapply untouched_trans; [exact Hu2 | now apply untouched_write].
Qed.

(** [divideAndWrapTextStart] empties the text div before it records it: the
    entry is in [highlightedTexts] when it returns. *)
Lemma divideAndWrapTextStart_untouched (i offset : number) (className : option (list string))
    (h : BacklinkHighlighter) :
  wpg True (divideAndWrapTextStart p color cb i offset className)
    (λ _ h', untouched h h' ∧ (p, i) ∈ highlightedTexts h') h.
Proof.
  unfold divideAndWrapTextStart.
  apply wpg_bind. unfold read_textDiv. apply wpg_bind, wpg_get_state.
  apply wpg_deref; [|intros _; exact I].
  intros textDiv _.
  apply wpg_bind, wpg_modify.
  set (h1 := set_textDiv p i _ h).
  eapply wpg_consequence; [apply divideAndWrapText_untouched|].
  intros [] h2 [[Hin12 Hdiv12] Hin2]. split; [|exact Hin2].
  split; [intros entry Hentry; now apply Hin12|].
  intros page index.
  destruct (Hdiv12 page index) as [Hin | Heq]; [now left|].
  destruct (decide ((page, index) = (p, i))) as [[= -> ->]|Hne]; [now left|].
  right. rewrite Heq. now apply div_at_set_textDiv_ne.
Qed.

Lemma highlight_middle_untouched (zi : Z) (h : BacklinkHighlighter) :
  wpg True (highlight_middle p color cb zi) (λ _ h', untouched h h') h.
Proof.
  unfold highlight_middle.
  apply wpg_bind, wpg_modify.
  set (h1 := set_highlightedTexts _ h).
  assert (Hin1 : (p, Int zi) ∈ highlightedTexts h1).
  { subst h1. simpl. apply elem_of_app. right. now left. }
  assert (Hu1 : untouched h h1).
  { apply untouched_viewer; [reflexivity|]. intros entry Hentry. subst h1. simpl.
    apply elem_of_app. now left. }
  apply wpg_bind. unfold read_textDiv. apply wpg_bind, wpg_get_state.
  apply wpg_deref; [|intros _; exact I].
  intros textDiv _.
  destruct textDiv as [data|classes hl children]; [apply wpg_throw; exact I|].
  apply wpg_bind, wpg_modify.
  eapply wpg_consequence.
  - apply (call_onHighlight_untouched _ h _ (Int zi)); [|exact Hin1].
    eapply untouched_trans; [exact Hu1 | now apply untouched_write].
  - intros [] h' [Hu _]. exact Hu.
Qed.

Lemma highlightText_untouched (b beginOffset e endOffset : number) (h : BacklinkHighlighter) :
  wpg True (highlightText p color cb b beginOffset e endOffset) (λ _ h', untouched h h') h.
Proof.
  unfold highlightText.
  assert (Hrefl : untouched h h) by now apply untouched_frame.
  apply wpg_bind, wpg_get_state.
  destruct (negb _); [|exact Hrefl].
  destruct (getPageView (viewer h) (num_sub p (Int 1))) as [pageView|]; [|exact Hrefl].
  destruct (bool_decide (is_Some (textLayer pageView))); simpl; [|exact Hrefl].
  destruct (string_truthy _); [|exact Hrefl].
  apply wpg_bind. eapply wpg_consequence; [apply divideAndWrapTextStart_untouched|].
  intros [] h1 [Hu1 _].
  apply wpg_bind. apply (wpg_consequence _ _ (λ _ h2, untouched h h2)).
  { destruct (strict_eq b e).
    - eapply wpg_consequence; [apply divideAndWrapText_untouched|].
      intros [] h2 [Hu2 _]. eauto using untouched_trans.
    - apply wpg_bind. eapply wpg_consequence; [apply divideAndWrapText_untouched|].
      intros [] h2 [Hu2 _].
      apply wpg_bind. eapply wpg_consequence.
      { apply (wpg_for_of True _ _ (λ h', untouched h2 h')).
        - intros zi h' _ Hu. eapply wpg_consequence; [apply highlight_middle_untouched|].
          intros [] h'' Hu'. eauto using untouched_trans.
        - now apply untouched_frame. }
      intros [] h3 Hu3.
      eapply wpg_consequence; [apply divideAndWrapTextStart_untouched|].
      intros [] h4 [Hu4 _]. eauto using untouched_trans. }
  intros [] h2 Hu2.
  eapply wpg_consequence; [apply divideAndWrapText_untouched|].
  intros [] h3 [Hu3 _]. eauto using untouched_trans.
Qed.

End highlightText_frame.

(** ** Clearing the text highlights *)

Lemma append_empty_r (s : string) : s +:+ EmptyString = s.
Proof.
  induction s as [|c s IH]; [reflexivity|].
  change (String c (s +:+ EmptyString) = String c s). now rewrite IH.
Qed.

Lemma textContent_set_textContent (node : Node) (text : string) :
  textContent (set_textContent node text) = text.
Proof.
  destruct node as [data|classes hl children]; simpl; [reflexivity|].
  destruct text as [|c text]; simpl; [reflexivity|]. apply append_empty_r.
Qed.

Lemma restored_set_textDiv (p i : number) (node old : Node) (item : TextContentItem)
    (layer : TextLayerBuilder) (h : BacklinkHighlighter) (entry : number * number) :
  pageTextLayer h p = Some layer →
  array_get (textDivs layer) i = Some old →
  array_get (textContentItems layer) i = Some item →
  plain_text_div node (str item) →
  restored h entry ∨ entry = (p, i) →
  restored (set_textDiv p i node h) entry.
Proof.
  intros Hl Hold Hitem Htext Hentry. destruct entry as [p' i'].
  assert (Hhere : restored (set_textDiv p i node h) (p, i)).
  { exists {| textDivs := array_set (textDivs layer) i node;
              textContentItems := textContentItems layer |}, node, item. simpl.
    rewrite pageTextLayer_set_textDiv, decide_True, Hl by done.
    split_and!; [reflexivity | eapply array_get_set_eq; eauto | done | done]. }
  destruct Hentry as [(layer0 & node0 & item0 & Hl0 & Hnode0 & Hitem0 & Htext0) | [= -> ->]];
    [|exact Hhere].
  simpl in *. destruct (decide (p' = p)) as [->|Hp].
  - rewrite Hl in Hl0. injection Hl0 as <-.
    destruct (decide (i' = i)) as [->|Hi]; [exact Hhere|].
    exists {| textDivs := array_set (textDivs layer) i node;
              textContentItems := textContentItems layer |}, node0, item0. simpl.
    rewrite pageTextLayer_set_textDiv, decide_True, Hl by done.
    split_and!; [reflexivity | | done | done].
    rewrite array_get_set_ne by done. exact Hnode0.
  - exists layer0, node0, item0. simpl.
    rewrite pageTextLayer_set_textDiv, decide_False by done. split_and!; done.
Qed.

Lemma restored_viewer (h h' : BacklinkHighlighter) (entry : number * number) :
  viewer h' = viewer h → restored h entry → restored h' entry.
Proof.
  intros Hv (layer & node & item & Hl & Hrest). exists layer, node, item.
  unfold pageTextLayer in *. now rewrite Hv.
Qed.

(** On entries that can be undone the loop runs to its end, without an
    exception, and leaves every one of them restored. *)
Lemma clearTextHighlight_loop_restores (entries : list (number * number)) :
  ∀ (h : BacklinkHighlighter) (done : list (number * number)),
    Forall (recorded_ok h) entries → Forall (restored h) done →
    ∃ h', clearTextHighlight_loop entries h = Normal true h'
      ∧ layers_kept h h'
      ∧ highlightedTexts h' = highlightedTexts h
      ∧ highlightedAnnotations h' = highlightedAnnotations h
      ∧ Forall (restored h') (done ++ entries).
Proof.
  induction entries as [|[page index] entries IH]; intros h done Hok Hdone.
  - exists h. rewrite app_nil_r.
    split_and!; [reflexivity | apply layers_kept_refl | done | done | done].
  - apply Forall_cons in Hok as [[Hdiv Hitem] Hok].
    destruct Hdiv as (layer & node & Hl & Hnode & Hel).
    destruct Hitem as (layer' & item & Hl' & Hitem). simpl in *.
    rewrite Hl in Hl'. injection Hl' as <-.
    unfold bind at 1, get_state. rewrite Hl.
    unfold bind at 1. rewrite Hnode. simpl.
    unfold bind at 1. rewrite Hitem. simpl.
    destruct node as [data|classes hl children]; [contradiction|]. simpl.
    set (node' := Element (reset_className classes) hl
                    (if string_truthy (str item) then [TextNode (str item)] else [])).
    set (h1 := set_textDiv page index node' h).
    set (h2 := set_backlinks (reset_annotationEls page) h1).
    assert (Htext : plain_text_div node' (str item)).
    { now exists (reset_className classes), hl. }
    destruct (set_textDiv_element page index node' (Element classes hl children) h layer)
      as [Hkept1 _]; [done | done | done |].
    assert (Hkept2 : layers_kept h h2).
    { eapply layers_kept_trans; [exact Hkept1 | now apply layers_kept_viewer]. }
    destruct (IH h2 (done ++ [(page, index)])) as (h' & Hrun & Hkept & Hh & Ha & Hrestored).
    + eapply Forall_impl; [exact Hok|]. intros entry. now apply recorded_ok_kept.
    + apply Forall_app. split.
      * eapply Forall_impl; [exact Hdone|]. intros entry Hentry.
        apply (restored_viewer h1 h2); [reflexivity|].
        eapply restored_set_textDiv; eauto.
      * constructor; [|constructor].
        apply (restored_viewer h1 h2); [reflexivity|].
        eapply restored_set_textDiv; eauto.
    + exists h'. split_and!.
      * exact Hrun.
      * eauto using layers_kept_trans.
      * rewrite Hh. reflexivity.
      * rewrite Ha. reflexivity.
      * now rewrite <- app_assoc in Hrestored.
Qed.

(** The loop of [clearTextHighlight] writes to the text divs of its entries
    only. *)
Lemma clearTextHighlight_loop_untouched (entries : list (number * number)) :
  ∀ (h h' : BacklinkHighlighter) (completed : bool),
    clearTextHighlight_loop entries h = Normal completed h' →
    ∀ page index, (page, index) ∉ entries → div_at h' page index = div_at h page index.
Proof.
  induction entries as [|[p i] entries IH]; intros h h' completed Hrun page index Hnotin.
  - injection Hrun as _ <-. reflexivity.
  - apply not_elem_of_cons in Hnotin as [Hne Hnotin].
    simpl in Hrun. unfold bind at 1, get_state in Hrun.
    destruct (pageTextLayer h p) as [layer|]; [|injection Hrun as _ <-; reflexivity].
    unfold bind at 1 in Hrun.
    destruct (array_get (textDivs layer) i) as [textDiv|]; simpl in Hrun; [|discriminate].
    unfold bind at 1 in Hrun.
    destruct (array_get (textContentItems layer) i) as [item|]; simpl in Hrun; [|discriminate].
    destruct (set_textContent textDiv (str item)) as [data|classes hl children];
      [discriminate|].
    unfold bind at 1, write_textDiv, modify in Hrun.
    unfold bind at 1, modify in Hrun.
    rewrite (IH _ _ _ Hrun page index Hnotin).
    rewrite (div_at_viewer (set_textDiv p i (Element (reset_className classes) hl children) h))
      by reflexivity.
    now apply div_at_set_textDiv_ne.
Qed.

(** What the calls of [highlightText] that led from [h0] to [h] have kept:
    the text layers, every text div that [highlightedTexts] does not name,
    and entries that can be undone. *)
Lemma recorded_invariant (h0 h : BacklinkHighlighter) :
  recorded h0 h →
  layers_kept h0 h ∧ untouched h0 h ∧ Forall (recorded_ok h) (highlightedTexts h).
Proof.
  induction 1 as [Hnone | h h' p color cb b bo e eo Hrec (Hkept0 & Hu0 & IH) Hframe Hrun].
  - split_and!; [apply layers_kept_refl | now apply untouched_frame |].
    rewrite Hnone. constructor.
  - pose proof (highlightText_wpg True p color cb b e Hframe bo eo h (or_introl I)) as Hwpg.
    pose proof (highlightText_untouched p color cb Hframe b bo e eo h) as Hu.
    unfold wpg in Hwpg, Hu. rewrite Hrun in Hwpg, Hu.
    destruct Hwpg as [Hkept (added & Hadded & Hok)].
    split_and!.
    + eauto using layers_kept_trans.
    + eauto using untouched_trans.
    + rewrite Hadded. apply Forall_app. split; [|exact Hok].
      eapply Forall_impl; [exact IH|]. intros entry. now apply recorded_ok_kept.
Qed.

(** C6 (amended).  Highlighting followed by clearing is a round trip on the
    highlights that calls of [highlightText] which completed have made.  Let
    [h] be reached from [h0], where [highlightedTexts] is empty, by calls of
    [highlightText] that completed, with callbacks that leave the viewer and
    [highlightedTexts] alone, and by nothing else.  Then [clearTextHighlight]
    completes and leaves [highlightedTexts] empty; for every recorded entry
    the text div holds again, as its only content, the string of
    [textContentItems] at the same index, so that its text content is that
    string; and every text div of [h0] that held its string and nothing else
    holds its string and nothing else again, the [textContentItems] being
    those of [h0]. *)
Theorem clearTextHighlight_round_trip (h0 h : BacklinkHighlighter) :
  recorded h0 h →
  ∃ h', clearTextHighlight h = Normal tt h'
    ∧ highlightedTexts h' = []
    ∧ (∀ page index, (page, index) ∈ highlightedTexts h →
         ∃ layer layer' node item,
           pageTextLayer h page = Some layer
           ∧ pageTextLayer h' page = Some layer'
           ∧ textContentItems layer' = textContentItems layer
           ∧ array_get (textContentItems layer) index = Some item
           ∧ array_get (textDivs layer') index = Some node
           ∧ plain_text_div node (str item)
           ∧ textContent node = str item)
    ∧ (∀ page layer0, pageTextLayer h0 page = Some layer0 →
         ∃ layer', pageTextLayer h' page = Some layer'
           ∧ textContentItems layer' = textContentItems layer0
           ∧ ∀ index node0 item,
               array_get (textDivs layer0) index = Some node0 →
               array_get (textContentItems layer0) index = Some item →
               plain_text_div node0 (str item) →
               ∃ node', array_get (textDivs layer') index = Some node'
                 ∧ plain_text_div node' (str item)).
Proof.
  intros Hrec. destruct (recorded_invariant h0 h Hrec) as (Hkept0 & [_ Hu0] & Hok).
  destruct (clearTextHighlight_loop_restores (highlightedTexts h) h [] Hok)
    as (h1 & Hrun & Hkept & Hh & _ & Hrestored); [constructor|].
  simpl in Hrestored. rewrite Forall_forall in Hrestored, Hok.
  exists (set_highlightedTexts (λ _, []) h1). split_and!.
  - unfold clearTextHighlight, bind at 1, get_state. unfold bind. now rewrite Hrun.
  - reflexivity.
  - intros page index Hin.
    destruct (Hrestored _ Hin) as (layer' & node & item & Hl' & Hnode & Hitem & Htext).
    destruct (Hok _ Hin) as [_ (layer & item0 & Hl & Hitem0)]. simpl in *.
    destruct (Hkept _ _ Hl) as (layer'' & Hl'' & Hitems & _).
    rewrite Hl' in Hl''. injection Hl'' as <-.
    exists layer, layer', node, item. split_and!; try done.
    + now rewrite <- Hitems.
    + destruct Htext as (classes & hl & ->).
      apply (textContent_set_textContent (Element classes hl [])).
  - intros page layer0 Hl0.
    destruct (Hkept0 _ _ Hl0) as (layer & Hl & Hitems0 & _).
    destruct (Hkept _ _ Hl) as (layer' & Hl' & Hitems & _).
    exists layer'. split_and!; [exact Hl' | congruence |].
    intros index node0 item Hnode0 Hitem Hplain.
    destruct (decide ((page, index) ∈ highlightedTexts h)) as [Hin | Hnotin].
    + destruct (Hrestored _ Hin) as (layer'' & node & item' & Hl'' & Hnode & Hitem' & Htext).
      simpl in *. change (pageTextLayer h1 page = Some layer') in Hl'.
      rewrite Hl' in Hl''. injection Hl'' as <-.
      exists node. split; [exact Hnode|].
      rewrite Hitems, Hitems0, Hitem in Hitem'. now injection Hitem' as <-.
    + exists node0. split; [|exact Hplain].
      pose proof (clearTextHighlight_loop_untouched _ _ _ _ Hrun page index Hnotin) as Hsame.
      destruct (Hu0 page index) as [Hin | Hsame0]; [contradiction|].
      unfold div_at in Hsame, Hsame0.
      change (pageTextLayer h1 page = Some layer') in Hl'.
      rewrite Hl', Hl in Hsame. rewrite Hl, Hl0 in Hsame0. simpl in Hsame, Hsame0.
      congruence.
Qed.

(** ** The bounds the highlighting methods check *)

Lemma page_guard (pageNumber : number) (h : BacklinkHighlighter) :
  num_lt pageNumber (Int 1) = true ∨ num_gt pageNumber (pagesCount (viewer h)) = true →
  negb (num_lt pageNumber (Int 1) || num_gt pageNumber (pagesCount (viewer h))) = false.
Proof. intros [-> | ->]; [reflexivity | now rewrite orb_true_r]. Qed.

(** C2 (amended). [highlightText], [highlightAnnotation] and
    [processAnnotation] check the page number against the range from 1 to
    [pagesCount] before anything else and do nothing when it is outside.
    [highlightAnnotation] uses no index beyond that and never throws.
    [highlightText] does not check the begin and end index: it completes
    without an access outside the arrays when its callback [onHighlight], if
    it is given one, completes without throwing and leaves the viewer and
    [highlightedTexts] as they are, and when, on a page that has a text
    layer, both indices are within [textDivs] and [textContentItems] and the
    text divs strictly between them are elements. *)
Theorem highlight_checks_page_number :
  (∀ pageNumber colorName onHighlight beginIndex beginOffset endIndex endOffset id callback h,
     num_lt pageNumber (Int 1) = true ∨ num_gt pageNumber (pagesCount (viewer h)) = true →
     highlightText pageNumber colorName onHighlight beginIndex beginOffset endIndex endOffset h
     = Normal tt h
     ∧ highlightAnnotation pageNumber id h = Normal tt h
     ∧ processAnnotation pageNumber id callback h = Normal tt h)
  ∧ (∀ pageNumber id h, ∃ h', highlightAnnotation pageNumber id h = Normal tt h')
  ∧ (∀ pageNumber colorName onHighlight (zb : Z) beginOffset (ze : Z) endOffset h,
       callback_frame False onHighlight →
       (∀ layer, pageTextLayer h pageNumber = Some layer →
          (0 <= zb < Z.of_nat (length (textDivs layer))
           ∧ zb < Z.of_nat (length (textContentItems layer)))
          ∧ (0 <= ze < Z.of_nat (length (textDivs layer))
             ∧ ze < Z.of_nat (length (textContentItems layer)))
          ∧ (∀ zi, zb < zi < ze →
               ∃ node, textDivs layer !! Z.to_nat zi = Some node ∧ is_element node)) →
       ∃ h', highlightText pageNumber colorName onHighlight
               (Int zb) beginOffset (Int ze) endOffset h = Normal tt h').
Proof.
  split_and!.
  - intros pageNumber colorName onHighlight beginIndex beginOffset endIndex endOffset id
      callback h Hguard. apply page_guard in Hguard.
    unfold highlightText, highlightAnnotation, processAnnotation, bind, get_state.
    rewrite Hguard. split_and!; reflexivity.
  - intros pageNumber id h. unfold highlightAnnotation, bind, get_state, modify.
    repeat (match goal with
            | |- context [if ?c then _ else _] => destruct c
            | |- context [match ?x with _ => _ end] => destruct x
            end; simpl); eauto.
  - intros pageNumber colorName onHighlight zb beginOffset ze endOffset h Hframe Hbounds.
    pose proof (highlightText_wpg False pageNumber colorName onHighlight (Int zb) (Int ze)
                  Hframe beginOffset endOffset h) as Hwpg.
    unfold wpg in Hwpg.
    destruct (highlightText pageNumber colorName onHighlight (Int zb) beginOffset
                (Int ze) endOffset h) as [[] h' | err h'].
    + now exists h'.
    + exfalso. apply Hwpg. right. intros layer Hl.
      destruct (Hbounds layer Hl) as ((Hb & Hbi) & (He & Hei) & Hmid).
      assert (Hat : ∀ z, 0 <= z < Z.of_nat (length (textDivs layer)) →
                         z < Z.of_nat (length (textContentItems layer)) →
                         within h pageNumber (Int z)).
      { intros z Hz Hzi.
        destruct (lookup_lt_is_Some_2 (textDivs layer) (Z.to_nat z)) as [node Hnode]; [lia|].
        destruct (lookup_lt_is_Some_2 (textContentItems layer) (Z.to_nat z)) as [item Hitem]; [lia|].
        exists layer, node, item. split; [exact Hl|].
        split; apply array_get_Some; exists (Z.to_nat z); simpl;
          (rewrite bool_decide_eq_true_2 by lia); split; done. }
      split_and!; [now apply Hat | now apply Hat |].
      intros zi Hzi. apply middle_indices_between in Hzi
        as (zf & zl & zi' & [= <-] & [= <-] & [= <-] & Hlt).
      destruct (Hmid zi Hlt) as (node & Hnode & Hel).
      exists layer, node. simpl. split_and!; [exact Hl | | exact Hel].
      apply array_get_Some. exists (Z.to_nat zi). simpl.
      rewrite bool_decide_eq_true_2 by lia. split; done.
Qed.

(** ** The plugin's own callbacks *)

(** [hookEventHandlers] never throws and touches neither the viewer nor the
    highlights. *)
Lemma hookEventHandlers_frame (ref : BacklinkRef) (el : HTMLElementRef)
    (h : BacklinkHighlighter) :
  ∃ h', hookEventHandlers ref el h = Normal tt h'
    ∧ viewer h' = viewer h
    ∧ highlightedTexts h' = highlightedTexts h
    ∧ highlightedAnnotations h' = highlightedAnnotations h.
Proof.
  unfold hookEventHandlers, updateBacklinkItemEl, registerHoverOverBacklinkItem,
    registerHoverOverSelectionBacklinkItem, registerHoverOverAnnotationBacklinkItem,
    register, bind, get_state, modify, ret.
  destruct (setting_enabled h "highlightOnHoverBacklinkPane"); simpl.
  - destruct (backlink_info (backlinks h) ref ≫= findBacklinkItemEl); simpl.
    + match goal with
      | |- context [match ?x ≫= backlinkItemEl with _ => _ end] => destruct (x ≫= backlinkItemEl)
      end; simpl.
      * match goal with
        | |- context [match backlink_pageNumber ?m ref with _ => _ end] =>
            destruct (backlink_pageNumber m ref)
        end; simpl.
        -- destruct ref; simpl; eexists; split_and!; reflexivity.
        -- eexists; split_and!; reflexivity.
      * eexists; split_and!; reflexivity.
    + destruct (backlink_info (backlinks h) ref ≫= backlinkItemEl); simpl.
      * destruct (backlink_pageNumber (backlinks h) ref); simpl.
        -- destruct ref; simpl; eexists; split_and!; reflexivity.
        -- eexists; split_and!; reflexivity.
      * eexists; split_and!; reflexivity.
  - eexists; split_and!; reflexivity.
Qed.

(** The callback [textLayerReady] passes to [highlightText] is one of those
    the round trip allows, whatever is asked of a throw. *)
Lemma textLayerReady_callback_frame (E : Prop) (pageNumber : number) (position : nat) :
  callback_frame E
    (Some (λ highlightedEl,
       modify (set_backlinks (update_backlink (SelectionRef pageNumber position) (λ info,
         {| sourcePath := sourcePath info; linkCache := linkCache info;
            backlinkItemEl := backlinkItemEl info;
            annotationEls := Some (default [] (annotationEls info) ++ [highlightedEl]) |}))) >>
       hookEventHandlers (SelectionRef pageNumber position) highlightedEl)).
Proof.
  intros f [= <-] el h. apply wpg_bind, wpg_modify.
  match goal with |- wpg _ _ _ ?h1 => set (h1' := h1) end.
  destruct (hookEventHandlers_frame (SelectionRef pageNumber position) el h1')
    as (h' & Hrun & Hv & Hh & _).
  unfold wpg. rewrite Hrun. split; [exact Hv | exact Hh].
Qed.

(** ** Teardown when the text layers are still there *)

Lemma Map_get_None {V : Type} (entries : list (string * V)) (key : string) :
  Map_get entries key = None ↔ key ∉ entries.*1.
Proof.
  induction entries as [|[k v] entries IH]; simpl.
  - split; [intros _ H; inversion H | reflexivity].
  - rewrite not_elem_of_cons. case_bool_decide as Hk.
    + split; [discriminate | intros [Hne _]; congruence].
    + rewrite IH. split; [intros ?; split; [congruence | done] | now intros [_ ?]].
Qed.

Lemma Map_get_Some {V : Type} (entries : list (string * V)) (key : string) (v : V) :
  Map_get entries key = Some v → (key, v) ∈ entries.
Proof.
  induction entries as [|[k w] entries IH]; simpl; [discriminate|].
  case_bool_decide as Hk.
  - intros [= ->]. subst. now left.
  - intros Hget. right. now apply IH.
Qed.

Lemma Map_delete_keys {V : Type} (entries : list (string * V)) (key k : string) :
  k ∈ (Map_delete entries key).*1 ↔ k ∈ entries.*1 ∧ k ≠ key.
Proof.
  unfold Map_delete. rewrite !list_elem_of_fmap. split.
  - intros ([k' v] & -> & Hin). apply list_elem_of_filter in Hin as [Hne Hin].
    split; [now exists (k', v) | exact Hne].
  - intros [([k' v] & -> & Hin) Hne]. exists (k', v). split; [reflexivity|].
    apply list_elem_of_filter. now split.
Qed.

Lemma Map_delete_entries {V : Type} (entries : list (string * V)) (key : string)
    (entry : string * V) :
  entry ∈ Map_delete entries key ↔ entry ∈ entries ∧ entry.1 ≠ key.
Proof.
  unfold Map_delete. rewrite list_elem_of_filter.
  split; intros [? ?]; split; assumption.
Qed.

Lemma attached_detach (el : BoundingRect) (v : ObsidianViewer) (u : nat) :
  attached (detach el v) u → attached v u ∧ u ≠ uid el.
Proof.
  intros (pages & pageView & layer & rect & Hpages & Hpage & Hlayer & Hrect & <-).
  unfold detach in Hpages. simpl in Hpages.
  destruct (pdfViewer v) as [pages0|] eqn:Hpages0; simpl in Hpages; [|discriminate].
  injection Hpages as <-.
  apply list_elem_of_fmap in Hpage as (pageView0 & -> & Hpage0).
  unfold update_boundingRects in Hlayer. simpl in Hlayer.
  destruct (annotationLayer pageView0) as [layer0|] eqn:Hlayer0; simpl in Hlayer; [|discriminate].
  injection Hlayer as <-. simpl in Hrect.
  apply list_elem_of_filter in Hrect as [Hne Hrect].
  split; [|exact Hne].
  exists pages0, pageView0, layer0, rect. split_and!; done.
Qed.

Lemma Map_get_entry {V : Type} (entries : list (string * V)) (key : string) (v : V) :
  NoDup entries.*1 → (key, v) ∈ entries → Map_get entries key = Some v.
Proof.
  induction entries as [|[k w] entries IH]; simpl; intros Hnodup Hin; [inversion Hin|].
  apply NoDup_cons in Hnodup as [Hk Hnodup].
  apply elem_of_cons in Hin as [[= -> ->] | Hin].
  - now rewrite bool_decide_eq_true_2.
  - case_bool_decide as Heq; [|now apply IH].
    subst. exfalso. apply Hk. apply list_elem_of_fmap. now exists (key, v).
Qed.

Lemma Map_delete_NoDup {V : Type} (entries : list (string * V)) (key : string) :
  NoDup entries.*1 → NoDup (Map_delete entries key).*1.
Proof.
  unfold Map_delete. induction entries as [|[k v] entries IH]; simpl; intros Hnodup; [constructor|].
  apply NoDup_cons in Hnodup as [Hk Hnodup].
  rewrite filter_cons. simpl. case_decide as Hne; [|now apply IH].
  simpl. apply NoDup_cons. split; [|now apply IH].
  intros Hin. apply Hk. apply list_elem_of_fmap in Hin as ([k' v'] & -> & Hin).
  apply list_elem_of_filter in Hin as [_ Hin]. apply list_elem_of_fmap. now exists (k', v').
Qed.

(** The loop of [onunload] over the annotation highlights empties the map
    and detaches every rectangle that was in it. *)
Lemma clear_all_annotation_highlights (keys : list string) :
  ∀ h : BacklinkHighlighter,
    NoDup (highlightedAnnotations h).*1 →
    (∀ k, k ∈ (highlightedAnnotations h).*1 → k ∈ keys) →
    ∃ h', for_of keys clearAnnotationHighlight h = Normal tt h'
      ∧ highlightedAnnotations h' = []
      ∧ highlightedTexts h' = highlightedTexts h
      ∧ (∀ u, attached (viewer h') u → attached (viewer h) u)
      ∧ (∀ entry, entry ∈ highlightedAnnotations h → ¬ attached (viewer h') (uid entry.2)).
Proof.
  induction keys as [|key keys IH]; intros h Hnodup Hkeys.
  - exists h. split_and!; try done.
    + destruct (highlightedAnnotations h) as [|[k v] entries] eqn:Hmap; [reflexivity|].
      exfalso. specialize (Hkeys k). simpl in Hkeys.
      assert (Hin : k ∈ []) by (apply Hkeys; left). inversion Hin.
    + intros entry Hentry. exfalso.
      assert (Hin : entry.1 ∈ []) by (apply Hkeys, list_elem_of_fmap; eauto). inversion Hin.
  - simpl. unfold bind at 1, clearAnnotationHighlight at 1, bind at 1, get_state.
    destruct (Map_get (highlightedAnnotations h) key) as [el|] eqn:Hget.
    + unfold bind at 1, modify at 1. unfold modify at 1.
      set (h1 := set_highlightedAnnotations _ (set_viewer (detach el) h)).
      destruct (IH h1) as (h' & Hrun & Hempty & Htexts & Hmono & Hgone).
      { subst h1. simpl. now apply Map_delete_NoDup. }
      { intros k Hk. subst h1. simpl in Hk. apply Map_delete_keys in Hk as [Hk Hne].
        apply Hkeys in Hk. apply elem_of_cons in Hk as [->|Hk]; [done | exact Hk]. }
      exists h'. split_and!; [exact Hrun | exact Hempty | exact Htexts | |].
      * intros u Hu. apply Hmono in Hu. subst h1. simpl in Hu.
        now apply attached_detach in Hu.
      * intros [k v] Hentry Hattached.
        destruct (decide (k = key)) as [->|Hkey].
        -- rewrite (Map_get_entry _ _ _ Hnodup Hentry) in Hget. injection Hget as <-.
           apply Hmono in Hattached. subst h1. simpl in Hattached.
           now apply attached_detach in Hattached as [_ Hne].
        -- apply (Hgone (k, v)); [|exact Hattached].
           subst h1. simpl. apply Map_delete_entries. now split.
    + destruct (IH h Hnodup) as (h' & Hrun & Hempty & Htexts & Hmono & Hgone).
      { intros k Hk. pose proof (Hkeys k Hk) as Hin.
        apply elem_of_cons in Hin as [->|Hin]; [|exact Hin].
        now apply Map_get_None in Hget. }
      exists h'. unfold ret. split_and!; try done.
Qed.

(** A rectangle added to an annotation layer leaves the text layers as they
    are. *)
Lemma pageTextLayer_update_boundingRects (i : number)
    (f : list BoundingRect → list BoundingRect) (h : BacklinkHighlighter) (page : number) :
  pageTextLayer (set_viewer (update_page i (update_boundingRects f)) h) page
  = pageTextLayer h page.
Proof.
  unfold pageTextLayer, getPageView, update_page. simpl.
  destruct (array_index i) as [k|]; [|reflexivity].
  destruct (pdfViewer (viewer h)) as [pages|] eqn:Hpages; simpl; rewrite ?Hpages;
    [|reflexivity]. simpl.
  unfold array_get. destruct (array_index (num_sub page (Int 1))) as [j|]; [|reflexivity].
  simpl. destruct (decide (j = k)) as [->|Hne].
  - rewrite list_lookup_alter_eq. now destruct (pages !! k).
  - now rewrite list_lookup_alter_ne.
Qed.

(** [highlightAnnotation] completes and touches neither the text layers nor
    [highlightedTexts]. *)
Lemma highlightAnnotation_frame (pageNumber : number) (id : string) (h : BacklinkHighlighter) :
  ∃ h', highlightAnnotation pageNumber id h = Normal tt h'
    ∧ layers_kept h h'
    ∧ highlightedTexts h' = highlightedTexts h.
Proof.
  assert (Hsame : ∃ h', highlightAnnotation pageNumber id h = Normal tt h'
            ∧ (∀ page, pageTextLayer h' page = pageTextLayer h page)
            ∧ highlightedTexts h' = highlightedTexts h).
  { unfold highlightAnnotation, bind, get_state, modify, ret.
    destruct (negb _); [|eauto].
    destruct (getPageView _ _) as [pageView|]; [|eauto].
    destruct (annotationLayer pageView) as [layer|]; [|eauto].
    destruct (string_truthy _); [|eauto].
    destruct (getAnnotation _ _) as [elem|]; [|eauto].
    eexists. split; [reflexivity|]. split; [|reflexivity].
    intros page. unfold pageTextLayer. simpl.
    apply (pageTextLayer_update_boundingRects _ _ h page). }
  destruct Hsame as (h' & Hrun & Hlayers & Htexts).
  exists h'. split_and!; [exact Hrun | | exact Htexts].
  intros page layer Hl. exists layer. rewrite Hlayers. split_and!; eauto.
Qed.

(** What [onunload] achieves when every entry of [highlightedTexts] still
    names a text div and an item of a text layer that is there: it completes,
    [highlightedTexts] and [highlightedAnnotations] are empty afterwards, and
    no rectangle of the map is attached to a page any more. *)
Theorem onunload_cleans_up (h : BacklinkHighlighter) :
  Forall (recorded_ok h) (highlightedTexts h) →
  NoDup (highlightedAnnotations h).*1 →
  ∃ h', onunload h = Normal tt h'
    ∧ highlightedTexts h' = []
    ∧ highlightedAnnotations h' = []
    ∧ ∀ id el, (id, el) ∈ highlightedAnnotations h → ¬ attached (viewer h') (uid el).
Proof.
  intros Hok Hnodup.
  destruct (clearTextHighlight_loop_restores (highlightedTexts h) h [] Hok)
    as (h1 & Hloop & _ & _ & Hannotations & _); [constructor|].
  set (h2 := set_highlightedTexts (λ _, []) h1).
  assert (Hclear : clearTextHighlight h = Normal tt h2).
  { unfold clearTextHighlight, bind at 1, get_state. unfold bind. now rewrite Hloop. }
  destruct (clear_all_annotation_highlights (highlightedAnnotations h2).*1 h2)
    as (h' & Hrun & Hempty & Htexts & _ & Hgone).
  { subst h2. simpl. now rewrite Hannotations. }
  { auto. }
  exists h'. split_and!.
  - unfold onunload, bind at 1. rewrite Hclear. unfold bind at 1, get_state. exact Hrun.
  - rewrite Htexts. reflexivity.
  - exact Hempty.
  - intros id el Hin. apply (Hgone (id, el)). subst h2. simpl. now rewrite Hannotations.
Qed.

(** ** [onModKeyPress]: the callback and the listeners *)

Lemma dispatchEvent_watching (e : DocEvent) :
  let w := onModKeyPress false in
  dispatchEvent e w = w
  ∨ dispatchEvent e w = {| removed := true; doc_listeners := []; callback_calls := 0%nat |}
  ∨ dispatchEvent e w = {| removed := true; doc_listeners := []; callback_calls := 1%nat |}.
Proof.
  destruct e as [[] []|[] []|[]]; vm_compute; auto.
Qed.

Lemma dispatchEvent_no_listener (e : DocEvent) (w : ModKeyWatch) :
  doc_listeners w = [] → dispatchEvent e w = w.
Proof. intros Hnone. unfold dispatchEvent. now rewrite Hnone. Qed.

(** Whatever events the document dispatches after a call of
    [onModKeyPress], [callback] is called at most once.  When the modifier
    is down at the call it is called at once and no listener is ever added;
    otherwise the call has its three listeners on the document or none, none
    once [callback] was called, and while the three are there a [keydown]
    with the modifier down and the target element in the document calls
    [callback]. *)
Theorem onModKeyPress_calls_back_once (isModifier : bool) (events : list DocEvent) :
  let w := fold_left (λ w e, dispatchEvent e w) events (onModKeyPress isModifier) in
  (callback_calls w ≤ 1)%nat
  ∧ (isModifier = true → callback_calls w = 1%nat ∧ doc_listeners w = [])
  ∧ (doc_listeners w = []
     ∨ doc_listeners w = [("keydown", onKeyDown); ("mouseover", onMouseOver);
                          ("mouseleave", onMouseLeave)]
       ∧ removed w = false ∧ callback_calls w = 0%nat
       ∧ callback_calls (dispatchEvent (KeyDownEvent true true) w) = 1%nat)
  ∧ (callback_calls w = 1%nat → doc_listeners w = []).
Proof.
  intros w.
  assert (Hinv : (isModifier = true
                  ∧ w = {| removed := false; doc_listeners := []; callback_calls := 1%nat |})
                 ∨ (isModifier = false
                    ∧ (w = onModKeyPress false
                       ∨ w = {| removed := true; doc_listeners := []; callback_calls := 0%nat |}
                       ∨ w = {| removed := true; doc_listeners := []; callback_calls := 1%nat |}))).
  { subst w. induction events as [|e events IH] using rev_ind.
    - destruct isModifier; [left | right]; split; auto.
    - rewrite fold_left_app. simpl.
      destruct IH as [[Hmod ->] | [Hmod [-> | [-> | ->]]]].
      + left. split; [exact Hmod|]. now apply dispatchEvent_no_listener.
      + right. split; [exact Hmod|]. apply dispatchEvent_watching.
      + right. split; [exact Hmod|]. right. left. now apply dispatchEvent_no_listener.
      + right. split; [exact Hmod|]. right. right. now apply dispatchEvent_no_listener. }
  clearbody w.
  destruct Hinv as [[Hmod ->] | [Hmod [-> | [-> | ->]]]]; subst isModifier.
  - split_and!; simpl; [lia | done | now left | done].
  - split_and!; [vm_compute; lia | discriminate | | vm_compute; discriminate].
    right. split_and!; vm_compute; reflexivity.
  - split_and!; simpl; [lia | discriminate | now left | done].
  - split_and!; simpl; [lia | discriminate | now left | done].
Qed.

(** ** What the layer callbacks do and do not do *)

(** [highlightOnHoverBacklinkPane], the setting [hookEventHandlers] reads
    before it looks for the item of the backlink pane, is no field of the
    interface.  When the settings hold no such key, all [hookEventHandlers]
    does is register its four handlers on the element, in this order:
    [mouseover], [mouseout], [mouseover], [dblclick]. *)
Theorem hookEventHandlers_without_hover_setting :
  ("highlightOnHoverBacklinkPane" ∉ PDFPlusSettings.*1)
  ∧ ∀ ref el h,
      settings (plugin h) !! "highlightOnHoverBacklinkPane" = None →
      hookEventHandlers ref el h
      = Normal tt
          (set_eventManager
             (λ c, {| loaded := loaded c;
                      registered := registered c ++ [ DomEvent el "mouseover" ref;
                                                      DomEvent el "mouseout" ref;
                                                      DomEvent el "mouseover" ref;
                                                      DomEvent el "dblclick" ref ] |}) h).
Proof.
  split.
  - apply (bool_decide_unpack _). vm_compute. exact I.
  - intros ref el h Hnone.
    unfold hookEventHandlers, bind at 1, get_state.
    unfold setting_enabled, get_property. rewrite Hnone. simpl.
    unfold bind, ret, register, modify, set_eventManager. simpl.
    rewrite <- !app_assoc. reflexivity.
Qed.

Lemma for_of_state_invariant {S A : Type} (I : S → Prop) (xs : list A) (body : A → JS S unit) :
  (∀ x s, I s → I (state_of (body x s))) →
  ∀ s, I s → I (state_of (for_of xs body s)).
Proof.
  intros Hbody. induction xs as [|x xs IH]; intros s Hs; [exact Hs|].
  simpl. unfold bind. pose proof (Hbody x s Hs) as Hx.
  destruct (body x s) as [[] s' | e s']; [now apply IH | exact Hx].
Qed.

(** One backlink of the loop of lines 818-829. *)
Lemma processAnnotation_hook_frame (pageNumber : number) (position : nat) (id : string)
    (h : BacklinkHighlighter) :
  ∃ h', state_of
          (processAnnotation pageNumber id
             (Some (λ rectEl,
                modify (set_backlinks (update_backlink (AnnotationRef pageNumber position)
                  (λ info,
                     {| sourcePath := sourcePath info; linkCache := linkCache info;
                        backlinkItemEl := backlinkItemEl info;
                        annotationEls := Some [rectEl] |}))) >>
                hookEventHandlers (AnnotationRef pageNumber position) rectEl)) h) = h'
    ∧ viewer h' = viewer h
    ∧ highlightedTexts h' = highlightedTexts h
    ∧ highlightedAnnotations h' = highlightedAnnotations h.
Proof.
  unfold processAnnotation, bind at 1, get_state.
  repeat (match goal with
          | |- context [if ?c then _ else _] => destruct c
          | |- context [match ?x with _ => _ end] => destruct x
          end; simpl; try (eexists; split_and!; reflexivity)).
  unfold bind at 1, modify at 1.
  match goal with |- context [hookEventHandlers ?ref ?el ?s] =>
    destruct (hookEventHandlers_frame ref el s) as (h2 & -> & Hv2 & Ht2 & Ha2)
  end.
  exists h2. split_and!; [reflexivity | exact Hv2 | exact Ht2 | exact Ha2].
Qed.

(** The callback of [onAnnotationLayerReady] makes no highlight: whether it
    completes or throws, it leaves the viewer, [highlightedTexts] and
    [highlightedAnnotations] as they were. *)
Theorem annotationLayerReady_frame (pageNumber : number) (h : BacklinkHighlighter) :
  let h' := state_of (annotationLayerReady pageNumber h) in
  viewer h' = viewer h
  ∧ highlightedTexts h' = highlightedTexts h
  ∧ highlightedAnnotations h' = highlightedAnnotations h.
Proof.
  intros h'. subst h'. unfold annotationLayerReady, bind at 1, get_state.
  apply (for_of_state_invariant
           (λ h', viewer h' = viewer h ∧ highlightedTexts h' = highlightedTexts h
                  ∧ highlightedAnnotations h' = highlightedAnnotations h));
    [|split_and!; reflexivity].
  intros [position backlink] h1 (Hv & Ht & Ha).
  destruct (processAnnotation_hook_frame pageNumber position (id backlink) h1)
    as (h2 & -> & Hv2 & Ht2 & Ha2).
  split_and!; congruence.
Qed.

(** The setting [highlightColorSpecifiedOnly]: when it is on, the callback
    of [onTextLayerReady] changes nothing on a page whose selection
    backlinks all lack a color name (an empty one counts as none). *)
Theorem textLayerReady_color_specified_only (pageNumber : number) (h : BacklinkHighlighter) :
  setting_enabled h "highlightColorSpecifiedOnly" = true →
  (∀ backlink, backlink ∈ default [] (selection <$> backlinks h !! pageNumber) →
     string_truthy (default EmptyString (colorName backlink)) = false) →
  textLayerReady pageNumber h = Normal tt h.
Proof.
  intros Hsetting Hcolors. unfold textLayerReady, bind at 1, get_state.
  set (selections := default [] (selection <$> backlinks h !! pageNumber)) in *.
  assert (Hall : ∀ entry, entry ∈ imap (λ position backlink, (position, backlink)) selections →
                   string_truthy (default EmptyString (colorName entry.2)) = false).
  { intros [position backlink] Hin. apply elem_of_lookup_imap in Hin as (i & b & [= -> ->] & Hb).
    apply Hcolors. now apply list_elem_of_lookup_2 in Hb. }
  clearbody selections.
  induction (imap (λ position backlink, (position, backlink)) selections)
    as [|[position backlink] entries IH]; [reflexivity|].
  simpl. unfold bind at 1. unfold bind at 1, get_state.
  assert (Hcolor : string_truthy (default EmptyString (colorName backlink)) = false)
    by (apply (Hall (position, backlink)); now left).
  rewrite Hcolor, Hsetting. simpl.
  apply IH. intros entry Hentry. apply Hall. now right.
Qed.

(** ** The entries of the backlinks map *)

Lemma filed_by_page_default (map : gmap number PageBacklinks) (page : number) :
  filed_by_page map →
  Forall (λ b, selection_pageNumber b = page
               ∧ backlinkItemEl (selection_info b) = None
               ∧ annotationEls (selection_info b) = None)
    (selection (default empty_page (map !! page)))
  ∧ Forall (λ b, annotation_pageNumber b = page
                 ∧ backlinkItemEl (annotation_info b) = None
                 ∧ annotationEls (annotation_info b) = None)
      (annotation (default empty_page (map !! page))).
Proof.
  intros Hmap. destruct (map !! page) as [entry|] eqn:Hentry; simpl.
  - now apply Hmap.
  - split; constructor.
Qed.

Lemma filed_by_page_link (sourcePath : string) (linkCache : LinkCache)
    (map : gmap number PageBacklinks) :
  filed_by_page map → filed_by_page (setBacklinks_link sourcePath linkCache map).
Proof.
  intros Hmap. unfold setBacklinks_link.
  destruct (_ && _).
  - destruct (parseInt <$> _) as [|s0 [|s1 [|s2 [|s3 [|s4 rest]]]]]; try exact Hmap.
    unfold push_selection. intros page entry Hentry.
    match type of Hentry with (<[?key := _]> _ !! _ = _) => set (key' := key) in * end.
    destruct (decide (page = key')) as [->|Hne].
    + rewrite lookup_insert_eq in Hentry. injection Hentry as <-. simpl.
      destruct (filed_by_page_default map key' Hmap) as [Hselection Hannotation].
      split; [|exact Hannotation].
      apply Forall_app. split; [exact Hselection|]. constructor; [|constructor].
      split_and!; reflexivity.
    + rewrite lookup_insert_ne in Hentry by done. now apply Hmap.
  - destruct (_ && _); [|exact Hmap].
    unfold push_annotation. intros page entry Hentry.
    match type of Hentry with (<[?key := _]> _ !! _ = _) => set (key' := key) in * end.
    destruct (decide (page = key')) as [->|Hne].
    + rewrite lookup_insert_eq in Hentry. injection Hentry as <-. simpl.
      destruct (filed_by_page_default map key' Hmap) as [Hselection Hannotation].
      split; [exact Hselection|].
      apply Forall_app. split; [exact Hannotation|]. constructor; [|constructor].
      split_and!; reflexivity.
    + rewrite lookup_insert_ne in Hentry by done. now apply Hmap.
Qed.

(** After [setBacklinks], whatever the metadata cache holds, every entry of
    the backlinks map is filed under its own [pageNumber], and has neither
    an item of the backlink pane nor elements yet; a page that has an entry
    in the map has a backlink. *)
Theorem setBacklinks_files_by_page (file : TFile) (h : BacklinkHighlighter) :
  ∃ h', setBacklinks file h = Normal tt h'
    ∧ filed_by_page (backlinks h')
    ∧ ∀ page entry, backlinks h' !! page = Some entry →
        selection entry ≠ [] ∨ annotation entry ≠ [].
Proof.
  eexists. split; [apply setBacklinks_spec|]. simpl. unfold build_backlinks.
  generalize (all_links (getBacklinksForFile (metadataCache h) (path file))).
  intros links.
  assert (Hinv : ∀ map : gmap number PageBacklinks,
            filed_by_page map
            ∧ (∀ page entry, map !! page = Some entry →
                 selection entry ≠ [] ∨ annotation entry ≠ []) →
            let map' := fold_left (λ map entry, setBacklinks_link entry.1 entry.2 map) links map in
            filed_by_page map'
            ∧ (∀ page entry, map' !! page = Some entry →
                 selection entry ≠ [] ∨ annotation entry ≠ [])).
  { induction links as [|[sourcePath link] links IH]; intros map Hmap; [exact Hmap|].
    simpl. apply IH. destruct Hmap as [Hfiled Hnonempty].
    split; [now apply filed_by_page_link|].
    simpl. unfold setBacklinks_link.
    destruct (_ && _).
    - destruct (parseInt <$> _) as [|s0 [|s1 [|s2 [|s3 [|s4 rest]]]]]; try exact Hnonempty.
      unfold push_selection. intros page entry Hentry.
      match type of Hentry with (<[?key := _]> _ !! _ = _) => set (key' := key) in * end.
      destruct (decide (page = key')) as [->|Hne].
      + rewrite lookup_insert_eq in Hentry. injection Hentry as <-. simpl. left.
        intros Hnil. now apply app_eq_nil in Hnil as [_ ?].
      + rewrite lookup_insert_ne in Hentry by done. now apply (Hnonempty page).
    - destruct (_ && _); [|exact Hnonempty].
      unfold push_annotation. intros page entry Hentry.
      match type of Hentry with (<[?key := _]> _ !! _ = _) => set (key' := key) in * end.
      destruct (decide (page = key')) as [->|Hne].
      + rewrite lookup_insert_eq in Hentry. injection Hentry as <-. simpl. right.
        intros Hnil. now apply app_eq_nil in Hnil as [_ ?].
      + rewrite lookup_insert_ne in Hentry by done. now apply (Hnonempty page). }
  apply Hinv. split; [|intros page entry Hentry; now rewrite lookup_empty in Hentry].
  intros page entry Hentry. now rewrite lookup_empty in Hentry.
Qed.

(** ** The code on the small vault *)

Lemma normal_completion {S : Type} (c : Completion S unit) :
  thrown c = None → c = Normal tt (state_of c).
Proof. destruct c as [[] s | e s]; [reflexivity | discriminate]. Qed.

Lemma abrupt_completion {S A : Type} (c : Completion S A) (e : JSError) :
  thrown c = Some e → c = Abrupt e (state_of c).
Proof. destruct c as [a s | e' s]; [discriminate | now intros [= ->]]. Qed.

(** ** Teardown *)

(** C5 (the code at a state it can reach).  In [demo_scrolled_away] two
    pages hold highlighted text and page 1, which [highlightedTexts] names
    first, has lost its text layer.  [onunload] then leaves the loop of
    [clearTextHighlight] through the [return] of line 890: [highlightedTexts]
    stays as it was, not empty, and the first text div of page 2 keeps its
    highlight.  The annotation highlights are still cleared. *)
Theorem onunload_after_scrolling_away :
  let h' := state_of (onunload demo_scrolled_away) in
  pageTextLayer demo_scrolled_away (Int 1) = None
  ∧ onunload demo_scrolled_away = Normal tt h'
  ∧ highlightedTexts h'
    = [ (Int 1, Int 0); (Int 1, Int 0); (Int 1, Int 1); (Int 1, Int 1);
        (Int 2, Int 0); (Int 2, Int 0); (Int 2, Int 0) ]
  ∧ highlightedTexts h' = highlightedTexts demo_scrolled_away
  ∧ (textDivs <$> pageTextLayer h' (Int 2))
    = Some [ Element ["textLayerNode"] None
               [ TextNode EmptyString;
                 Element ["mod-focused"; "selected"; "pdf-plus-backlink"; "appended"] None
                   [TextNode "Second"];
                 TextNode " page" ];
             Element ["textLayerNode"] None [TextNode "of the paper"] ]
  ∧ (highlightedAnnotations demo_scrolled_away).*1 = ["12R"]
  ∧ highlightedAnnotations h' = [].
Proof.
  intros h'. subst h'.
  split; [vm_compute; reflexivity|].
  split; [apply normal_completion; vm_compute; reflexivity|].
  split_and!; vm_compute; reflexivity.
Qed.

(** ** Renaming a color *)

(** When [newName in colors] holds, the handler of the name input shows one
    notice, marks the input as an error and changes nothing else. *)
Lemma addColorSetting_onChangeName_collision (newName : string) (t : PDFPlusSettingTab)
    (row : ColorSetting) (colors : gmap string string) :
  get_property (settings (tab_plugin t)) "colors" = VRecord colors →
  js_in newName colors = true →
  addColorSetting_onChangeName newName (t, row)
  = Normal tt
      ({| tab_plugin := tab_plugin t;
          tab_notices := tab_notices t ++ ["This color name is already used."];
          defaultColorOptions := defaultColorOptions t |},
       {| name := name row; color := color row; previousColor := previousColor row;
          isDefault := isDefault row; input_error := true |}).
Proof.
  intros Hcolors Hin. unfold addColorSetting_onChangeName, bind at 1.
  unfold on_tab at 1, get_colors, bind, get_state. rewrite Hcolors. unfold ret.
  rewrite Hin. reflexivity.
Qed.

(** C9 (the code at a name that no color has).  The record of colors of the
    default settings has no color named [toString], yet [toString in colors]
    holds, through the prototype of the record: the handler of the name
    input reports that the name is already used, marks the input as an error
    and returns; the settings are as they were and the color [Yellow] keeps
    its name. *)
Theorem rename_to_inherited_name_refused :
  let row := addColorSetting "Yellow" "#ffd000" demo_tab in
  let colors := object_literal [("Yellow", "#ffd000"); ("Red", "#EA5252"); ("Blue", "#7b89f4")] in
  get_property (settings (tab_plugin demo_tab)) "colors" = VRecord colors
  ∧ colors !! "toString" = None
  ∧ js_in "toString" colors = true
  ∧ addColorSetting_onChangeName "toString" (demo_tab, row)
    = Normal tt
        ({| tab_plugin := tab_plugin demo_tab;
            tab_notices := ["This color name is already used."];
            defaultColorOptions := defaultColorOptions demo_tab |},
         {| name := "Yellow"; color := "#ffd000"; previousColor := "#ffd000";
            isDefault := false; input_error := true |}).
Proof.
  intros row colors.
  assert (Hcolors : get_property (settings (tab_plugin demo_tab)) "colors" = VRecord colors)
    by (subst colors; vm_compute; reflexivity).
  assert (Hin : js_in "toString" colors = true) by (subst colors; vm_compute; reflexivity).
  split_and!; [exact Hcolors | subst colors; vm_compute; reflexivity | exact Hin |].
  rewrite (addColorSetting_onChangeName_collision "toString" demo_tab row colors Hcolors Hin).
  reflexivity.
Qed.

End Plugin.

(** * Examples on the small vault *)

(** What [setBacklinks] builds from the two links of the note: a selection
    entry and an annotation entry, both on page 1. *)
Example setBacklinks_demo :
  backlinks (state_of (setBacklinks subpath_after_hash {| path := "paper.pdf" |} demo_highlighter))
    !! Int 1
  = Some
      {| selection :=
           [ {| selection_info :=
                  {| sourcePath := "note.md"; linkCache := demo_selection_link;
                     backlinkItemEl := None; annotationEls := None |};
                selection_pageNumber := Int 1;
                beginIndex := Int 0; beginOffset := Int 7;
                endIndex := Int 1; endOffset := Int 2;
                colorName := Some "Red" |} ];
         annotation :=
           [ {| annotation_info :=
                  {| sourcePath := "note.md"; linkCache := demo_annotation_link;
                     backlinkItemEl := None; annotationEls := None |};
                id := "12R";
                annotation_pageNumber := Int 1 |} ] |}.
Proof. vm_compute. reflexivity. Qed.

(** Witness of C10: with the setting turned off, the routine leaves the
    highlighter as it is. *)
Lemma _highlightBacklinks_guards_witness :
  setting_enabled demo_highlighter_off "highlightBacklinks" = false
  ∧ _highlightBacklinks subpath_after_hash register_textLayerReady
      register_annotationLayerReady annotation_element no_backlink_pane demo_highlighter_off
    = Normal tt demo_highlighter_off.
Proof.
  split; [vm_compute; reflexivity|].
  apply _highlightBacklinks_guards. right. right. vm_compute. reflexivity.
Defined.

(** Witness of C3: in [demo_stale] the routine throws (the text div of the
    stale entry is not there) and the wrapper reports it once. *)
Lemma highlightBacklinks_catches_witness :
  let thrown_error := TypeError "Cannot read properties of undefined: textDiv" in
  let h' := state_of (_highlightBacklinks subpath_after_hash register_textLayerReady
                        register_annotationLayerReady annotation_element no_backlink_pane
                        demo_stale) in
  _highlightBacklinks subpath_after_hash register_textLayerReady
    register_annotationLayerReady annotation_element no_backlink_pane demo_stale
  = Abrupt thrown_error h'
  ∧ ∃ h'', highlightBacklinks subpath_after_hash register_textLayerReady
             register_annotationLayerReady annotation_element no_backlink_pane demo_stale
           = Normal tt h''
      ∧ notices h'' = notices h' ++ [failure_notice h']
      ∧ console h'' = console h' ++ [thrown_error].
Proof.
  intros thrown_error h'.
  assert (Hthrows : _highlightBacklinks subpath_after_hash register_textLayerReady
                      register_annotationLayerReady annotation_element no_backlink_pane
                      demo_stale = Abrupt thrown_error h').
  { subst thrown_error h'. apply abrupt_completion. vm_compute. reflexivity. }
  split; [exact Hthrows|].
  destruct (proj1 (proj2 (highlightBacklinks_catches subpath_after_hash register_textLayerReady
                            register_annotationLayerReady annotation_element no_backlink_pane
                            demo_stale)) thrown_error h' Hthrows)
    as (h'' & Hrun & Hnotices & Hconsole & _).
  exists h''. split_and!; [exact Hrun | exact Hnotices | exact Hconsole].
Defined.

(** Counterexample to C2 as stated: the page number 1 is within the range,
    page 1 has two text divs, and [highlightText] with begin index 5 reads
    [textDivs[5]] all the same, which throws. *)
Lemma highlightText_index_unchecked :
  num_lt (Int 1) (Int 1) = false
  ∧ num_gt (Int 1) (pagesCount (viewer demo_highlighter)) = false
  ∧ (length <$> (textDivs <$> pageTextLayer demo_highlighter (Int 1))) = Some 2%nat
  ∧ (pageTextLayer demo_highlighter (Int 1) ≫= λ layer, array_get (textDivs layer) (Int 5))
    = None
  ∧ thrown (highlightText (Int 1) None None (Int 5) (Int 0) (Int 5) (Int 1) demo_highlighter)
    = Some (TypeError "Cannot read properties of undefined: textDivs[index]").
Proof. split_and!; vm_compute; reflexivity. Qed.

(** Counterexample to C4 as stated: the handler of [resolved] is registered
    and the cache has links to the file, but the setting [highlightBacklinks]
    is off; the event leaves the backlinks map as it is, empty, which is not
    the map [setBacklinks] would build. *)
Lemma resolved_without_rebuild :
  let after := metadataCache_resolved subpath_after_hash register_textLayerReady
                 register_annotationLayerReady annotation_element no_backlink_pane
                 demo_highlighter_off in
  let rebuilt := setBacklinks subpath_after_hash {| path := "paper.pdf" |}
                   demo_highlighter_off in
  resolved_registered demo_highlighter_off = true
  ∧ thrown after = None
  ∧ backlinks (state_of after) !! Int 1 = None
  ∧ (length <$> (selection <$> backlinks (state_of rebuilt) !! Int 1)) = Some 1%nat
  ∧ backlinks (state_of after) ≠ backlinks (state_of rebuilt).
Proof.
  intros after rebuilt. subst after rebuilt.
  split_and!; try (vm_compute; reflexivity).
  intros Heq. apply (f_equal (λ m, length <$> (selection <$> m !! Int 1))) in Heq.
  vm_compute in Heq. discriminate.
Qed.

Lemma demo_highlighted_recorded : recorded demo_highlighter demo_highlighted.
Proof.
  unfold demo_highlighted.
  set (h1 := state_of (highlightText (Int 1) (Some "Red") None (Int 0) (Int 7) (Int 1) (Int 2)
                         demo_highlighter)).
  apply (recorded_highlightText _ h1 _ (Int 2) None None (Int 0) (Int 0) (Int 0) (Int 6)).
  - apply (recorded_highlightText _ demo_highlighter h1 (Int 1) (Some "Red") None
             (Int 0) (Int 7) (Int 1) (Int 2)).
    + apply recorded_nothing. vm_compute. reflexivity.
    + intros f Hf. discriminate.
    + subst h1. apply normal_completion. vm_compute. reflexivity.
  - intros f Hf. discriminate.
  - subst h1. apply normal_completion. vm_compute. reflexivity.
Qed.

(** On the small vault the text layer of page 1 becoming ready highlights the
    selection of the first link: four entries, two for each of its text
    divs. *)
Example textLayerReady_demo :
  highlightedTexts
    (state_of (textLayerReady no_backlink_pane (Int 1)
       (state_of (setBacklinks subpath_after_hash {| path := "paper.pdf" |} demo_highlighter))))
  = [(Int 1, Int 0); (Int 1, Int 0); (Int 1, Int 1); (Int 1, Int 1)].
Proof. vm_compute. reflexivity. Qed.

Lemma demo_annotated_recorded_ok :
  Forall (recorded_ok demo_annotated) (highlightedTexts demo_annotated).
Proof.
  destruct (highlightAnnotation_frame (Int 1) "12R" demo_highlighted)
    as (h' & Hrun & Hkept & Htexts).
  unfold demo_annotated. rewrite Hrun. simpl. rewrite Htexts.
  eapply Forall_impl; [apply (recorded_invariant _ _ demo_highlighted_recorded)|].
  intros entry. now apply recorded_ok_kept.
Qed.

Lemma onunload_cleans_up_witness :
  Forall (recorded_ok demo_annotated) (highlightedTexts demo_annotated)
  ∧ NoDup (highlightedAnnotations demo_annotated).*1
  ∧ ∃ h', onunload demo_annotated = Normal tt h'
      ∧ highlightedTexts h' = []
      ∧ highlightedAnnotations h' = []
      ∧ ∀ id el, (id, el) ∈ highlightedAnnotations demo_annotated →
          ¬ attached (viewer h') (uid el).
Proof.
  assert (Hnodup : NoDup (highlightedAnnotations demo_annotated).*1).
  { vm_compute. apply NoDup_singleton. }
  split_and!; [exact demo_annotated_recorded_ok | exact Hnodup |].
  apply onunload_cleans_up; [exact demo_annotated_recorded_ok | exact Hnodup].
Defined.

(** Witness of C6: the highlights of [demo_highlighted] were made by two
    calls of [highlightText] from [demo_highlighter]; clearing undoes them,
    and every text div of the two pages holds its string again. *)
Lemma clearTextHighlight_round_trip_witness :
  recorded demo_highlighter demo_highlighted
  ∧ ∃ h', clearTextHighlight demo_highlighted = Normal tt h'
      ∧ highlightedTexts h' = []
      ∧ (∀ page index, (page, index) ∈ highlightedTexts demo_highlighted →
           ∃ layer layer' node item,
             pageTextLayer demo_highlighted page = Some layer
             ∧ pageTextLayer h' page = Some layer'
             ∧ textContentItems layer' = textContentItems layer
             ∧ array_get (textContentItems layer) index = Some item
             ∧ array_get (textDivs layer') index = Some node
             ∧ plain_text_div node (str item)
             ∧ textContent node = str item)
      ∧ (∀ page layer0, pageTextLayer demo_highlighter page = Some layer0 →
           ∃ layer', pageTextLayer h' page = Some layer'
             ∧ textContentItems layer' = textContentItems layer0
             ∧ ∀ index node0 item,
                 array_get (textDivs layer0) index = Some node0 →
                 array_get (textContentItems layer0) index = Some item →
                 plain_text_div node0 (str item) →
                 ∃ node', array_get (textDivs layer') index = Some node'
                   ∧ plain_text_div node' (str item)).
Proof.
  split; [exact demo_highlighted_recorded|].
  apply (clearTextHighlight_round_trip demo_highlighter). exact demo_highlighted_recorded.
Defined.

(** Counterexample to C6 as stated, on highlights that [highlightText] has
    recorded.  In [demo_stale] the call of [highlightText] threw at
    [textDivs[2]], which page 1 does not have, after recording four entries,
    the last one for that index: [clearTextHighlight] throws at it in turn
    and [highlightedTexts] keeps the four entries.  In [demo_scrolled_away]
    the calls completed and page 1 has lost its text layer since:
    [clearTextHighlight] returns with [highlightedTexts] as it was, and the
    first text div of page 2 has three children still. *)
Lemma clearTextHighlight_keeps_entries :
  (thrown (highlightText (Int 1) None None (Int 0) (Int 0) (Int 7) (Int 0) demo_highlighter)
   = Some (TypeError "Cannot read properties of undefined: textDivs[index]")
   ∧ highlightedTexts demo_stale = [(Int 1, Int 0); (Int 1, Int 0); (Int 1, Int 1); (Int 1, Int 2)]
   ∧ div_at demo_stale (Int 1) (Int 2) = None
   ∧ thrown (clearTextHighlight demo_stale)
     = Some (TypeError "Cannot read properties of undefined: textDiv")
   ∧ highlightedTexts (state_of (clearTextHighlight demo_stale)) = highlightedTexts demo_stale)
  ∧ (pageTextLayer demo_scrolled_away (Int 1) = None
     ∧ thrown (clearTextHighlight demo_scrolled_away) = None
     ∧ length (highlightedTexts (state_of (clearTextHighlight demo_scrolled_away))) = 7%nat
     ∧ (child_count <$> div_at (state_of (clearTextHighlight demo_scrolled_away)) (Int 2) (Int 0))
       = Some 3%nat).
Proof. split; split_and!; vm_compute; reflexivity. Qed.

(** Counterexample to C1 as stated: the link holds [page] together with
    [annotation=12R], and a four-piece [selection] as well.  The first
    branch is taken (line 734) and the [else if] of line 756 is not reached:
    the map gets the selection entry and no annotation entry. *)
Lemma annotation_beside_selection_ignored :
  let linkCache := {| link := "paper.pdf#page=1&selection=0,7,1,2&annotation=12R";
                      position_start_line := 3; position_start_offset := 40;
                      position_end_offset := 95 |} in
  let params := new_URLSearchParams (subpath_after_hash (link linkCache)) in
  let added := setBacklinks_link subpath_after_hash "note.md" linkCache ∅ in
  params_get params "page" = Some "1"
  ∧ params_get params "annotation" = Some "12R"
  ∧ params_get params "selection" = Some "0,7,1,2"
  ∧ (annotation <$> added !! Int 1) = Some []
  ∧ (length <$> (selection <$> added !! Int 1)) = Some 1%nat
  ∧ ∀ page, page ≠ Int 1 → added !! page = None.
Proof.
  intros linkCache params added. split_and!; try (vm_compute; reflexivity).
  intros page Hne. subst added linkCache.
  assert (Hadded : ∃ entry,
            setBacklinks_link subpath_after_hash "note.md"
              {| link := "paper.pdf#page=1&selection=0,7,1,2&annotation=12R";
                 position_start_line := 3; position_start_offset := 40;
                 position_end_offset := 95 |} ∅
            = <[Int 1 := entry]> ∅).
  { eexists. unfold setBacklinks_link, push_selection. reflexivity. }
  destruct Hadded as [entry ->]. rewrite lookup_insert_ne by done. apply lookup_empty.
Qed.

(** After the round trip the text layer of page 1 is the one the renderer
    made. *)
Example clearTextHighlight_demo :
  pageTextLayer (state_of (clearTextHighlight demo_highlighted)) (Int 1)
  = pageTextLayer demo_highlighter (Int 1).
Proof. vm_compute. reflexivity. Qed.

(** The second way the rename handler misses C9: [isDefault] is computed when
    the row is built.  The row of [Yellow] is built, then [Yellow] is chosen
    as the default color in the dropdown, then [Yellow] is renamed to
    [Gold]: the default color still names [Yellow], which no color has any
    more. *)
Lemma rename_default_color_stale :
  let row := addColorSetting "Yellow" "#ffd000" demo_tab in
  let tab1 := state_of (addDropdowenSetting_onChange "defaultColor" "Yellow"
                          (Some (λ _, on_plugin loadStyle_noop)) demo_tab) in
  let result := state_of (addColorSetting_onChangeName loadStyle_noop option_with_value
                            "Gold" (tab1, row)) in
  get_property (settings (tab_plugin tab1)) "defaultColor" = VString "Yellow"
  ∧ get_property (settings (tab_plugin result.1)) "defaultColor" = VString "Yellow"
  ∧ get_property (settings (tab_plugin result.1)) "colors"
    = VRecord (object_literal [("Red", "#EA5252"); ("Blue", "#7b89f4"); ("Gold", "#ffd000")])
  ∧ name result.2 = "Gold".
Proof. intros row tab1 result. subst row tab1 result. split_and!; vm_compute; reflexivity. Qed.

(** * The settings tab on the default settings *)


(** On the default settings: the color picker of [Yellow] and then [Return to
    previous color] leave the record of colors as it was. *)
Lemma color_pick_then_previous_witness :
  let row := addColorSetting "Yellow" "#ffd000" demo_tab in
  let colors := object_literal [("Yellow", "#ffd000"); ("Red", "#EA5252"); ("Blue", "#7b89f4")] in
  get_property (settings (tab_plugin demo_tab)) "colors" = VRecord colors
  ∧ (∀ p, ∃ p', loadStyle_noop p = Normal tt p' ∧ settings p' = settings p)
  ∧ colors !! name row = Some (color row)
  ∧ ∃ t1 row1,
      addColorSetting_onChangeColor loadStyle_noop "#112233" (demo_tab, row)
      = Normal tt (t1, row1)
      ∧ ∃ t2 row2,
          addColorSetting_onClickPrevious loadStyle_noop redisplay_dropdown (t1, row1)
          = (on_tab (on_plugin loadStyle_noop) >> on_tab redisplay_dropdown) (t2, row2)
          ∧ get_property (settings (tab_plugin t2)) "colors" = VRecord colors.
Proof.
  intros row colors.
  assert (Hcolors : get_property (settings (tab_plugin demo_tab)) "colors" = VRecord colors)
    by (subst colors; vm_compute; reflexivity).
  assert (Hload : ∀ p, ∃ p', loadStyle_noop p = Normal tt p' ∧ settings p' = settings p)
    by (intros p; exists p; split; reflexivity).
  assert (Hname : colors !! name row = Some (color row))
    by (subst colors row; vm_compute; reflexivity).
  split_and!; [exact Hcolors | exact Hload | exact Hname |].
  destruct (color_pick_then_previous loadStyle_noop redisplay_dropdown "#112233" demo_tab row
              colors Hcolors Hload)
    as (t1 & row1 & Hpick & _ & t2 & row2 & Hprevious & _ & Hback & _).
  exists t1, row1. split; [exact Hpick|].
  exists t2, row2. split; [exact Hprevious|]. now apply Hback.
Defined.

Lemma color_buttons_spec_witness :
  let row := addColorSetting "Red" "#EA5252" demo_tab in
  let colors := object_literal [("Yellow", "#ffd000"); ("Red", "#EA5252"); ("Blue", "#7b89f4")] in
  get_property (settings (tab_plugin demo_tab)) "colors" = VRecord colors
  ∧ (∃ t', addColorSetting_onClickDelete loadStyle_noop redisplay_dropdown (demo_tab, row)
           = (on_tab (on_plugin loadStyle_noop) >> on_tab redisplay_dropdown) (t', row)
       ∧ get_property (settings (tab_plugin t')) "colors" = VRecord (delete "Red" colors))
  ∧ (∃ t', addColor_onClick redisplay_dropdown demo_tab = redisplay_dropdown t'
       ∧ savedData (tab_plugin t') = savedData (tab_plugin demo_tab)).
Proof.
  intros row colors.
  assert (Hcolors : get_property (settings (tab_plugin demo_tab)) "colors" = VRecord colors)
    by (subst colors; vm_compute; reflexivity).
  split; [exact Hcolors|].
  destruct (color_buttons_spec loadStyle_noop redisplay_dropdown demo_tab row colors Hcolors)
    as [(t1 & Hdelete & Hdeleted & _) (t2 & Hadd & _ & _ & Hsaved)].
  split; [exists t1 | exists t2]; split; assumption.
Defined.

(** On the default settings: [Yellow] becomes [Gold], and so does the second
    option of the dropdown. *)
Lemma addColorSetting_onChangeName_renames_witness :
  let row := addColorSetting "Yellow" "#ffd000" demo_tab in
  let colors := object_literal [("Yellow", "#ffd000"); ("Red", "#EA5252"); ("Blue", "#7b89f4")] in
  get_property (settings (tab_plugin demo_tab)) "colors" = VRecord colors
  ∧ js_in "Gold" colors = false
  ∧ option_with_value (defaultColorOptions demo_tab) (name row) = inr (Some 1%nat)
  ∧ ∃ t',
      addColorSetting_onChangeName loadStyle_noop option_with_value "Gold" (demo_tab, row)
      = on_tab (on_plugin loadStyle_noop)
          (t', {| name := "Gold"; color := "#ffd000"; previousColor := "#ffd000";
                  isDefault := false; input_error := false |})
      ∧ get_property (settings (tab_plugin t')) "colors"
        = VRecord (<["Gold" := "#ffd000"]> (delete "Yellow" colors))
      ∧ defaultColorOptions t' !! 1%nat
        = Some {| option_value := "Gold"; option_textContent := "Gold" |}.
Proof.
  intros row colors.
  assert (Hcolors : get_property (settings (tab_plugin demo_tab)) "colors" = VRecord colors)
    by (subst colors; vm_compute; reflexivity).
  assert (Hin : js_in "Gold" colors = false) by (subst colors; vm_compute; reflexivity).
  assert (Hquery : option_with_value (defaultColorOptions demo_tab) (name row)
                   = inr (Some 1%nat)) by (subst row; vm_compute; reflexivity).
  split_and!; [exact Hcolors | exact Hin | exact Hquery |].
  destruct (addColorSetting_onChangeName_renames loadStyle_noop option_with_value "Gold"
              demo_tab row colors (Some 1%nat) Hcolors Hin Hquery)
    as (t' & Hrun & Hrenamed & _ & Hoptions & _).
  exists t'. split_and!; [exact Hrun | exact Hrenamed |].
  rewrite Hoptions. reflexivity.
Defined.

(** A color whose name holds a quotation mark cannot be renamed: the query
    for its option throws, and the color is gone from the record. *)
Lemma addColorSetting_onChangeName_query_throws_witness :
  let quoted := String "5" (String quotation_mark EmptyString) in
  let row := addColorSetting quoted "#00ff00" demo_tab_quoted in
  let colors := object_literal [("Yellow", "#ffd000"); (quoted, "#00ff00")] in
  get_property (settings (tab_plugin demo_tab_quoted)) "colors" = VRecord colors
  ∧ js_in "Green" colors = false
  ∧ option_of_selector (defaultColorOptions demo_tab_quoted) (name row)
    = inl (DOMException "SyntaxError")
  ∧ ∃ t',
      addColorSetting_onChangeName loadStyle_noop option_of_selector "Green"
        (demo_tab_quoted, row)
      = Abrupt (DOMException "SyntaxError")
          (t', {| name := quoted; color := "#00ff00"; previousColor := "#00ff00";
                  isDefault := false; input_error := false |})
      ∧ get_property (settings (tab_plugin t')) "colors" = VRecord (delete quoted colors)
      ∧ savedData (tab_plugin t') = None.
Proof.
  intros quoted row colors.
  assert (Hcolors : get_property (settings (tab_plugin demo_tab_quoted)) "colors"
                    = VRecord colors) by (subst colors quoted; vm_compute; reflexivity).
  assert (Hin : js_in "Green" colors = false) by (subst colors quoted; vm_compute; reflexivity).
  assert (Hquery : option_of_selector (defaultColorOptions demo_tab_quoted) (name row)
                   = inl (DOMException "SyntaxError"))
    by (subst row quoted; vm_compute; reflexivity).
  split_and!; [exact Hcolors | exact Hin | exact Hquery |].
  destruct (addColorSetting_onChangeName_query_throws loadStyle_noop option_of_selector "Green"
              demo_tab_quoted row colors (DOMException "SyntaxError") Hcolors Hin Hquery)
    as (t' & Hrun & Hdeleted & _ & _ & Hsaved & _).
  exists t'. split_and!; [exact Hrun | exact Hdeleted | exact Hsaved].
Defined.

(** After [Add a new color] on the default settings, naming the new color
    [Green] rewrites the option [Obsidian default]. *)
Lemma rename_unnamed_color_takes_default_option_witness :
  let row := addColorSetting EmptyString "#" demo_tab_added in
  let keys := ["Yellow"; "Red"; "Blue"; EmptyString] in
  let colors := object_literal [ ("Yellow", "#ffd000"); ("Red", "#EA5252"); ("Blue", "#7b89f4");
                                 (EmptyString, "#") ] in
  get_property (settings (tab_plugin demo_tab_added)) "colors" = VRecord colors
  ∧ is_Some (colors !! EmptyString)
  ∧ js_in "Green" colors = false
  ∧ head (defaultColorOptions demo_tab_added)
    = Some {| option_value := EmptyString; option_textContent := "Obsidian default" |}
  ∧ ∃ t' row',
      addColorSetting_onChangeName loadStyle_noop option_with_value "Green"
        (demo_tab_added, row)
      = on_tab (on_plugin loadStyle_noop) (t', row')
      ∧ head (defaultColorOptions t')
        = Some {| option_value := "Green"; option_textContent := "Green" |}
      ∧ (∀ el, el ∈ defaultColorOptions t' → option_value el ≠ EmptyString).
Proof.
  intros row keys colors.
  assert (Hcolors : get_property (settings (tab_plugin demo_tab_added)) "colors"
                    = VRecord colors) by (subst colors; vm_compute; reflexivity).
  assert (Hsome : is_Some (colors !! EmptyString)).
  { exists "#". subst colors. vm_compute. reflexivity. }
  assert (Hin : js_in "Green" colors = false) by (subst colors; vm_compute; reflexivity).
  assert (Hhead : head (defaultColorOptions demo_tab_added)
                  = Some {| option_value := EmptyString;
                            option_textContent := "Obsidian default" |}).
  { destruct (defaultColor_dropdown_shape keys) as (more & Hshape & _).
    change (defaultColorOptions demo_tab_added)
      with (addDropdowenSetting_options (defaultColor_dropdown keys)).
    now rewrite Hshape. }
  split_and!; [exact Hcolors | exact Hsome | exact Hin | exact Hhead |].
  assert (Hoptions : defaultColorOptions demo_tab_added
                     = addDropdowenSetting_options (defaultColor_dropdown keys))
    by (unfold demo_tab_added; reflexivity).
  assert (Hquery : option_with_value (defaultColorOptions demo_tab_added) EmptyString
                   = inr (fst <$> list_find (λ o, option_value o = EmptyString)
                                    (defaultColorOptions demo_tab_added)))
    by (unfold option_with_value; reflexivity).
  destruct (rename_unnamed_color_takes_default_option loadStyle_noop option_with_value "Green"
              demo_tab_added row colors keys Hcolors eq_refl Hsome Hin Hoptions Hquery)
    as (t' & row' & Hrun & Hfirst & Hnone & _).
  exists t', row'. split_and!; [exact Hrun | exact Hfirst | exact Hnone].
Defined.

(** On the small vault, where the settings are the defaults, the four
    handlers are all [hookEventHandlers] registers, also when the backlink
    pane holds an item for the backlink. *)
Lemma hookEventHandlers_without_hover_setting_witness :
  settings (plugin demo_highlighter) !! "highlightOnHoverBacklinkPane" = None
  ∧ registered (eventManager (state_of
      (hookEventHandlers (λ _, Some (BacklinkItemElRef 0))
         (AnnotationRef (Int 1) 0) (AnnotationElRef (Int 1) "12R") demo_highlighter)))
    = [ DomEvent (AnnotationElRef (Int 1) "12R") "mouseover" (AnnotationRef (Int 1) 0);
        DomEvent (AnnotationElRef (Int 1) "12R") "mouseout" (AnnotationRef (Int 1) 0);
        DomEvent (AnnotationElRef (Int 1) "12R") "mouseover" (AnnotationRef (Int 1) 0);
        DomEvent (AnnotationElRef (Int 1) "12R") "dblclick" (AnnotationRef (Int 1) 0) ].
Proof.
  assert (Hnone : settings (plugin demo_highlighter) !! "highlightOnHoverBacklinkPane" = None)
    by (vm_compute; reflexivity).
  split; [exact Hnone|].
  rewrite (proj2 (hookEventHandlers_without_hover_setting (λ _, Some (BacklinkItemElRef 0)))
             (AnnotationRef (Int 1) 0) (AnnotationElRef (Int 1) "12R") demo_highlighter Hnone).
  reflexivity.
Defined.

(** With [highlightColorSpecifiedOnly] on, the text layer of page 2 becoming
    ready leaves the highlighter as it is: the one selection linked on that
    page names no color. *)
Lemma textLayerReady_color_specified_only_witness :
  let h := state_of (setBacklinks subpath_after_hash {| path := "paper.pdf" |} demo_color_only) in
  setting_enabled h "highlightColorSpecifiedOnly" = true
  ∧ (length <$> (selection <$> backlinks h !! Int 2)) = Some 1%nat
  ∧ textLayerReady no_backlink_pane (Int 2) h = Normal tt h.
Proof.
  intros h.
  assert (Hsetting : setting_enabled h "highlightColorSpecifiedOnly" = true)
    by (subst h; vm_compute; reflexivity).
  split_and!; [exact Hsetting | subst h; vm_compute; reflexivity |].
  apply (textLayerReady_color_specified_only no_backlink_pane (Int 2) h Hsetting).
  intros backlink Hin.
  assert (Hcolors : forallb (λ b, negb (string_truthy (default EmptyString (colorName b))))
                      (default [] (selection <$> backlinks h !! Int 2)) = true)
    by (subst h; vm_compute; reflexivity).
  rewrite forallb_forall in Hcolors. apply negb_true_iff, Hcolors.
  now apply (proj1 (list_elem_of_In _ _)).
Defined.
